(** * Motivodo: the task API, the daily quote and the client-side filter

    A shallow embedding of [server/routes.ts] (authentication middleware,
    task handlers, quote handler and [DatabaseStorage]) and of the
    [applyFilters] closure of the [TaskList] component, followed by the
    properties of the specification that concern them.

    Conventions.
    - JavaScript strings are Rocq [string]s, held as the bytes of their
      UTF-8 form (a string with a surrogate that has no partner has none);
      [undefined]/[null] are [None].
    - [String.prototype.toLowerCase] is the engine's, by the Unicode
      Character Database it was built with: the code that calls it is
      embedded for any function [toLowerCase].
    - The two tables are lists of rows in physical order; a statement
      [select ... limit 1] returns the first matching row.
    - What the host supplies at a request (the clock, the identifier the
      database generates, the double returned by [Math.random]) is an
      explicit argument of the handler.
    - Handlers are state-passing functions: they take the database (or
      the quote cache) and return the new one with the HTTP response.
    - A statement on the tables that cannot fail leaves the [catch]
      branch of its handler (500) without counterpart; the one statement
      that fails in this model is an update that sets no column.  The
      constraints of the table declarations, which are not among the
      sources, are not enforced on writes: the foreign key of a task's
      owner is stated as [referential_integrity]. *)

From Stdlib Require Import ZArith Lia Bool Ascii String List.
From stdpp Require Import base list sorting.
Import ListNotations.

Local Open Scope Z_scope.

(* ------------------------------------------------------------------ *)
(** ** JavaScript primitives used by the code *)
(* ------------------------------------------------------------------ *)

Module Js.

(** [String.prototype.toLowerCase] is not code of the repository: the
    engine lower-cases by the Unicode Character Database it was built
    with, and a capital sigma by its place in the word.  What calls it is
    given it as [toLowerCase : string -> string], and the properties that
    need a fact about it take this one: a text and its lower-case form are
    empty together. *)
Definition lowers_empty (toLowerCase : string -> string) : Prop :=
  forall s, toLowerCase s = EmptyString <-> s = EmptyString.

(** [s.startsWith(p)] *)
Fixpoint startsWith (s p : string) : bool :=
  match p, s with
  | EmptyString, _ => true
  | String _ _, EmptyString => false
  | String c p', String d s' => Ascii.eqb c d && startsWith s' p'
  end.

(** [s.includes(sub)]: [sub] occurs in [s] at some position. *)
Fixpoint includes (s sub : string) : bool :=
  startsWith s sub ||
  match s with
  | EmptyString => false
  | String _ s' => includes s' sub
  end.

(** Truthiness of a string: the empty string is falsy. *)
Definition truthy (s : string) : bool :=
  match s with EmptyString => false | String _ _ => true end.

(** Truthiness of a [string | null] value. *)
Definition truthy_opt (o : option string) : bool :=
  match o with None => false | Some s => truthy s end.

(** [arr.includes(x)] on an array of strings. *)
Definition Array_includes (arr : list string) (x : string) : bool :=
  existsb (String.eqb x) arr.

(** [arr.includes(x)] for [x] a [string | null]: [null] is no element of
    an array of strings. *)
Definition Array_includes_opt (arr : list string) (x : option string) : bool :=
  match x with None => false | Some s => Array_includes arr s end.

(** A byte [10xxxxxx] continues a character. *)
Definition is_continuation (c : ascii) : bool :=
  ((128 <=? N_of_ascii c) && (N_of_ascii c <? 192))%N.

Definition continues (s : string) : bool :=
  match s with
  | String c _ => is_continuation c
  | EmptyString => false
  end.

(** [[...s]]: the characters of [s], each a string: a byte with the
    continuation bytes that follow it. *)
Fixpoint characters (s : string) : list string :=
  match s with
  | EmptyString => []
  | String c rest =>
      if continues rest
      then match characters rest with
           | next :: others => String c next :: others
           | [] => [String c EmptyString]
           end
      else String c EmptyString :: characters rest
  end.

Fixpoint continuation_bits (acc : N) (rest : string) : N :=
  match rest with
  | EmptyString => acc
  | String c rest' => continuation_bits (acc * 64 + N_of_ascii c mod 64)%N rest'
  end.

(** [ch.codePointAt(0)] for a string of one character. *)
Definition codePoint (ch : string) : N :=
  match ch with
  | EmptyString => 0%N
  | String c rest =>
      let b := N_of_ascii c in
      let lead := (if b <? 128 then b
                   else if b <? 224 then b mod 32
                   else if b <? 240 then b mod 16
                   else b mod 8)%N in
      continuation_bits lead rest
  end.

Definition codePoints (s : string) : list N := map codePoint (characters s).

(** The UTF-16 code units of a code point: itself, or a surrogate pair. *)
Definition utf16 (point : N) : list N :=
  (if point <? 65536 then [point]
   else [55296 + (point - 65536) / 1024; 56320 + (point - 65536) mod 1024])%N.

(** The code units of [s]: [s.charCodeAt(0)], [s.charCodeAt(1)], ... *)
Definition code_units (s : string) : list N := flat_map utf16 (codePoints s).

(** [x <= y] for strings, given as code units: the first code unit that
    differs decides, and a prefix comes first. *)
Fixpoint units_leb (x y : list N) : bool :=
  match x, y with
  | [], _ => true
  | _ :: _, [] => false
  | a :: x', b :: y' =>
      if (a <? b)%N then true
      else if (b <? a)%N then false
      else units_leb x' y'
  end.

End Js.

(* ------------------------------------------------------------------ *)
(** ** Rows of the two tables ([@shared/schema]) *)
(* ------------------------------------------------------------------ *)

(** Modelled from the spec: the row types [User] and [Task] of
    [@shared/schema], which is not among the sources.  The fields are those
    of the specification's data model, under the names the handlers and the
    components read them by; a nullable column is an [option], a timestamp
    a number of milliseconds. *)
Module User.
Record t := mk {
  id : string;
  username : string;
  password : string;   (* the stored hash *)
}.
End User.

Module Task.
Record t := mk {
  id : string;
  userId : string;
  title : string;
  description : option string;
  dueDate : option Z;
  completed : bool;
  priority : option string;
  category : option string;
  createdAt : Z;
}.
End Task.

(* ------------------------------------------------------------------ *)
(** ** Client: [TaskFiltersState] and [applyFilters] *)
(* ------------------------------------------------------------------ *)

Module TaskFiltersState.
Record t := mk {
  search : string;
  priority : list string;
  category : list string;
  completed : string;
}.
End TaskFiltersState.

Module TaskList.

Section ToLowerCase.

Variable toLowerCase : string -> string.

(** [matchesSearch], with [searchLower] the search text in lower case:
    the title includes it, or the description is there and includes it. *)
Definition matchesSearch (filters : TaskFiltersState.t) (task : Task.t) : bool :=
  let searchLower := toLowerCase (TaskFiltersState.search filters) in
  Js.includes (toLowerCase (Task.title task)) searchLower ||
  match Task.description task with
  | Some description =>
      Js.truthy description && Js.includes (toLowerCase description) searchLower
  | None => false
  end.

(** The callback given to [tasks.filter]: four guarded blocks, each
    returning [false] early, then [true]. *)
Definition keep (filters : TaskFiltersState.t) (task : Task.t) : bool :=
  if Js.truthy (TaskFiltersState.search filters) &&
     negb (matchesSearch filters task)
  then false
  else if (0 <? length (TaskFiltersState.priority filters))%nat &&
          (negb (Js.truthy_opt (Task.priority task)) ||
           negb (Js.Array_includes_opt (TaskFiltersState.priority filters)
                                       (Task.priority task)))
  then false
  else if (0 <? length (TaskFiltersState.category filters))%nat &&
          (negb (Js.truthy_opt (Task.category task)) ||
           negb (Js.Array_includes_opt (TaskFiltersState.category filters)
                                       (Task.category task)))
  then false
  else if String.eqb (TaskFiltersState.completed filters) "active" &&
          Task.completed task
  then false
  else if String.eqb (TaskFiltersState.completed filters) "completed" &&
          negb (Task.completed task)
  then false
  else true.

Definition applyFilters (filters : TaskFiltersState.t) (tasks : list Task.t)
  : list Task.t :=
  List.filter (keep filters) tasks.

(** [tasks ? applyFilters(tasks) : []], [tasks] being [undefined] until
    the query has answered. *)
Definition filteredTasks (filters : TaskFiltersState.t)
           (tasks : option (list Task.t)) : list Task.t :=
  match tasks with
  | Some tasks => applyFilters filters tasks
  | None => []
  end.

Definition activeTasks (filters : TaskFiltersState.t)
           (tasks : option (list Task.t)) : list Task.t :=
  List.filter (fun task => negb (Task.completed task)) (filteredTasks filters tasks).

Definition completedTasks (filters : TaskFiltersState.t)
           (tasks : option (list Task.t)) : list Task.t :=
  List.filter (fun task => Task.completed task) (filteredTasks filters tasks).

End ToLowerCase.

End TaskList.

Module Dashboard.
(** The initial value of the [filters] state. *)
Definition initialFilters : TaskFiltersState.t :=
  TaskFiltersState.mk EmptyString [] [] "all".

(** [set.add(x)] on a [Set] kept in insertion order. *)
Definition Set_add (set : list string) (x : string) : list string :=
  if Js.Array_includes set x then set else set ++ [x].

(** The order of [Array.prototype.sort] without a comparator, on
    strings: by their UTF-16 code units. *)
Definition string_le (a b : string) : Prop :=
  Js.units_leb (Js.code_units a) (Js.code_units b) = true.

#[global] Instance string_le_dec a b : Decision (string_le a b) :=
  bool_dec (Js.units_leb (Js.code_units a) (Js.code_units b)) true.

(** [availableCategories]: the categories of the tasks that are truthy,
    each once, sorted. *)
Definition availableCategories (tasks : option (list Task.t)) : list string :=
  match tasks with
  | None => []
  | Some tasks =>
      let categories :=
        fold_left (fun categories task =>
                     if Js.truthy_opt (Task.category task)
                     then match Task.category task with
                          | Some c => Set_add categories c
                          | None => categories
                          end
                     else categories)
                  tasks [] in
      merge_sort string_le categories
  end.

End Dashboard.

(** The [TaskFilters] component: what its handlers pass to
    [onFiltersChange], and what it derives from the filters. *)
Module TaskFilters.

Definition handleSearchChange (filters : TaskFiltersState.t) (value : string)
  : TaskFiltersState.t :=
  TaskFiltersState.mk value
                      (TaskFiltersState.priority filters)
                      (TaskFiltersState.category filters)
                      (TaskFiltersState.completed filters).

(** [arr.includes(x) ? arr.filter(y => y !== x) : [...arr, x]] *)
Definition toggle (arr : list string) (x : string) : list string :=
  if Js.Array_includes arr x
  then List.filter (fun y => negb (String.eqb y x)) arr
  else arr ++ [x].

Definition togglePriority (filters : TaskFiltersState.t) (priority : string)
  : TaskFiltersState.t :=
  let newPriorities := toggle (TaskFiltersState.priority filters) priority in
  TaskFiltersState.mk (TaskFiltersState.search filters)
                      newPriorities
                      (TaskFiltersState.category filters)
                      (TaskFiltersState.completed filters).

Definition toggleCategory (filters : TaskFiltersState.t) (category : string)
  : TaskFiltersState.t :=
  let newCategories := toggle (TaskFiltersState.category filters) category in
  TaskFiltersState.mk (TaskFiltersState.search filters)
                      (TaskFiltersState.priority filters)
                      newCategories
                      (TaskFiltersState.completed filters).

(** [onFiltersChange({ ...filters, completed: value })] *)
Definition setCompleted (filters : TaskFiltersState.t) (value : string)
  : TaskFiltersState.t :=
  TaskFiltersState.mk (TaskFiltersState.search filters)
                      (TaskFiltersState.priority filters)
                      (TaskFiltersState.category filters)
                      value.

Definition clearFilters : TaskFiltersState.t :=
  TaskFiltersState.mk EmptyString [] [] "all".

Definition hasActiveFilters (filters : TaskFiltersState.t) : bool :=
  Js.truthy (TaskFiltersState.search filters) ||
  (0 <? length (TaskFiltersState.priority filters))%nat ||
  (0 <? length (TaskFiltersState.category filters))%nat ||
  negb (String.eqb (TaskFiltersState.completed filters) "all").

Definition activeFilterCount (filters : TaskFiltersState.t) : nat :=
  ((if Js.truthy (TaskFiltersState.search filters) then 1 else 0) +
   length (TaskFiltersState.priority filters) +
   length (TaskFiltersState.category filters) +
   (if negb (String.eqb (TaskFiltersState.completed filters) "all") then 1 else 0))%nat.

(** The priorities the popover lists. *)
Definition priorityChoices : list string := ["high"; "medium"; "low"]%string.

(** What the user can do with the filter bar. *)
Inductive action :=
| TypeSearch (value : string)
| CheckPriority (priority : string)
| CheckCategory (category : string)
| SelectCompleted (value : string)
| Clear.

Definition act (filters : TaskFiltersState.t) (a : action) : TaskFiltersState.t :=
  match a with
  | TypeSearch value => handleSearchChange filters value
  | CheckPriority priority => togglePriority filters priority
  | CheckCategory category => toggleCategory filters category
  | SelectCompleted value => setCompleted filters value
  | Clear => clearFilters
  end.

(** The action is one the bar offers: a listed priority or, with
    [availableCategories] computed from the tasks at that moment, a listed
    category; a badge only removes a value that is selected. *)
Definition offered (filters : TaskFiltersState.t) (tasks : option (list Task.t))
           (a : action) : Prop :=
  match a with
  | CheckPriority priority =>
      In priority priorityChoices \/ In priority (TaskFiltersState.priority filters)
  | CheckCategory category =>
      In category (Dashboard.availableCategories tasks) \/
      In category (TaskFiltersState.category filters)
  | _ => True
  end.

(** The filters after a sequence of actions, each with the tasks the
    dashboard held when it was done. *)
Fixpoint session (filters : TaskFiltersState.t)
         (steps : list (option (list Task.t) * action)) : TaskFiltersState.t :=
  match steps with
  | [] => filters
  | (_, a) :: rest => session (act filters a) rest
  end.

(** Every action of the sequence was offered when it was done. *)
Fixpoint all_offered (filters : TaskFiltersState.t)
         (steps : list (option (list Task.t) * action)) : Prop :=
  match steps with
  | [] => True
  | (tasks, a) :: rest => offered filters tasks a /\ all_offered (act filters a) rest
  end.

End TaskFilters.

(* ------------------------------------------------------------------ *)
(** ** Request bodies and the validation schemas *)
(* ------------------------------------------------------------------ *)

Module Json.

(** A decoded JSON value ([req.body]).  [Obj] lists the properties of
    an object; a key is looked up at its first occurrence. *)
#[local] Unset Elimination Schemes.
Inductive t :=
| Null
| Bool (b : bool)
| Num (z : Z)
| Str (s : string)
| Arr (items : list t)
| Obj (fields : list (string * t)).
#[local] Set Elimination Schemes.

Fixpoint get (k : string) (fields : list (string * t)) : option t :=
  match fields with
  | [] => None
  | (k', v) :: rest => if String.eqb k k' then Some v else get k rest
  end.

End Json.

(** Modelled from the spec: [InsertTask], the data [insertTaskSchema]
    yields (title, description, due date, completed, priority, category).
    An absent key is [None]; a nullable field that is present holds
    [Some None] for [null]. *)
Module InsertTask.
Record t := mk {
  title : string;
  description : option (option string);
  dueDate : option (option Z);
  completed : option bool;
  priority : option (option string);
  category : option (option string);
}.
End InsertTask.

(** Modelled from the spec: [Partial<InsertTask>], the same fields, all
    optional. *)
Module TaskUpdates.
Record t := mk {
  title : option string;
  description : option (option string);
  dueDate : option (option Z);
  completed : option bool;
  priority : option (option string);
  category : option (option string);
}.

(** No key is given. *)
Definition sets_nothing (u : t) : bool :=
  match title u, description u, dueDate u, completed u, priority u, category u with
  | None, None, None, None, None, None => true
  | _, _, _, _, _, _ => false
  end.
End TaskUpdates.

(** [InsertUser]: what the registration handler reads of the validated
    data. *)
Module InsertUser.
Record t := mk { username : string; password : string }.
End InsertUser.

(** The validators of [zod] the schemas are built from: each reads a
    decoded JSON value and yields the parsed value, or [None] for an
    issue. *)
Module Zod.

(** [z.string()] *)
Definition string_ (v : Json.t) : option string :=
  match v with Json.Str s => Some s | _ => None end.

(** [z.string().min(1)] *)
Definition string_min1 (v : Json.t) : option string :=
  match v with
  | Json.Str s => if Js.truthy s then Some s else None
  | _ => None
  end.

(** [z.boolean()] *)
Definition boolean (v : Json.t) : option bool :=
  match v with Json.Bool b => Some b | _ => None end.

(** A timestamp, carried as milliseconds since the epoch. *)
Definition timestamp (v : Json.t) : option Z :=
  match v with Json.Num z => Some z | _ => None end.

(** [z.enum(allowed)] *)
Definition enum (allowed : list string) (v : Json.t) : option string :=
  match v with
  | Json.Str s => if Js.Array_includes allowed s then Some s else None
  | _ => None
  end.

(** [.nullable()] *)
Definition nullable {A} (p : Json.t -> option A) (v : Json.t)
  : option (option A) :=
  match v with
  | Json.Null => Some None
  | _ => match p v with Some a => Some (Some a) | None => None end
  end.

(** [.optional()] applied to the value found under a key. *)
Definition optional {A} (p : Json.t -> option A) (o : option Json.t)
  : option (option A) :=
  match o with
  | None => Some None
  | Some v => match p v with Some a => Some (Some a) | None => None end
  end.

(** A key without [.optional()]: it must be there. *)
Definition required {A} (p : Json.t -> option A) (o : option Json.t)
  : option A :=
  match o with None => None | Some v => p v end.

(** One issue per offending path, as [error.errors] has them. *)
Definition issue {A} (path : string) (r : option A) : list string :=
  match r with Some _ => [] | None => [path] end.

Definition priorities : list string := ["low"; "medium"; "high"]%string.

(** Modelled from the spec: [insertTaskSchema] of [@shared/schema],
    which is not among the sources.  The specification gives it as: a
    non-empty title is required; description, due date, completed,
    priority and category are optional; priority, if present, is one of
    low, medium, high.  Keys outside these six are dropped. *)
Definition insertTaskSchema (body : Json.t) : list string + InsertTask.t :=
  match body with
  | Json.Obj fs =>
      let title := required string_min1 (Json.get "title" fs) in
      let description := optional (nullable string_) (Json.get "description" fs) in
      let dueDate := optional (nullable timestamp) (Json.get "dueDate" fs) in
      let completed := optional boolean (Json.get "completed" fs) in
      let priority := optional (nullable (enum priorities)) (Json.get "priority" fs) in
      let category := optional (nullable string_) (Json.get "category" fs) in
      match title, description, dueDate, completed, priority, category with
      | Some t, Some d, Some dd, Some c, Some p, Some cat =>
          inr (InsertTask.mk t d dd c p cat)
      | _, _, _, _, _, _ =>
          inl (issue "title" title ++ issue "description" description ++
               issue "dueDate" dueDate ++ issue "completed" completed ++
               issue "priority" priority ++ issue "category" category)
      end
  | _ => inl [EmptyString]
  end.

(** Modelled from the spec: [insertTaskSchema.partial()], the schema
    above with the title optional as well.  A title that is given must
    still be non-empty. *)
Definition insertTaskSchema_partial (body : Json.t)
  : list string + TaskUpdates.t :=
  match body with
  | Json.Obj fs =>
      let title := optional string_min1 (Json.get "title" fs) in
      let description := optional (nullable string_) (Json.get "description" fs) in
      let dueDate := optional (nullable timestamp) (Json.get "dueDate" fs) in
      let completed := optional boolean (Json.get "completed" fs) in
      let priority := optional (nullable (enum priorities)) (Json.get "priority" fs) in
      let category := optional (nullable string_) (Json.get "category" fs) in
      match title, description, dueDate, completed, priority, category with
      | Some t, Some d, Some dd, Some c, Some p, Some cat =>
          inr (TaskUpdates.mk t d dd c p cat)
      | _, _, _, _, _, _ =>
          inl (issue "title" title ++ issue "description" description ++
               issue "dueDate" dueDate ++ issue "completed" completed ++
               issue "priority" priority ++ issue "category" category)
      end
  | _ => inl [EmptyString]
  end.

End Zod.

(** The [TaskCard] component. *)
Module TaskCard.

(** The body of the checkbox's request: [{ completed: !task.completed }]. *)
Definition toggleBody (task : Task.t) : Json.t :=
  Json.Obj [("completed"%string, Json.Bool (negb (Task.completed task)))].

End TaskCard.

(* ------------------------------------------------------------------ *)
(** ** Session tokens ([jsonwebtoken]) *)
(* ------------------------------------------------------------------ *)

Module Jwt.

(** A token is its payload, the key it was signed with and its
    validity window in seconds.  A forged or garbled token is one whose
    key is not the server's. *)
Record token := mk {
  userId : string;
  key : string;
  iat : Z;
  exp : Z;
}.

(** [jwt.sign({ userId }, secret, { expiresIn })] at second [now]. *)
Definition sign (uid secret : string) (expiresIn now : Z) : token :=
  mk uid secret now (now + expiresIn).

(** [jwt.verify(token, secret)]: the payload, or [None] where the
    library throws (bad signature, or the clock has reached [exp]). *)
Definition verify (tok : token) (secret : string) (now : Z) : option string :=
  if String.eqb (key tok) secret && (now <? exp tok)
  then Some (userId tok) else None.

End Jwt.

(* ------------------------------------------------------------------ *)
(** ** The database and [DatabaseStorage] *)
(* ------------------------------------------------------------------ *)

Module Db.
Record t := mk {
  users : list User.t;
  tasks : list Task.t;
}.
Definition empty : t := mk [] [].
End Db.

(** What the host supplies while one request is served. *)
Module Host.
Record t := mk {
  date_now : Z;               (* [Date.now()], milliseconds *)
  db_now : Z;                 (* the database's [now()] *)
  gen_random_uuid : string;   (* the identifier the database generates *)
  salt : string;              (* the salt [bcrypt] draws *)
}.
End Host.

(** [ORDER BY created_at DESC]: [a] may precede [b]. *)
Definition createdAt_desc (a b : Task.t) : Prop :=
  Task.createdAt b <= Task.createdAt a.

#[global] Instance createdAt_desc_dec a b : Decision (createdAt_desc a b) :=
  Z_le_dec (Task.createdAt b) (Task.createdAt a).

Module DatabaseStorage.

Definition getUser (db : Db.t) (id : string) : option User.t :=
  List.find (fun u => String.eqb (User.id u) id) (Db.users db).

Definition getUserByUsername (db : Db.t) (username : string) : option User.t :=
  List.find (fun u => String.eqb (User.username u) username) (Db.users db).

Definition createUser (h : Host.t) (db : Db.t) (insertUser : InsertUser.t)
  : Db.t * User.t :=
  let row := User.mk (Host.gen_random_uuid h)
                     (InsertUser.username insertUser)
                     (InsertUser.password insertUser) in
  (Db.mk (Db.users db ++ [row]) (Db.tasks db), row).

(** [where user_id = userId order by created_at desc]; rows with equal
    timestamps come out in the order the merge sort leaves them. *)
Definition getTasksByUserId (db : Db.t) (userId : string) : list Task.t :=
  merge_sort createdAt_desc
    (List.filter (fun t => String.eqb (Task.userId t) userId) (Db.tasks db)).

Definition getTask (db : Db.t) (id : string) : option Task.t :=
  List.find (fun t => String.eqb (Task.id t) id) (Db.tasks db).

(** Modelled from the spec: the row [insert into tasks values (taskData)]
    creates, with the column defaults of the table declaration, which is
    not among the sources (completed false, priority medium, the other
    optional columns null, the identifier and the creation time
    generated). *)
Definition new_task_row (h : Host.t) (userId : string) (d : InsertTask.t)
  : Task.t :=
  Task.mk (Host.gen_random_uuid h)
          userId
          (InsertTask.title d)
          (default None (InsertTask.description d))
          (default None (InsertTask.dueDate d))
          (default false (InsertTask.completed d))
          (default (Some "medium"%string) (InsertTask.priority d))
          (default None (InsertTask.category d))
          (Host.db_now h).

Definition createTask (h : Host.t) (db : Db.t)
           (taskData : InsertTask.t) (userId : string) : Db.t * Task.t :=
  let row := new_task_row h userId taskData in
  (Db.mk (Db.users db) (Db.tasks db ++ [row]), row).

(** [set(updates)] on one row: a key that is given overwrites its
    column, the other columns are kept. *)
Definition set (updates : TaskUpdates.t) (row : Task.t) : Task.t :=
  Task.mk (Task.id row)
          (Task.userId row)
          (default (Task.title row) (TaskUpdates.title updates))
          (default (Task.description row) (TaskUpdates.description updates))
          (default (Task.dueDate row) (TaskUpdates.dueDate updates))
          (default (Task.completed row) (TaskUpdates.completed updates))
          (default (Task.priority row) (TaskUpdates.priority updates))
          (default (Task.category row) (TaskUpdates.category updates))
          (Task.createdAt row).

(** [update tasks set (updates) where id = id returning *], then
    [result[0]].  The query builder throws when [updates] gives no column
    to set (no values to set): that is [None]. *)
Definition updateTask (db : Db.t) (id : string) (updates : TaskUpdates.t)
  : option (Db.t * option Task.t) :=
  if TaskUpdates.sets_nothing updates then None
  else
    let hit := fun t => String.eqb (Task.id t) id in
    let rows := List.map (fun t => if hit t then set updates t else t)
                         (Db.tasks db) in
    let result := List.map (set updates) (List.filter hit (Db.tasks db)) in
    Some (Db.mk (Db.users db) rows, head result).

Definition deleteTask (db : Db.t) (id : string) : Db.t * bool :=
  let hit := fun t => String.eqb (Task.id t) id in
  let result := List.filter hit (Db.tasks db) in
  (Db.mk (Db.users db) (List.filter (fun t => negb (hit t)) (Db.tasks db)),
   (0 <? length result)%nat).

End DatabaseStorage.

(* ------------------------------------------------------------------ *)
(** ** Requests and responses *)
(* ------------------------------------------------------------------ *)

Module Request.
Record t := mk {
  cookie : option Jwt.token;   (* [req.cookies?.[TOKEN_COOKIE]] *)
  id : string;                 (* [req.params.id] *)
  body : Json.t;
}.
End Request.

Module Response.

Inductive json :=
| Message (message : string)
| ValidationFailed (message : string) (errors : list string)
| UserJson (id username : string)
| TaskJson (task : option Task.t)
| TasksJson (tasks : list Task.t)
| QuoteJson (text author : option string).

Record t := mk {
  status : Z;
  body : json;
  set_cookie : option Jwt.token;
}.

(** [res.status(code).json(b)] and [res.json(b)] *)
Definition send (code : Z) (b : json) : t := mk code b None.
Definition ok (b : json) : t := mk 200 b None.

End Response.

(* ------------------------------------------------------------------ *)
(** ** Numbers: the doubles the quote handler computes with *)
(* ------------------------------------------------------------------ *)

Module Double.

(** A finite non-negative double: the value [m * 2^e] with a mantissa
    of at most 53 bits. *)
Record t := mk { m : Z; e : Z }.

Definition wf (x : t) : Prop := 0 <= m x < 2 ^ 53.

(** [x < 1] *)
Definition below_one (x : t) : Prop :=
  m x = 0 \/ (e x < 0 /\ m x < 2 ^ (- e x)).

(** Round the integer [n] to 53 significant bits, to nearest and ties to
    even: the result is [fst * 2 ^ snd]. *)
Definition round53 (n : Z) : Z * Z :=
  if n <? 2 ^ 53 then (n, 0)
  else
    let sh := Z.log2 n - 52 in
    let q := n / 2 ^ sh in
    let r := n mod 2 ^ sh in
    let half := 2 ^ (sh - 1) in
    if (half <? r) || ((r =? half) && Z.odd q) then (q + 1, sh) else (q, sh).

(** [x * k] for an integer [k]: the exact product, rounded. *)
Definition times (x : t) (k : Z) : t :=
  let '(m', sh) := round53 (m x * k) in mk m' (e x + sh).

(** [Math.floor(x)] *)
Definition floor (x : t) : Z :=
  if 0 <=? e x then m x * 2 ^ e x else m x / 2 ^ (- e x).

(** [a / b] for integers [0 <= a] and [0 < b] below [2^53]: the
    quotient, rounded once to 53 significant bits, to nearest and ties to
    even.  The scale [s] is the one at which the quotient has 53 bits. *)
Definition div (a b : Z) : t :=
  if a =? 0 then mk 0 0
  else
    let quotient s := (a * 2 ^ Z.max s 0) / (b * 2 ^ Z.max (- s) 0) in
    let s0 := 52 + Z.log2 b - Z.log2 a in
    let s := if quotient s0 <? 2 ^ 52 then s0 + 1 else s0 in
    let num := a * 2 ^ Z.max s 0 in
    let den := b * 2 ^ Z.max (- s) 0 in
    let q := num / den in
    let r := num mod den in
    if (den <? 2 * r) || ((2 * r =? den) && Z.odd q) then mk (q + 1) (- s)
    else mk q (- s).

(** [Math.round(x)]: the integer nearest to [x], the larger one at a
    tie, that is the floor of [x + 1/2], computed exactly. *)
Definition round (x : t) : Z :=
  if 0 <=? e x then m x * 2 ^ e x
  else (2 * m x + 2 ^ (- e x)) / 2 ^ (- e x + 1).

End Double.

(** The progress bar of the [TaskList] component. *)
Module Progress.

(** [completionPercentage]: the completed tasks that pass the filters
    over all the tasks, in per cent, rounded; 0 while there is no task. *)
Definition completionPercentage (toLowerCase : string -> string)
           (filters : TaskFiltersState.t)
           (tasks : option (list Task.t)) : Z :=
  match tasks with
  | Some all =>
      if (0 <? length all)%nat then
        Double.round
          (Double.times
             (Double.div (Z.of_nat (length (TaskList.completedTasks
                                              toLowerCase filters tasks)))
                         (Z.of_nat (length all)))
             100)
      else 0
  | None => 0
  end.

End Progress.

(* ------------------------------------------------------------------ *)
(** ** [server/routes.ts] *)
(* ------------------------------------------------------------------ *)

Module Routes.

Section Server.

(** [process.env.SESSION_SECRET] *)
Variable SESSION_SECRET : option string.

(** [insertUserSchema.safeParse]: the registration schema of
    [@shared/schema] is not among the sources and the handler is
    embedded for any such schema. *)
Variable insertUserSchema : Json.t -> list string + InsertUser.t.

(** [bcrypt.hash(password, rounds)] with the salt it drew. *)
Variable bcrypt_hash : string -> Z -> string -> string.

Definition JWT_SECRET : string :=
  match SESSION_SECRET with
  | Some s => if Js.truthy s then s else "motivodo-secret-key"%string
  | None => "motivodo-secret-key"%string
  end.

(** Seconds in ["7d"]. *)
Definition seven_days : Z := 7 * 24 * 60 * 60.

(** The clock [jsonwebtoken] reads, in seconds. *)
Definition jwt_clock (h : Host.t) : Z := Host.date_now h / 1000.

(** The middleware; [next] is the handler, run with [req.userId]. *)
Definition authenticateToken {S : Type} (h : Host.t) (req : Request.t)
           (st : S) (next : string -> S * Response.t) : S * Response.t :=
  match Request.cookie req with
  | None => (st, Response.send 401 (Response.Message "Authentication required"))
  | Some token =>
      match Jwt.verify token JWT_SECRET (jwt_clock h) with
      | Some userId => next userId
      | None =>
          (st, Response.send 401 (Response.Message "Invalid or expired token"))
      end
  end.

(** [POST /api/auth/register] *)
Definition register (h : Host.t) (db : Db.t) (req : Request.t)
  : Db.t * Response.t :=
  match insertUserSchema (Request.body req) with
  | inl errors =>
      (db, Response.send 422 (Response.ValidationFailed "Validation failed" errors))
  | inr data =>
      let username := InsertUser.username data in
      let password := InsertUser.password data in
      match DatabaseStorage.getUserByUsername db username with
      | Some _ =>
          (db, Response.send 400 (Response.Message "Username already exists"))
      | None =>
          let hashedPassword := bcrypt_hash password 10 (Host.salt h) in
          let '(db', user) :=
            DatabaseStorage.createUser h db (InsertUser.mk username hashedPassword) in
          let token := Jwt.sign (User.id user) JWT_SECRET seven_days (jwt_clock h) in
          (db', Response.mk 200
                  (Response.UserJson (User.id user) (User.username user))
                  (Some token))
      end
  end.

(** [GET /api/tasks] *)
Definition get_tasks (h : Host.t) (db : Db.t) (req : Request.t)
  : Db.t * Response.t :=
  authenticateToken h req db (fun userId =>
    let tasks := DatabaseStorage.getTasksByUserId db userId in
    (db, Response.ok (Response.TasksJson tasks))).

(** [POST /api/tasks] *)
Definition post_tasks (h : Host.t) (db : Db.t) (req : Request.t)
  : Db.t * Response.t :=
  authenticateToken h req db (fun userId =>
    match Zod.insertTaskSchema (Request.body req) with
    | inl errors =>
        (db, Response.send 422
               (Response.ValidationFailed "Validation failed" errors))
    | inr data =>
        let '(db', task) := DatabaseStorage.createTask h db data userId in
        (db', Response.ok (Response.TaskJson (Some task)))
    end).

(** [PATCH /api/tasks/:id] *)
Definition patch_task (h : Host.t) (db : Db.t) (req : Request.t)
  : Db.t * Response.t :=
  authenticateToken h req db (fun userId =>
    let id := Request.id req in
    match Zod.insertTaskSchema_partial (Request.body req) with
    | inl errors =>
        (db, Response.send 422
               (Response.ValidationFailed "Validation failed" errors))
    | inr data =>
        match DatabaseStorage.getTask db id with
        | None => (db, Response.send 404 (Response.Message "Task not found"))
        | Some task =>
            if negb (String.eqb (Task.userId task) userId)
            then (db, Response.send 403 (Response.Message "Forbidden"))
            else
              match DatabaseStorage.updateTask db id data with
              | Some (db', updatedTask) =>
                  (db', Response.ok (Response.TaskJson updatedTask))
              | None =>
                  (db, Response.send 500
                         (Response.Message "Failed to update task"))
              end
        end
    end).

(** [DELETE /api/tasks/:id] *)
Definition delete_task (h : Host.t) (db : Db.t) (req : Request.t)
  : Db.t * Response.t :=
  authenticateToken h req db (fun userId =>
    let id := Request.id req in
    match DatabaseStorage.getTask db id with
    | None => (db, Response.send 404 (Response.Message "Task not found"))
    | Some task =>
        if negb (String.eqb (Task.userId task) userId)
        then (db, Response.send 403 (Response.Message "Forbidden"))
        else
          let '(db', _) := DatabaseStorage.deleteTask db id in
          (db', Response.ok (Response.Message "Task deleted successfully"))
    end).

(** [bcrypt.compare(password, hash)] *)
Variable bcrypt_compare : string -> string -> bool.

(** [loginSchema]: a username and a password, any strings. *)
Definition loginSchema (body : Json.t) : list string + InsertUser.t :=
  match body with
  | Json.Obj fs =>
      let username := Zod.required Zod.string_ (Json.get "username" fs) in
      let password := Zod.required Zod.string_ (Json.get "password" fs) in
      match username, password with
      | Some u, Some p => inr (InsertUser.mk u p)
      | _, _ => inl (Zod.issue "username" username ++ Zod.issue "password" password)
      end
  | _ => inl [EmptyString]
  end.

(** [POST /api/auth/login] *)
Definition login (h : Host.t) (db : Db.t) (req : Request.t)
  : Db.t * Response.t :=
  match loginSchema (Request.body req) with
  | inl errors =>
      (db, Response.send 422 (Response.ValidationFailed "Validation failed" errors))
  | inr data =>
      let username := InsertUser.username data in
      let password := InsertUser.password data in
      match DatabaseStorage.getUserByUsername db username with
      | None => (db, Response.send 401 (Response.Message "Invalid credentials"))
      | Some user =>
          let isValid := bcrypt_compare password (User.password user) in
          if negb isValid
          then (db, Response.send 401 (Response.Message "Invalid credentials"))
          else
            let token := Jwt.sign (User.id user) JWT_SECRET seven_days (jwt_clock h) in
            (db, Response.mk 200
                   (Response.UserJson (User.id user) (User.username user))
                   (Some token))
      end
  end.

(** [GET /api/auth/me] *)
Definition get_me (h : Host.t) (db : Db.t) (req : Request.t)
  : Db.t * Response.t :=
  authenticateToken h req db (fun userId =>
    match DatabaseStorage.getUser db userId with
    | None => (db, Response.send 404 (Response.Message "User not found"))
    | Some user =>
        (db, Response.ok (Response.UserJson (User.id user) (User.username user)))
    end).

End Server.

(** *** The daily quote *)

Record quote := mkQuote { text : string; author : string }.

Definition quotes : list quote := [
  mkQuote "The secret of getting ahead is getting started." "Mark Twain";
  mkQuote "It always seems impossible until it's done." "Nelson Mandela";
  mkQuote "Don't watch the clock; do what it does. Keep going." "Sam Levenson";
  mkQuote "The future depends on what you do today." "Mahatma Gandhi";
  mkQuote "Believe you can and you're halfway there." "Theodore Roosevelt";
  mkQuote "Success is not final, failure is not fatal: it is the courage to continue that counts." "Winston Churchill";
  mkQuote "The only way to do great work is to love what you do." "Steve Jobs";
  mkQuote "Your limitation—it's only your imagination." "Unknown";
  mkQuote "Push yourself, because no one else is going to do it for you." "Unknown";
  mkQuote "Great things never come from comfort zones." "Unknown";
  mkQuote "Dream it. Wish it. Do it." "Unknown";
  mkQuote "Success doesn't just find you. You have to go out and get it." "Unknown";
  mkQuote "The harder you work for something, the greater you'll feel when you achieve it." "Unknown";
  mkQuote "Dream bigger. Do bigger." "Unknown";
  mkQuote "Don't stop when you're tired. Stop when you're done." "Unknown";
  mkQuote "Wake up with determination. Go to bed with satisfaction." "Unknown";
  mkQuote "Do something today that your future self will thank you for." "Sean Patrick Flanery";
  mkQuote "Little things make big days." "Unknown";
  mkQuote "It's going to be hard, but hard does not mean impossible." "Unknown";
  mkQuote "Don't wait for opportunity. Create it." "Unknown"
]%string.

(** [arr[i]]: [undefined] outside the array. *)
Definition index {A} (arr : list A) (i : Z) : option A :=
  if i <? 0 then None else nth_error arr (Z.to_nat i).

(** The value of [cachedQuote] when it is not [null].  The fields copied
    by the spread are [undefined] when there was nothing to spread. *)
Record cached := mkCached {
  cached_text : option string;
  cached_author : option string;
  date : string;
}.

(** One call of the endpoint: what the host and the URL supply. *)
Record call := mkCall {
  today : string;          (* [new Date().toDateString()] *)
  random : Double.t;       (* [Math.random()] *)
  refresh : option string; (* [req.params.refresh] *)
}.

(** [quotes[Math.floor(Math.random() * quotes.length)]] *)
Definition randomQuote (random : Double.t) : option quote :=
  index quotes (Double.floor (Double.times random (Z.of_nat (length quotes)))).

(** [{ ...randomQuote, date: today }] *)
Definition pick (c : call) : cached :=
  mkCached (option_map text (randomQuote (random c)))
           (option_map author (randomQuote (random c)))
           (today c).

(** [GET /api/quotes/daily/:refresh?]: the cache is replaced when it
    is [null] or of another day, then answered from. *)
Definition quotes_daily (cachedQuote : option cached) (c : call)
  : option cached * Response.t :=
  let q :=
    match cachedQuote with
    | None => pick c
    | Some old => if negb (String.eqb (date old) (today c)) then pick c else old
    end in
  (Some q, Response.ok (Response.QuoteJson (cached_text q) (cached_author q))).

(** The responses of a sequence of calls served by one process. *)
Fixpoint serve (cachedQuote : option cached) (calls : list call)
  : list Response.t :=
  match calls with
  | [] => []
  | c :: rest =>
      let '(cachedQuote', res) := quotes_daily cachedQuote c in
      res :: serve cachedQuote' rest
  end.

End Routes.

(* ------------------------------------------------------------------ *)
(** ** The filter as the specification words it *)
(* ------------------------------------------------------------------ *)

Module FilterSpec.

Section ToLowerCase.

Variable toLowerCase : string -> string.

(** [needle] occurs in [hay] when case is ignored: some characters of
    [hay] in a row are the characters of [needle], one by one, up to the
    case of each. *)
Definition ci_substring (needle hay : string) : Prop :=
  exists before part after,
    Js.characters hay = before ++ part ++ after /\
    map toLowerCase part = map toLowerCase (Js.characters needle).

(** The lower-case form of [needle] occurs in the lower-case form of
    [hay]. *)
Definition lowered_substring (needle hay : string) : Prop :=
  exists pre post,
    toLowerCase hay = String.append pre (String.append (toLowerCase needle) post).

(** The search criterion, case ignored. *)
Definition search_ci (f : TaskFiltersState.t) (t : Task.t) : Prop :=
  TaskFiltersState.search f = EmptyString \/
  ci_substring (TaskFiltersState.search f) (Task.title t) \/
  (exists d, Task.description t = Some d /\
             ci_substring (TaskFiltersState.search f) d).

(** The search criterion, on the lower-case forms. *)
Definition search_ok (f : TaskFiltersState.t) (t : Task.t) : Prop :=
  TaskFiltersState.search f = EmptyString \/
  lowered_substring (TaskFiltersState.search f) (Task.title t) \/
  (exists d, Task.description t = Some d /\
             lowered_substring (TaskFiltersState.search f) d).

(** A non-empty set requires the task's value to be one of its elements. *)
Definition member_ok (allowed : list string) (value : option string) : Prop :=
  allowed = [] \/ exists v, value = Some v /\ In v allowed.

(** The same, for a value that is present: a non-empty string. *)
Definition present_member_ok (allowed : list string) (value : option string)
  : Prop :=
  allowed = [] \/ exists v, value = Some v /\ v <> EmptyString /\ In v allowed.

Definition completed_ok (f : TaskFiltersState.t) (t : Task.t) : Prop :=
  (TaskFiltersState.completed f = "active"%string -> Task.completed t = false) /\
  (TaskFiltersState.completed f = "completed"%string -> Task.completed t = true).

(** All active criteria, as the specification states them: the search
    with case ignored, the sets by membership. *)
Definition claimed (f : TaskFiltersState.t) (t : Task.t) : Prop :=
  search_ci f t /\
  member_ok (TaskFiltersState.priority f) (Task.priority t) /\
  member_ok (TaskFiltersState.category f) (Task.category t) /\
  completed_ok f t.

(** All active criteria, the search on the lower-case forms. *)
Definition satisfies (f : TaskFiltersState.t) (t : Task.t) : Prop :=
  search_ok f t /\
  member_ok (TaskFiltersState.priority f) (Task.priority t) /\
  member_ok (TaskFiltersState.category f) (Task.category t) /\
  completed_ok f t.

(** The same, a priority or category having to be present. *)
Definition satisfies_present (f : TaskFiltersState.t) (t : Task.t) : Prop :=
  search_ok f t /\
  present_member_ok (TaskFiltersState.priority f) (Task.priority t) /\
  present_member_ok (TaskFiltersState.category f) (Task.category t) /\
  completed_ok f t.

End ToLowerCase.

End FilterSpec.

(** Referential integrity of the [tasks] table: the owner of every task
    is a row of [users] (the foreign key of the data model). *)
Definition referential_integrity (db : Db.t) : Prop :=
  forall t, In t (Db.tasks db) ->
            exists u, In u (Db.users db) /\ User.id u = Task.userId t.

(** The request carries a token that the middleware accepts at this
    moment, and [caller] is the identifier it attaches to the request. *)
Definition authenticated (SESSION_SECRET : option string) (h : Host.t)
           (req : Request.t) (caller : string) : Prop :=
  exists token,
    Request.cookie req = Some token /\
    Jwt.verify token (Routes.JWT_SECRET SESSION_SECRET) (Routes.jwt_clock h)
      = Some caller.

(** The rows of [tasks] owned by [userId]. *)
Definition owned_by (userId : string) (db : Db.t) : list Task.t :=
  List.filter (fun t => String.eqb (Task.userId t) userId) (Db.tasks db).

(** Invariant of the quote cache: what it holds was copied from an entry
    of the list. *)
Definition cache_from_list (cachedQuote : option Routes.cached) : Prop :=
  match cachedQuote with
  | None => True
  | Some c =>
      exists q, In q Routes.quotes /\
                Routes.cached_text c = Some (Routes.text q) /\
                Routes.cached_author c = Some (Routes.author q)
  end.

(** [Math.random()] returns a double of the interval from 0 (included)
    to 1 (excluded). *)
Definition is_random (r : Double.t) : Prop :=
  Double.wf r /\ Double.below_one r.

(** The identifiers of the [tasks] table are pairwise different (its
    primary key). *)
Definition ids_unique (db : Db.t) : Prop :=
  List.NoDup (List.map Task.id (Db.tasks db)).

(** The usernames of the [users] table are pairwise different. *)
Definition usernames_unique (db : Db.t) : Prop :=
  List.NoDup (List.map User.username (Db.users db)).

(** The identifier the database is about to generate is not in use. *)
Definition fresh_uuid (h : Host.t) (db : Db.t) : Prop :=
  forall task, In task (Db.tasks db) -> Task.id task <> Host.gen_random_uuid h.

(** The request carries a cookie the middleware refuses at this moment:
    none, one signed with another key, or one that has expired. *)
Definition refused (SESSION_SECRET : option string) (h : Host.t)
           (req : Request.t) : Prop :=
  match Request.cookie req with
  | None => True
  | Some token =>
      Jwt.key token <> Routes.JWT_SECRET SESSION_SECRET \/
      Jwt.exp token <= Routes.jwt_clock h
  end.

(* ------------------------------------------------------------------ *)
(** ** Lower-casing by the Unicode Character Database *)
(* ------------------------------------------------------------------ *)

(** What [String.prototype.toLowerCase] does with a database: each code
    point goes to its lower-case mapping, but for capital sigma, which
    goes to final sigma when a cased letter comes before it and none after
    it, case-ignorable code points being skipped (the Final_Sigma condition
    of the Unicode Standard), and to small sigma otherwise.  It gives
    the properties a function to run on; none of them relies on it. *)
Module Unicode.

Record data := {
  lower : N -> list N;          (* the lower-case mapping of a code point *)
  cased : N -> bool;
  case_ignorable : N -> bool;
}.

(** A table of ranges [(first, last)]. *)
Definition within (ranges : list (N * N)) (point : N) : bool :=
  existsb (fun r => (fst r <=? point) && (point <=? snd r))%N ranges.

(** A table of ranges [(first, last, image of first)]; a code point that
    is in no range is kept. *)
Fixpoint mapped (table : list (N * N * N)) (point : N) : N :=
  match table with
  | [] => point
  | (first, last, image) :: rest =>
      if ((first <=? point) && (point <=? last))%N
      then (image + (point - first))%N
      else mapped rest point
  end.

Section ToLowercase.

Variable ucd : data.

(** The first of [points] that is not case-ignorable is cased. *)
Fixpoint reaches_cased (points : list N) : bool :=
  match points with
  | [] => false
  | c :: rest =>
      if case_ignorable ucd c then reaches_cased rest else cased ucd c
  end.

(** [before] is read backwards from the sigma, [after] forwards. *)
Definition final_sigma (before after : list N) : bool :=
  reaches_cased before && negb (reaches_cased after).

Fixpoint toLowercase_from (before points : list N) : list N :=
  match points with
  | [] => []
  | c :: after =>
      (if (c =? 931)%N
       then if final_sigma before after then [962%N] else [963%N]
       else lower ucd c)
      ++ toLowercase_from (c :: before) after
  end.

Definition toLowercase (points : list N) : list N := toLowercase_from [] points.

End ToLowercase.

(** The UTF-8 form of a code point. *)
Definition encode_point (c : N) : string :=
  (if c <? 128 then String (ascii_of_N c) EmptyString
   else if c <? 2048 then
     String (ascii_of_N (192 + c / 64))
            (String (ascii_of_N (128 + c mod 64)) EmptyString)
   else if c <? 65536 then
     String (ascii_of_N (224 + c / 4096))
            (String (ascii_of_N (128 + (c / 64) mod 64))
                    (String (ascii_of_N (128 + c mod 64)) EmptyString))
   else
     String (ascii_of_N (240 + c / 262144))
            (String (ascii_of_N (128 + (c / 4096) mod 64))
                    (String (ascii_of_N (128 + (c / 64) mod 64))
                            (String (ascii_of_N (128 + c mod 64)) EmptyString))))%N.

Definition encode (points : list N) : string :=
  fold_right (fun c s => String.append (encode_point c) s) EmptyString points.

Definition toLowerCase (ucd : data) (s : string) : string :=
  encode (toLowercase ucd (Js.codePoints s)).

End Unicode.

(* ------------------------------------------------------------------ *)
(** ** A small installation, used to run the handlers *)
(* ------------------------------------------------------------------ *)

Module Sample.

Definition secret : option string := None.

Definition host : Host.t :=
  Host.mk 1762070400000 1762070400000 "t-4" "N9qo8uLOickgx2ZMRZoMye".

Definition alice : User.t := User.mk "u-1" "alice" "$2a$10$N9qo8uLOickgx2ZMRZoMye$pw1".
Definition bob : User.t := User.mk "u-2" "bob" "$2a$10$7EqJtq98hPqEX7fNZaFWoO$pw9".

Definition milk : Task.t :=
  Task.mk "t-1" "u-1" "Buy milk" None None false (Some "medium"%string) None
          1762000000000.
Definition rent : Task.t :=
  Task.mk "t-2" "u-2" "Pay rent" None None false (Some "high"%string)
          (Some "home"%string) 1762000500000.
Definition mum : Task.t :=
  Task.mk "t-3" "u-1" "Call mum" (Some "before Sunday"%string) None true
          (Some "low"%string) None 1762001000000.

Definition db : Db.t := Db.mk [alice; bob] [milk; rent; mum].

(** A token issued by this server for [uid], an hour before [host]. *)
Definition token (uid : string) : Jwt.token :=
  Jwt.sign uid (Routes.JWT_SECRET secret) Routes.seven_days
           (Routes.jwt_clock host - 3600).

Definition request (uid id : string) (body : Json.t) : Request.t :=
  Request.mk (Some (token uid)) id body.

(** A registration schema: a non-empty username and a password, both
    strings. *)
Definition userSchema (body : Json.t) : list string + InsertUser.t :=
  match body with
  | Json.Obj fs =>
      let username := Zod.required Zod.string_min1 (Json.get "username" fs) in
      let password := Zod.required Zod.string_ (Json.get "password" fs) in
      match username, password with
      | Some u, Some p => inr (InsertUser.mk u p)
      | _, _ => inl (Zod.issue "username" username ++ Zod.issue "password" password)
      end
  | _ => inl [EmptyString]
  end.

(** A stand-in for the hash: the salt, then the password. *)
Definition hash (password : string) (rounds : Z) (salt : string) : string :=
  String.append "$2a$10$" (String.append salt (String.append "$" password)).

Definition credentials (username password : string) : Json.t :=
  Json.Obj [("username"%string, Json.Str username);
            ("password"%string, Json.Str password)].

(** Three calls on one day, with different random numbers and refresh
    segments. *)
Definition monday : list Routes.call :=
  [ Routes.mkCall "Mon Nov 02 2026" (Double.mk 1 (-1)) None;
    Routes.mkCall "Mon Nov 02 2026" (Double.mk (2 ^ 53 - 1) (-53)) (Some "1"%string);
    Routes.mkCall "Mon Nov 02 2026" (Double.mk 0 0) (Some "2"%string) ].

(** An engine's database, for the code points up to U+00FF and the block
    Greek and Coptic (U+0370 to U+03FF); the other code points are kept
    and taken as neither cased nor case-ignorable. *)
Definition ucd : Unicode.data :=
  {| Unicode.lower := fun point =>
       [Unicode.mapped
         [ (65, 90, 97); (192, 214, 224); (216, 222, 248);
           (880, 880, 881); (882, 882, 883); (886, 886, 887);
           (895, 895, 1011); (902, 902, 940); (904, 906, 941);
           (908, 908, 972); (910, 911, 973); (913, 929, 945);
           (931, 939, 963); (975, 975, 983);
           (984, 984, 985); (986, 986, 987); (988, 988, 989);
           (990, 990, 991); (992, 992, 993); (994, 994, 995);
           (996, 996, 997); (998, 998, 999); (1000, 1000, 1001);
           (1002, 1002, 1003); (1004, 1004, 1005); (1006, 1006, 1007);
           (1012, 1012, 952); (1015, 1015, 1016); (1017, 1017, 1010);
           (1018, 1018, 1019); (1021, 1023, 891) ]%N point];
     Unicode.cased :=
       Unicode.within
         [ (65, 90); (97, 122); (170, 170); (181, 181); (186, 186);
           (192, 214); (216, 246); (248, 255);
           (880, 883); (886, 887); (890, 893); (895, 895); (902, 902);
           (904, 906); (908, 908); (910, 929); (931, 1013);
           (1015, 1023) ]%N;
     Unicode.case_ignorable :=
       Unicode.within
         [ (39, 39); (46, 46); (58, 58); (94, 94); (96, 96); (168, 168);
           (173, 173); (175, 175); (180, 180); (183, 184);
           (884, 885); (890, 890); (900, 901); (903, 903) ]%N |}.

(** [toLowerCase] of an engine with that database. *)
Definition toLowerCase : string -> string := Unicode.toLowerCase ucd.

(** A stand-in for [bcrypt.compare]: the hash is the one [hash] makes of
    the password with the salt of [host]. *)
Definition compare (password hashed : string) : bool :=
  String.eqb hashed (hash password 10 (Host.salt host)).

(** Bob at the filter bar: he checks "high", checks the category "home"
    once his tasks are there, then types a search. *)
Definition clicks : list (option (list Task.t) * TaskFilters.action) :=
  [ (None, TaskFilters.CheckPriority "high");
    (Some [rent], TaskFilters.CheckCategory "home");
    (Some [rent], TaskFilters.TypeSearch "rent") ].

End Sample.

(* ================================================================== *)
(** * Properties *)
(* ================================================================== *)

(** ** Strings *)

Lemma startsWith_spec s p :
  Js.startsWith s p = true <-> exists post, s = String.append p post.
Proof.
  revert s. induction p as [|c p IH]; intros s; simpl.
  - split; [intros _; exists s; reflexivity | destruct s; reflexivity].
  - destruct s as [|d s]; simpl.
    + split; [discriminate | intros [post H]; discriminate].
    + rewrite andb_true_iff, Ascii.eqb_eq, IH. split.
      * intros [-> [post ->]]. exists post. reflexivity.
      * intros [post H]. injection H as -> ->. split; [reflexivity | eauto].
Qed.

Lemma includes_spec s sub :
  Js.includes s sub = true <->
  exists pre post, s = String.append pre (String.append sub post).
Proof.
  induction s as [|c s IH]; cbn [Js.includes].
  - rewrite orb_false_r, startsWith_spec. split.
    + intros [post H]. exists EmptyString, post. exact H.
    + intros [pre [post H]]. destruct pre; simpl in H; [eauto | discriminate].
  - rewrite orb_true_iff, startsWith_spec, IH. split.
    + intros [[post H] | [pre [post H]]].
      * exists EmptyString, post. exact H.
      * exists (String c pre), post. simpl. rewrite H. reflexivity.
    + intros [pre [post H]]. destruct pre as [|d pre]; simpl in H.
      * left. eauto.
      * right. injection H as _ H. eauto.
Qed.

Lemma truthy_spec s : Js.truthy s = true <-> s <> EmptyString.
Proof. destruct s; simpl; split; congruence. Qed.

Lemma truthy_false s : Js.truthy s = false <-> s = EmptyString.
Proof. destruct s; simpl; split; congruence. Qed.

Lemma Array_includes_spec arr x : Js.Array_includes arr x = true <-> In x arr.
Proof.
  unfold Js.Array_includes. rewrite existsb_exists. split.
  - intros [y [Hy E]]. apply String.eqb_eq in E. subst. exact Hy.
  - intros H. exists x. split; [exact H | apply String.eqb_refl].
Qed.

Lemma append_empty_inv a b :
  String.append a b = EmptyString -> a = EmptyString /\ b = EmptyString.
Proof. destruct a; simpl; [auto | discriminate]. Qed.

(** ** The client-side filter *)

Section Filter.

Variable toLowerCase : string -> string.
Hypothesis lowers : Js.lowers_empty toLowerCase.

Lemma lowered_substring_empty_hay needle :
  FilterSpec.lowered_substring toLowerCase needle EmptyString -> needle = EmptyString.
Proof.
  intros [pre [post H]]. rewrite (proj2 (lowers EmptyString) eq_refl) in H.
  symmetry in H.
  apply append_empty_inv in H as [_ H].
  apply append_empty_inv in H as [H _].
  apply lowers. exact H.
Qed.

Variable filters : TaskFiltersState.t.

Lemma matchesSearch_spec task :
  TaskFiltersState.search filters <> EmptyString ->
  TaskList.matchesSearch toLowerCase filters task = true <->
  FilterSpec.lowered_substring toLowerCase (TaskFiltersState.search filters)
                               (Task.title task) \/
  (exists d, Task.description task = Some d /\
             FilterSpec.lowered_substring toLowerCase
                                          (TaskFiltersState.search filters) d).
Proof.
  intros Hs. unfold TaskList.matchesSearch. cbv zeta.
  rewrite orb_true_iff, includes_spec. split.
  - intros [H | H]; [left; exact H |].
    destruct (Task.description task) as [d|]; [| discriminate].
    apply andb_true_iff in H as [_ H]. apply includes_spec in H.
    right. exists d. split; [reflexivity | exact H].
  - intros [H | [d [Hd H]]]; [left; exact H |].
    right. rewrite Hd. apply andb_true_iff. split.
    + apply truthy_spec. intros ->.
      apply lowered_substring_empty_hay in H. contradiction.
    + apply includes_spec. exact H.
Qed.

(** The search block lets the task through. *)
Lemma search_block_spec task :
  Js.truthy (TaskFiltersState.search filters) &&
  negb (TaskList.matchesSearch toLowerCase filters task) = false <->
  FilterSpec.search_ok toLowerCase filters task.
Proof.
  unfold FilterSpec.search_ok.
  destruct (Js.truthy (TaskFiltersState.search filters)) eqn:Hs; cbn [andb].
  - apply truthy_spec in Hs. rewrite negb_false_iff, (matchesSearch_spec task Hs).
    split; [intros H; right; exact H | intros [H | H]; [contradiction | exact H]].
  - apply truthy_false in Hs. split; [intros _; left; exact Hs | reflexivity].
Qed.

(** The priority and the category blocks let the task through. *)
Lemma member_block_spec (allowed : list string) (value : option string) :
  (0 <? length allowed)%nat &&
  (negb (Js.truthy_opt value) || negb (Js.Array_includes_opt allowed value)) = false <->
  FilterSpec.present_member_ok allowed value.
Proof.
  unfold FilterSpec.present_member_ok. destruct allowed as [|a rest].
  - cbn [length Nat.ltb Nat.leb andb].
    split; [intros _; left; reflexivity | reflexivity].
  - change (0 <? length (a :: rest))%nat with true. cbn [andb].
    destruct value as [v|]; cbn [Js.truthy_opt Js.Array_includes_opt negb orb].
    + destruct (Js.truthy v) eqn:Hv;
        destruct (Js.Array_includes (a :: rest) v) eqn:Hin; cbn [negb orb].
      * split; [intros _ | reflexivity]. right. exists v.
        split; [reflexivity |]. split.
        -- apply truthy_spec. exact Hv.
        -- apply Array_includes_spec. exact Hin.
      * split; [discriminate |]. intros [H | [w [Hw [_ Hi]]]]; [discriminate |].
        injection Hw as <-. apply Array_includes_spec in Hi. congruence.
      * apply truthy_false in Hv. split; [discriminate |].
        intros [H | [w [Hw [Hne _]]]]; [discriminate |].
        injection Hw as <-. contradiction.
      * apply truthy_false in Hv. split; [discriminate |].
        intros [H | [w [Hw [Hne _]]]]; [discriminate |].
        injection Hw as <-. contradiction.
    + split; [discriminate |].
      intros [H | [w [Hw _]]]; discriminate.
Qed.

(** The two completion tests let the task through. *)
Lemma completed_block_spec task :
  (String.eqb (TaskFiltersState.completed filters) "active" &&
   Task.completed task = false /\
   String.eqb (TaskFiltersState.completed filters) "completed" &&
   negb (Task.completed task) = false) <->
  FilterSpec.completed_ok filters task.
Proof.
  unfold FilterSpec.completed_ok.
  destruct (String.eqb_spec (TaskFiltersState.completed filters) "active") as [Ha|Ha];
    destruct (String.eqb_spec (TaskFiltersState.completed filters) "completed") as [Hc|Hc];
    destruct (Task.completed task); cbn [andb negb]; split.
  all: try (intros [H1 H2]; try discriminate H1; try discriminate H2;
            split; intros; congruence).
  all: intros [H1 H2]; try (split; reflexivity).
  all: try (specialize (H1 Ha); discriminate H1).
  all: try (specialize (H2 Hc); discriminate H2).
Qed.

(** The callback, block by block. *)
Lemma keep_blocks task :
  TaskList.keep toLowerCase filters task = true <->
  Js.truthy (TaskFiltersState.search filters) &&
  negb (TaskList.matchesSearch toLowerCase filters task) = false /\
  FilterSpec.present_member_ok (TaskFiltersState.priority filters)
                               (Task.priority task) /\
  FilterSpec.present_member_ok (TaskFiltersState.category filters)
                               (Task.category task) /\
  FilterSpec.completed_ok filters task.
Proof.
  unfold TaskList.keep.
  rewrite <- !member_block_spec, <- completed_block_spec.
  destruct (Js.truthy (TaskFiltersState.search filters) &&
            negb (TaskList.matchesSearch toLowerCase filters task));
    [intuition discriminate |].
  destruct ((0 <? length (TaskFiltersState.priority filters))%nat && _);
    [intuition discriminate |].
  destruct ((0 <? length (TaskFiltersState.category filters))%nat && _);
    [intuition discriminate |].
  destruct (String.eqb (TaskFiltersState.completed filters) "active" && _);
    [intuition discriminate |].
  destruct (String.eqb (TaskFiltersState.completed filters) "completed" && _);
    intuition discriminate.
Qed.

Lemma keep_spec task :
  TaskList.keep toLowerCase filters task = true <->
  FilterSpec.satisfies_present toLowerCase filters task.
Proof.
  unfold FilterSpec.satisfies_present.
  rewrite keep_blocks, search_block_spec. reflexivity.
Qed.

End Filter.

Lemma filter_idempotent {A} (p : A -> bool) (l : list A) :
  List.filter p (List.filter p l) = List.filter p l.
Proof.
  induction l as [|x l IH]; simpl; [reflexivity |].
  destruct (p x) eqn:Hx; simpl; [rewrite Hx, IH |]; auto.
Qed.

Lemma filter_all {A} (p : A -> bool) (l : list A) :
  (forall x, p x = true) -> List.filter p l = l.
Proof.
  intros H. induction l as [|x l IH]; simpl; [reflexivity |].
  rewrite H, IH. reflexivity.
Qed.

Lemma filter_sublist {A} (p : A -> bool) (l : list A) :
  sublist (List.filter p l) l.
Proof.
  induction l as [|x l IH]; simpl; [constructor |].
  destruct (p x); [apply sublist_skip | apply sublist_cons]; exact IH.
Qed.

(** ** Lower-casing with a database *)

Lemma characters_cons (c : ascii) (s : string) :
  Js.characters (String c s) <> [].
Proof.
  cbn [Js.characters]. destruct (Js.continues s); [| discriminate].
  destruct (Js.characters s); discriminate.
Qed.

Lemma encode_point_cons (c : N) : Unicode.encode_point c <> EmptyString.
Proof.
  unfold Unicode.encode_point.
  destruct (c <? 128)%N; [discriminate |].
  destruct (c <? 2048)%N; [discriminate |].
  destruct (c <? 65536)%N; discriminate.
Qed.

(** A database that maps no code point to nothing lower-cases no text
    but the empty one to the empty one. *)
Lemma toLowerCase_lowers_empty (ucd : Unicode.data) :
  (forall c, Unicode.lower ucd c <> []) ->
  Js.lowers_empty (Unicode.toLowerCase ucd).
Proof.
  intros Hlower s. split; [| intros ->; reflexivity].
  destruct s as [|c s]; [reflexivity |]. intros H. exfalso.
  unfold Unicode.toLowerCase, Js.codePoints, Unicode.toLowercase in H.
  pose proof (characters_cons c s) as Hc.
  destruct (Js.characters (String c s)) as [|ch chs]; [contradiction |].
  cbn [map Unicode.toLowercase_from] in H.
  set (image := if (Js.codePoint ch =? 931)%N then _ else _) in H.
  assert (Himage : image <> []).
  { subst image. destruct (Js.codePoint ch =? 931)%N; [| apply Hlower].
    destruct (Unicode.final_sigma _ _ _); discriminate. }
  destruct image as [|x image]; [contradiction |].
  cbn [app Unicode.encode fold_right] in H.
  apply append_empty_inv in H as [H _].
  exact (encode_point_cons x H).
Qed.

Lemma sample_lowers_empty : Js.lowers_empty Sample.toLowerCase.
Proof. apply toLowerCase_lowers_empty. intros c. discriminate. Qed.

Example toLowerCase_samples :
  Sample.toLowerCase "Buy MILK" = "buy milk"%string /\
  Sample.toLowerCase "CAFÉ" = "café"%string /\
  Sample.toLowerCase "Μουσείο" = "μουσείο"%string /\
  Sample.toLowerCase "ΜΟΥΣΕ" = "μουσε"%string /\
  Sample.toLowerCase "ΜΟΥΣ" = "μους"%string /\
  Sample.toLowerCase "Σ" = "σ"%string.
Proof. vm_compute. repeat split. Qed.

Example applyFilters_search_ignores_case :
  TaskList.applyFilters Sample.toLowerCase
    (TaskFiltersState.mk "MILK" [] [] "active")
    [ Task.mk "1" "u" "Buy milk" None None false (Some "medium"%string) None 3;
      Task.mk "2" "u" "Call Bob" (Some "about the Milk run"%string) None true None None 2;
      Task.mk "3" "u" "Pay rent" None None false (Some "high"%string) None 1 ]
  = [ Task.mk "1" "u" "Buy milk" None None false (Some "medium"%string) None 3 ].
Proof. vm_compute. reflexivity. Qed.

Example applyFilters_search_beyond_ascii :
  TaskList.applyFilters Sample.toLowerCase
    (TaskFiltersState.mk "é" [] [] "all")
    [ Task.mk "1" "u" "CAFÉ" None None false None None 2;
      Task.mk "2" "u" "Cafe" None None false None None 1 ]
  = [ Task.mk "1" "u" "CAFÉ" None None false None None 2 ].
Proof. vm_compute. reflexivity. Qed.

(** Where no filter set holds the empty string (the filter bar only
    offers low, medium, high and the non-empty categories of the tasks)
    membership and membership of a present value agree. *)
Lemma satisfies_present_iff toLowerCase filters task :
  ~ In EmptyString (TaskFiltersState.priority filters) ->
  ~ In EmptyString (TaskFiltersState.category filters) ->
  FilterSpec.satisfies toLowerCase filters task <->
  FilterSpec.satisfies_present toLowerCase filters task.
Proof.
  intros Hp Hc.
  assert (M : forall allowed value, ~ In EmptyString allowed ->
            FilterSpec.member_ok allowed value <->
            FilterSpec.present_member_ok allowed value).
  { intros allowed value Hn. unfold FilterSpec.member_ok, FilterSpec.present_member_ok.
    split.
    - intros [H | [v [Hv Hi]]]; [left; exact H |]. right. exists v.
      repeat split; try assumption. intros ->. contradiction.
    - intros [H | [v [Hv [_ Hi]]]]; [left; exact H |]. right. eauto. }
  unfold FilterSpec.satisfies, FilterSpec.satisfies_present.
  rewrite (M _ (Task.priority task) Hp), (M _ (Task.category task) Hc).
  reflexivity.
Qed.

(** A set that holds the empty string, which the filter bar never
    builds: a task whose category is the empty string is an element of
    the set and is dropped, the empty string counting as no category. *)
Example empty_category_dropped :
  let filters := TaskFiltersState.mk EmptyString [] [EmptyString] "all" in
  let task := Task.mk "t1" "u1" "Buy milk" None None false
                      (Some "medium"%string) (Some EmptyString) 0 in
  FilterSpec.satisfies Sample.toLowerCase filters task /\
  In task [task] /\
  ~ In task (TaskList.applyFilters Sample.toLowerCase filters [task]).
Proof.
  cbv zeta. split; [| split].
  - unfold FilterSpec.satisfies, FilterSpec.search_ok, FilterSpec.member_ok,
      FilterSpec.completed_ok. cbn.
    repeat split; try (left; reflexivity); try discriminate.
    right. exists EmptyString. split; [reflexivity | left; reflexivity].
  - left. reflexivity.
  - cbn. intros [].
Qed.

(** C5, as stated, fails: the search is not blind to case where the
    lower-case form of a letter depends on its place.  The user types
    [ΜΟΥΣ] in the search box; the title [Μουσείο] begins with the same four
    letters, the case of each ignored, so the task meets every criterion
    of the specification; but the capital sigma that ends the search text
    is lower-cased to a final sigma, the one inside the title to a small
    sigma, and [applyFilters] drops the task. *)
Lemma C5_final_sigma_missed :
  let filters := TaskFilters.handleSearchChange Dashboard.initialFilters "ΜΟΥΣ" in
  let task := Task.mk "t1" "u1" "Μουσείο" None None false
                      (Some "medium"%string) None 0 in
  FilterSpec.claimed Sample.toLowerCase filters task /\
  In task [task] /\
  ~ In task (TaskList.applyFilters Sample.toLowerCase filters [task]).
Proof.
  cbv zeta. split; [| split].
  - unfold FilterSpec.claimed. split; [| split; [| split]].
    + right. left.
      exists [], ["Μ"; "ο"; "υ"; "σ"]%string, ["ε"; "ί"; "ο"]%string.
      split; vm_compute; reflexivity.
    + left. reflexivity.
    + left. reflexivity.
    + split; discriminate.
  - left. reflexivity.
  - vm_compute. intros [].
Qed.

(** C5 (amended): [applyFilters] returns exactly the tasks of the list
    that satisfy all active criteria, in the order of the list: the
    search text, when non-empty, must occur, in its lower-case form, in
    the lower-case form of the title or of the description; a non-empty
    priority (resp. category) set requires the task to have a priority
    (resp. category) that is a non-empty string and an element of the set;
    mode active drops completed tasks and mode completed drops the others;
    an empty text, an empty set or any other mode constrains nothing.  The
    result depends on the filters and the list only.  This holds whatever
    function the engine has for [toLowerCase], as long as it lower-cases
    the empty text, and no other, to the empty text. *)
Theorem C5_applyFilters_exact
        (toLowerCase : string -> string)
        (filters : TaskFiltersState.t) (tasks : list Task.t) :
  Js.lowers_empty toLowerCase ->
  (forall task,
      In task (TaskList.applyFilters toLowerCase filters tasks) <->
      In task tasks /\ FilterSpec.satisfies_present toLowerCase filters task) /\
  sublist (TaskList.applyFilters toLowerCase filters tasks) tasks /\
  TaskList.applyFilters toLowerCase filters tasks =
    List.filter (fun task => TaskList.keep toLowerCase filters task) tasks /\
  (forall task,
      TaskList.keep toLowerCase filters task = true <->
      FilterSpec.satisfies_present toLowerCase filters task).
Proof.
  intros Hlowers. split; [| split; [| split]].
  - intros task. unfold TaskList.applyFilters.
    rewrite filter_In, (keep_spec toLowerCase Hlowers). reflexivity.
  - apply filter_sublist.
  - reflexivity.
  - intros task. apply (keep_spec toLowerCase Hlowers).
Qed.

(** The tasks of the sample, searched for [MILK] among the active
    ones of priority medium or high. *)
Lemma C5_witness_milk :
  let filters := TaskFiltersState.mk "MILK" ["medium"; "high"]%string [] "active" in
  let tasks := Db.tasks Sample.db in
  (forall task,
      In task (TaskList.applyFilters Sample.toLowerCase filters tasks) <->
      In task tasks /\
      FilterSpec.satisfies_present Sample.toLowerCase filters task) /\
  TaskList.applyFilters Sample.toLowerCase filters tasks = [Sample.milk].
Proof.
  cbv zeta. split; [| vm_compute; reflexivity].
  exact (proj1 (C5_applyFilters_exact
                  Sample.toLowerCase
                  (TaskFiltersState.mk "MILK" ["medium"; "high"]%string [] "active")
                  (Db.tasks Sample.db) sample_lowers_empty)).
Defined.

(** C6: filtering twice with the same filters gives what filtering once
    gives, and the empty filter specification (the initial state of the
    dashboard) returns the list unchanged. *)
Theorem C6_applyFilters_idempotent
        (toLowerCase : string -> string)
        (filters : TaskFiltersState.t) (tasks : list Task.t) :
  TaskList.applyFilters toLowerCase filters
    (TaskList.applyFilters toLowerCase filters tasks) =
    TaskList.applyFilters toLowerCase filters tasks /\
  TaskList.applyFilters toLowerCase
    (TaskFiltersState.mk EmptyString [] [] "all") tasks = tasks /\
  TaskList.applyFilters toLowerCase Dashboard.initialFilters tasks = tasks.
Proof.
  split; [apply filter_idempotent |].
  split; apply filter_all; intros task; reflexivity.
Qed.

(** ** Storage *)

Lemma find_head_filter {A} (p : A -> bool) (l : list A) :
  List.find p l = head (List.filter p l).
Proof.
  induction l as [|x l IH]; simpl; [reflexivity |].
  destruct (p x); [reflexivity | exact IH].
Qed.

Lemma find_map_if {A} (p : A -> bool) (f : A -> A) (l : list A) :
  (forall x, p (f x) = p x) ->
  List.find p (List.map (fun x => if p x then f x else x) l) =
  option_map f (List.find p l).
Proof.
  intros Hp. induction l as [|x l IH]; simpl; [reflexivity |].
  destruct (p x) eqn:Hx.
  - rewrite Hp, Hx. reflexivity.
  - rewrite Hx. exact IH.
Qed.

Lemma find_In_some {A} (p : A -> bool) (l : list A) (x : A) :
  In x l -> p x = true -> exists y, List.find p l = Some y.
Proof.
  intros Hin Hx. destruct (List.find p l) as [y|] eqn:E; [eauto |].
  exfalso. pose proof (find_none p l E x Hin). congruence.
Qed.

Lemma updateTask_found db id updates task :
  TaskUpdates.sets_nothing updates = false ->
  DatabaseStorage.getTask db id = Some task ->
  exists db',
    DatabaseStorage.updateTask db id updates
      = Some (db', Some (DatabaseStorage.set updates task)) /\
    Db.users db' = Db.users db /\
    DatabaseStorage.getTask db' id = Some (DatabaseStorage.set updates task).
Proof.
  unfold DatabaseStorage.getTask, DatabaseStorage.updateTask.
  intros Hkey H. rewrite Hkey. eexists. split; [| split].
  - f_equal. f_equal. rewrite find_head_filter in H.
    destruct (List.filter _ (Db.tasks db)) as [|x l]; simpl in *; congruence.
  - reflexivity.
  - cbn [Db.tasks].
    rewrite (find_map_if (fun t => String.eqb (Task.id t) id)
                         (DatabaseStorage.set updates)).
    + rewrite H. reflexivity.
    + intros x. reflexivity.
Qed.

Lemma updateTask_nothing db id updates :
  TaskUpdates.sets_nothing updates = true ->
  DatabaseStorage.updateTask db id updates = None.
Proof. intros H. unfold DatabaseStorage.updateTask. rewrite H. reflexivity. Qed.

#[local] Instance createdAt_desc_transitive : Transitive createdAt_desc.
Proof. intros a b c. unfold createdAt_desc. lia. Qed.

#[local] Instance createdAt_desc_total : Total createdAt_desc.
Proof. intros a b. unfold createdAt_desc. lia. Qed.

Lemma getTasksByUserId_perm db userId :
  DatabaseStorage.getTasksByUserId db userId ≡ₚ owned_by userId db.
Proof. apply merge_sort_Permutation. Qed.

Lemma getTasksByUserId_sorted db userId :
  StronglySorted createdAt_desc (DatabaseStorage.getTasksByUserId db userId).
Proof. apply StronglySorted_merge_sort; typeclasses eauto. Qed.

(** ** The middleware *)

Lemma authenticateToken_passes {S : Type} secret h req caller (st : S) next :
  authenticated secret h req caller ->
  Routes.authenticateToken secret h req st next = next caller.
Proof.
  intros [token [Hc Hv]]. unfold Routes.authenticateToken.
  rewrite Hc, Hv. reflexivity.
Qed.

Lemma authenticateToken_missing {S : Type} secret h req (st : S) next :
  Request.cookie req = None ->
  Routes.authenticateToken secret h req st next =
    (st, Response.send 401 (Response.Message "Authentication required")).
Proof. intros H. unfold Routes.authenticateToken. rewrite H. reflexivity. Qed.

Lemma verify_spec token secret now :
  Jwt.key token = secret -> now < Jwt.exp token ->
  Jwt.verify token secret now = Some (Jwt.userId token).
Proof.
  intros Hk He. unfold Jwt.verify.
  rewrite (proj2 (String.eqb_eq _ _) Hk), (proj2 (Z.ltb_lt _ _) He).
  reflexivity.
Qed.

(** ** The task handlers *)

Lemma getTask_None_iff db id :
  DatabaseStorage.getTask db id = None <->
  forall task, In task (Db.tasks db) -> Task.id task <> id.
Proof.
  unfold DatabaseStorage.getTask. split.
  - intros H task Hin E.
    pose proof (find_none _ _ H task Hin) as Hf. simpl in Hf.
    apply String.eqb_neq in Hf. contradiction.
  - intros H. destruct (List.find _ (Db.tasks db)) as [task|] eqn:E; [| reflexivity].
    apply find_some in E as [Hin E]. apply String.eqb_eq in E.
    exfalso. exact (H task Hin E).
Qed.

Lemma getTask_Some db id task :
  DatabaseStorage.getTask db id = Some task ->
  In task (Db.tasks db) /\ Task.id task = id.
Proof.
  unfold DatabaseStorage.getTask. intros H.
  apply find_some in H as [Hin E]. apply String.eqb_eq in E. auto.
Qed.

(** C1, as stated, fails for [update]: the partial input is validated
    before the task is looked up, so an authenticated [PATCH] with an
    invalid input on an identifier that no task has is answered 422, not
    404. *)
Lemma C1_invalid_patch_of_absent_task :
  authenticated Sample.secret Sample.host
    (Sample.request "u-1" "t-9" (Json.Obj [("completed"%string, Json.Str "yes")]))
    "u-1" /\
  Forall (fun task => Task.id task <> "t-9"%string) (Db.tasks Sample.db) /\
  Routes.patch_task Sample.secret Sample.host Sample.db
    (Sample.request "u-1" "t-9" (Json.Obj [("completed"%string, Json.Str "yes")])) =
    (Sample.db,
     Response.send 422
       (Response.ValidationFailed "Validation failed" ["completed"%string])).
Proof.
  split; [| split].
  - exists (Sample.token "u-1"). split; vm_compute; reflexivity.
  - repeat constructor; discriminate.
  - vm_compute. reflexivity.
Qed.

(** C1 (amended): for an authenticated caller, [DELETE /api/tasks/:id]
    and, on a partial input that passes validation, [PATCH /api/tasks/:id]
    answer 404 when no task has the identifier and 403 when the task found
    is owned by someone else.  Absence is decided first (404 whoever the
    caller is), both answers carry a message only, and the database is
    left as it was.  On [PATCH] validation precedes both checks: an invalid
    input is answered 422. *)
Theorem C1_update_delete_existence_then_ownership
        (secret : option string) (h : Host.t) (db : Db.t) (req : Request.t)
        (caller : string) :
  authenticated secret h req caller ->
  ((forall task, In task (Db.tasks db) -> Task.id task <> Request.id req) ->
   Routes.delete_task secret h db req =
     (db, Response.send 404 (Response.Message "Task not found"))) /\
  (forall task,
      DatabaseStorage.getTask db (Request.id req) = Some task ->
      Task.userId task <> caller ->
      Routes.delete_task secret h db req =
        (db, Response.send 403 (Response.Message "Forbidden"))) /\
  (forall updates,
      Zod.insertTaskSchema_partial (Request.body req) = inr updates ->
      ((forall task, In task (Db.tasks db) -> Task.id task <> Request.id req) ->
       Routes.patch_task secret h db req =
         (db, Response.send 404 (Response.Message "Task not found"))) /\
      (forall task,
          DatabaseStorage.getTask db (Request.id req) = Some task ->
          Task.userId task <> caller ->
          Routes.patch_task secret h db req =
            (db, Response.send 403 (Response.Message "Forbidden")))) /\
  (forall errors,
      Zod.insertTaskSchema_partial (Request.body req) = inl errors ->
      Routes.patch_task secret h db req =
        (db, Response.send 422
               (Response.ValidationFailed "Validation failed" errors))).
Proof.
  intros Hauth.
  unfold Routes.delete_task, Routes.patch_task.
  rewrite !(authenticateToken_passes _ _ _ _ _ _ Hauth).
  split; [| split; [| split]].
  - intros Habsent. apply getTask_None_iff in Habsent. rewrite Habsent.
    reflexivity.
  - intros task -> Hne. apply String.eqb_neq in Hne. rewrite Hne. reflexivity.
  - intros updates ->. split.
    + intros Habsent. apply getTask_None_iff in Habsent. rewrite Habsent.
      reflexivity.
    + intros task -> Hne. apply String.eqb_neq in Hne. rewrite Hne. reflexivity.
  - intros errors ->. reflexivity.
Qed.

(** C2: an update that is accepted (a valid partial input giving at
    least one field, on a task of the caller) answers with a task that has
    the identifier, the owner and the creation time of the task found, in
    which every field absent from the partial input has its prior value;
    that task is what the table then holds. *)
Theorem C2_update_keeps_owner_id_and_omitted_fields
        (secret : option string) (h : Host.t) (db : Db.t) (req : Request.t)
        (caller : string) (updates : TaskUpdates.t) (task : Task.t) :
  authenticated secret h req caller ->
  Zod.insertTaskSchema_partial (Request.body req) = inr updates ->
  TaskUpdates.sets_nothing updates = false ->
  DatabaseStorage.getTask db (Request.id req) = Some task ->
  Task.userId task = caller ->
  exists db' task',
    Routes.patch_task secret h db req =
      (db', Response.ok (Response.TaskJson (Some task'))) /\
    DatabaseStorage.getTask db' (Request.id req) = Some task' /\
    Db.users db' = Db.users db /\
    Task.id task' = Task.id task /\
    Task.userId task' = Task.userId task /\
    Task.createdAt task' = Task.createdAt task /\
    (TaskUpdates.title updates = None -> Task.title task' = Task.title task) /\
    (TaskUpdates.description updates = None ->
     Task.description task' = Task.description task) /\
    (TaskUpdates.dueDate updates = None -> Task.dueDate task' = Task.dueDate task) /\
    (TaskUpdates.completed updates = None ->
     Task.completed task' = Task.completed task) /\
    (TaskUpdates.priority updates = None ->
     Task.priority task' = Task.priority task) /\
    (TaskUpdates.category updates = None ->
     Task.category task' = Task.category task).
Proof.
  intros Hauth Hvalid Hkey Hget Hown.
  destruct (updateTask_found db (Request.id req) updates task Hkey Hget)
    as [db' [Hupd [Husers Hdb]]].
  exists db', (DatabaseStorage.set updates task).
  split.
  - unfold Routes.patch_task.
    rewrite (authenticateToken_passes _ _ _ _ _ _ Hauth), Hvalid, Hget.
    rewrite (proj2 (String.eqb_eq _ _) Hown). cbn [negb].
    rewrite Hupd. reflexivity.
  - split; [exact Hdb |]. split; [exact Husers |].
    repeat split; simpl; intros ->; reflexivity.
Qed.

(** A valid partial input that gives no field is not accepted: the
    update has nothing to set and the handler answers 500. *)
Lemma patch_task_nothing_to_set
      (secret : option string) (h : Host.t) (db : Db.t) (req : Request.t)
      (caller : string) (updates : TaskUpdates.t) (task : Task.t) :
  authenticated secret h req caller ->
  Zod.insertTaskSchema_partial (Request.body req) = inr updates ->
  TaskUpdates.sets_nothing updates = true ->
  DatabaseStorage.getTask db (Request.id req) = Some task ->
  Task.userId task = caller ->
  Routes.patch_task secret h db req =
    (db, Response.send 500 (Response.Message "Failed to update task")).
Proof.
  intros Hauth Hvalid Hkey Hget Hown. unfold Routes.patch_task.
  rewrite (authenticateToken_passes _ _ _ _ _ _ Hauth), Hvalid, Hget.
  rewrite (proj2 (String.eqb_eq _ _) Hown). cbn [negb].
  rewrite (updateTask_nothing _ _ _ Hkey). reflexivity.
Qed.

Lemma insertTaskSchema_title_nonempty body data :
  Zod.insertTaskSchema body = inr data -> InsertTask.title data <> EmptyString.
Proof.
  unfold Zod.insertTaskSchema. destruct body; try discriminate.
  destruct (Zod.required Zod.string_min1 (Json.get "title" fields)) as [s|] eqn:Ht;
    [| discriminate].
  intros H.
  assert (Hs : s <> EmptyString).
  { unfold Zod.required, Zod.string_min1 in Ht.
    destruct (Json.get "title" fields) as [[| | |s'| |]|]; try discriminate.
    destruct (Js.truthy s') eqn:E; [| discriminate].
    injection Ht as <-. apply truthy_spec. exact E. }
  destruct (Zod.optional (Zod.nullable Zod.string_) (Json.get "description" fields));
    [| discriminate].
  destruct (Zod.optional (Zod.nullable Zod.timestamp) (Json.get "dueDate" fields));
    [| discriminate].
  destruct (Zod.optional Zod.boolean (Json.get "completed" fields)); [| discriminate].
  destruct (Zod.optional (Zod.nullable (Zod.enum Zod.priorities))
                         (Json.get "priority" fields)); [| discriminate].
  destruct (Zod.optional (Zod.nullable Zod.string_) (Json.get "category" fields));
    [| discriminate].
  injection H as <-. exact Hs.
Qed.

Lemma insertTaskSchema_rejects_title fields :
  Json.get "title" fields = None \/
  Json.get "title" fields = Some (Json.Str EmptyString) ->
  exists errors,
    Zod.insertTaskSchema (Json.Obj fields) = inl errors /\ In "title"%string errors.
Proof.
  intros H. unfold Zod.insertTaskSchema.
  assert (Ht : Zod.required Zod.string_min1 (Json.get "title" fields) = None)
    by (destruct H as [-> | ->]; reflexivity).
  rewrite Ht. eexists. split; [reflexivity |]. left. reflexivity.
Qed.

(** C3: [POST /api/tasks] validates the body before it touches the
    tables.  A body whose title is missing or empty, like any body the
    schema rejects, is answered 422 and the database is left as it was; a
    body the schema accepts (its title is then non-empty) adds one row
    owned by the caller and answers with that row.  A body made of a
    non-empty title alone is accepted. *)
Theorem C3_create_validates_then_persists
        (secret : option string) (h : Host.t) (db : Db.t) (req : Request.t)
        (caller : string) :
  authenticated secret h req caller ->
  (forall fields,
      Request.body req = Json.Obj fields ->
      Json.get "title" fields = None \/
      Json.get "title" fields = Some (Json.Str EmptyString) ->
      exists errors,
        In "title"%string errors /\
        Routes.post_tasks secret h db req =
          (db, Response.send 422
                 (Response.ValidationFailed "Validation failed" errors))) /\
  (forall errors,
      Zod.insertTaskSchema (Request.body req) = inl errors ->
      Routes.post_tasks secret h db req =
        (db, Response.send 422
               (Response.ValidationFailed "Validation failed" errors))) /\
  (forall data,
      Zod.insertTaskSchema (Request.body req) = inr data ->
      exists task,
        Routes.post_tasks secret h db req =
          (Db.mk (Db.users db) (Db.tasks db ++ [task]),
           Response.ok (Response.TaskJson (Some task))) /\
        Task.userId task = caller /\
        Task.title task = InsertTask.title data /\
        Task.title task <> EmptyString) /\
  (forall title,
      title <> EmptyString ->
      Request.body req = Json.Obj [("title"%string, Json.Str title)] ->
      exists data,
        Zod.insertTaskSchema (Request.body req) = inr data /\
        InsertTask.title data = title).
Proof.
  intros Hauth. unfold Routes.post_tasks.
  rewrite (authenticateToken_passes _ _ _ _ _ _ Hauth).
  split; [| split; [| split]].
  - intros fields Hb Ht.
    destruct (insertTaskSchema_rejects_title fields Ht) as [errors [He Hin]].
    exists errors. split; [exact Hin |]. rewrite Hb, He. reflexivity.
  - intros errors ->. reflexivity.
  - intros data Hd. rewrite Hd.
    exists (DatabaseStorage.new_task_row h caller data).
    repeat split. simpl. exact (insertTaskSchema_title_nonempty _ _ Hd).
  - intros title Hne ->. apply truthy_spec in Hne.
    unfold Zod.insertTaskSchema. cbn. rewrite Hne. eexists. split; reflexivity.
Qed.

(** ** Listing *)

Lemma filter_nil_of_all_false {A} (p : A -> bool) (l : list A) :
  (forall x, In x l -> p x = false) -> List.filter p l = [].
Proof.
  intros H. induction l as [|x l IH]; simpl; [reflexivity |].
  rewrite (H x (or_introl eq_refl)). apply IH. intros y Hy. apply H. right. exact Hy.
Qed.

(** C4: [GET /api/tasks] answers an authenticated caller with exactly
    the rows owned by the caller (a permutation of them, so none is lost,
    repeated or foreign), newest first. *)
Theorem C4_list_owned_newest_first
        (secret : option string) (h : Host.t) (db : Db.t) (req : Request.t)
        (caller : string) :
  authenticated secret h req caller ->
  exists tasks,
    Routes.get_tasks secret h db req = (db, Response.ok (Response.TasksJson tasks)) /\
    tasks ≡ₚ owned_by caller db /\
    (forall task,
        In task tasks <-> In task (Db.tasks db) /\ Task.userId task = caller) /\
    StronglySorted (fun a b => Task.createdAt b <= Task.createdAt a) tasks.
Proof.
  intros Hauth. exists (DatabaseStorage.getTasksByUserId db caller).
  split; [| split; [| split]].
  - unfold Routes.get_tasks.
    rewrite (authenticateToken_passes _ _ _ _ _ _ Hauth). reflexivity.
  - apply getTasksByUserId_perm.
  - intros task. rewrite <- !list_elem_of_In.
    rewrite (getTasksByUserId_perm db caller). rewrite !list_elem_of_In.
    unfold owned_by. rewrite filter_In, String.eqb_eq. reflexivity.
  - apply getTasksByUserId_sorted.
Qed.

(** C9: a token with the server's signature that has not expired is
    accepted whether or not a user with its [userId] still exists; with no
    such user, and every task owned by an existing user, [GET /api/tasks]
    answers 200 with the empty list. *)
Theorem C9_token_of_missing_user_lists_nothing
        (secret : option string) (h : Host.t) (db : Db.t) (req : Request.t)
        (token : Jwt.token) :
  Request.cookie req = Some token ->
  Jwt.key token = Routes.JWT_SECRET secret ->
  Routes.jwt_clock h < Jwt.exp token ->
  (forall u, In u (Db.users db) -> User.id u <> Jwt.userId token) ->
  referential_integrity db ->
  DatabaseStorage.getUser db (Jwt.userId token) = None /\
  Routes.get_tasks secret h db req = (db, Response.ok (Response.TasksJson [])).
Proof.
  intros Hc Hk He Hnone Hfk. split.
  - unfold DatabaseStorage.getUser.
    destruct (List.find _ (Db.users db)) as [u|] eqn:E; [| reflexivity].
    apply find_some in E as [Hin E]. apply String.eqb_eq in E.
    exfalso. exact (Hnone u Hin E).
  - unfold Routes.get_tasks.
    rewrite (authenticateToken_passes secret h req (Jwt.userId token)).
    + unfold DatabaseStorage.getTasksByUserId.
      rewrite filter_nil_of_all_false; [reflexivity |].
      intros t Hin. apply String.eqb_neq. intros E.
      destruct (Hfk t Hin) as [u [Hu Hid]].
      apply (Hnone u Hu). congruence.
    + exists token. split; [exact Hc | apply verify_spec; assumption].
Qed.

(** ** The random index *)

Lemma round53_bounds n :
  0 <= n < 20 * 2 ^ 53 ->
  0 <= fst (Double.round53 n) /\
  0 <= snd (Double.round53 n) /\
  fst (Double.round53 n) * 2 ^ snd (Double.round53 n) <= n + 16.
Proof.
  intros [Hn0 Hn]. unfold Double.round53.
  destruct (Z.ltb_spec n (2 ^ 53)) as [Hlt | Hge]; simpl fst; simpl snd.
  - change (2 ^ 0) with 1. lia.
  - assert (Hlo : 53 <= Z.log2 n).
    { change 53 with (Z.log2 (2 ^ 53)). apply Z.log2_le_mono. exact Hge. }
    assert (Hhi : Z.log2 n < 58).
    { apply Z.log2_lt_pow2; [lia |]. change (2 ^ 58) with (32 * 2 ^ 53). lia. }
    set (sh := Z.log2 n - 52) in *.
    assert (Hsh : 1 <= sh <= 5) by (unfold sh; lia).
    set (P := 2 ^ sh). set (half := 2 ^ (sh - 1)).
    assert (HP : P = 2 * half).
    { unfold P, half. replace sh with (Z.succ (sh - 1)) at 1 by lia.
      apply Z.pow_succ_r. lia. }
    assert (Hhalf : 0 < half <= 16).
    { unfold half. split; [apply Z.pow_pos_nonneg; lia |].
      change 16 with (2 ^ 4). apply Z.pow_le_mono_r; lia. }
    pose proof (Z.div_mod n P ltac:(lia)) as Hdm.
    pose proof (Z.mod_pos_bound n P ltac:(lia)) as Hr.
    assert (Hq : 0 <= n / P) by (apply Z.div_pos; lia).
    destruct ((half <? n mod P) || ((n mod P =? half) && Z.odd (n / P))) eqn:Hup;
      simpl fst; simpl snd; fold P.
    + assert (half <= n mod P).
      { apply orb_true_iff in Hup as [H | H].
        - apply Z.ltb_lt in H. lia.
        - apply andb_true_iff in H as [H _]. apply Z.eqb_eq in H. lia. }
      lia.
    + lia.
Qed.

Lemma random_index_in_bounds (r : Double.t) :
  Double.wf r -> Double.below_one r ->
  0 <= Double.floor (Double.times r 20) < 20.
Proof.
  intros [Hm0 Hm] Hlt. unfold Double.times.
  pose proof (round53_bounds (Double.m r * 20) ltac:(lia)) as [H0 [Hs HN]].
  destruct (Double.round53 (Double.m r * 20)) as [m' sh] eqn:ER.
  simpl fst in *; simpl snd in *. unfold Double.floor. simpl Double.m; simpl Double.e.
  destruct Hlt as [Hz | [He Hlt]].
  - rewrite Hz in ER. cbn in ER. injection ER as <- <-.
    destruct (Z.leb_spec 0 (Double.e r + 0)); [lia |].
    rewrite Z.div_0_l; [lia |]. apply Z.pow_nonzero; lia.
  - set (E := - Double.e r) in *.
    assert (HE : 0 < 2 ^ E) by (apply Z.pow_pos_nonneg; lia).
    assert (HN' : m' * 2 ^ sh < 20 * 2 ^ E) by lia.
    destruct (Z.leb_spec 0 (Double.e r + sh)) as [Hpos | Hneg].
    + assert (Hsplit : 2 ^ sh = 2 ^ (Double.e r + sh) * 2 ^ E).
      { rewrite <- Z.pow_add_r by (unfold E; lia). f_equal. unfold E. lia. }
      assert (0 < 2 ^ (Double.e r + sh)) by (apply Z.pow_pos_nonneg; lia).
      rewrite Hsplit in HN'. split; [nia | nia].
    + assert (Hsplit : 2 ^ E = 2 ^ (- (Double.e r + sh)) * 2 ^ sh).
      { rewrite <- Z.pow_add_r by (unfold E; lia). f_equal. unfold E. lia. }
      assert (0 < 2 ^ (- (Double.e r + sh))) by (apply Z.pow_pos_nonneg; lia).
      assert (0 < 2 ^ sh) by (apply Z.pow_pos_nonneg; lia).
      split; [apply Z.div_pos; lia |].
      apply Z.div_lt_upper_bound; [lia |].
      rewrite Hsplit in HN'. nia.
Qed.

Example random_index_largest :
  Double.floor (Double.times (Double.mk (2 ^ 53 - 1) (-53)) 20) = 19.
Proof. reflexivity. Qed.

Lemma index_in_bounds {A} (arr : list A) (i : Z) :
  0 <= i < Z.of_nat (length arr) ->
  exists x, Routes.index arr i = Some x /\ In x arr.
Proof.
  intros [H0 H1]. unfold Routes.index.
  destruct (Z.ltb_spec i 0) as [Hneg | _]; [lia |].
  destruct (nth_error arr (Z.to_nat i)) as [x|] eqn:E.
  - exists x. split; [reflexivity |]. exact (nth_error_In _ _ E).
  - apply nth_error_None in E. lia.
Qed.

Lemma randomQuote_in_list (r : Double.t) :
  Double.wf r -> Double.below_one r ->
  exists q, Routes.randomQuote r = Some q /\ In q Routes.quotes.
Proof.
  intros Hwf Hlt. unfold Routes.randomQuote. apply index_in_bounds.
  change (Z.of_nat (length Routes.quotes)) with 20.
  apply random_index_in_bounds; assumption.
Qed.

(** ** The daily quote *)

(** The cache after a call is of the day of the call. *)
Lemma quotes_daily_date cachedQuote c :
  exists q, fst (Routes.quotes_daily cachedQuote c) = Some q /\
            Routes.date q = Routes.today c.
Proof.
  unfold Routes.quotes_daily. simpl. eexists. split; [reflexivity |].
  destruct cachedQuote as [old|]; [| reflexivity].
  destruct (String.eqb_spec (Routes.date old) (Routes.today c)) as [E | E];
    simpl; [exact E | reflexivity].
Qed.

(** A call on the day of the cache answers from it and keeps it. *)
Lemma quotes_daily_cached q c :
  Routes.date q = Routes.today c ->
  Routes.quotes_daily (Some q) c =
    (Some q, Response.ok (Response.QuoteJson (Routes.cached_text q)
                                             (Routes.cached_author q))).
Proof.
  intros E. unfold Routes.quotes_daily.
  rewrite (proj2 (String.eqb_eq _ _) E). reflexivity.
Qed.

Lemma serve_cached q calls :
  (forall c, In c calls -> Routes.today c = Routes.date q) ->
  forall res, In res (Routes.serve (Some q) calls) ->
    res = Response.ok (Response.QuoteJson (Routes.cached_text q)
                                          (Routes.cached_author q)).
Proof.
  induction calls as [|c rest IH]; intros Hday res Hin; [destruct Hin |].
  cbn [Routes.serve] in Hin.
  rewrite (quotes_daily_cached q c) in Hin
    by (symmetry; apply Hday; left; reflexivity).
  destruct Hin as [<- | Hin]; [reflexivity |].
  apply IH; [| exact Hin]. intros c' Hc'. apply Hday. right. exact Hc'.
Qed.

(** C7: the calls of one calendar day are all answered with the pair
    the first of them is answered with; two successive answers differ only
    if their days differ; the refresh segment of the URL has no part in
    the answer. *)
Theorem C7_same_quote_within_a_day
        (cachedQuote : option Routes.cached) (first : Routes.call)
        (rest : list Routes.call) :
  (forall c, In c rest -> Routes.today c = Routes.today first) ->
  (forall res,
      In res (Routes.serve cachedQuote (first :: rest)) ->
      res = snd (Routes.quotes_daily cachedQuote first)) /\
  (forall c1 c2,
      snd (Routes.quotes_daily cachedQuote c1) <>
      snd (Routes.quotes_daily (fst (Routes.quotes_daily cachedQuote c1)) c2) ->
      Routes.today c1 <> Routes.today c2) /\
  (forall c refresh,
      Routes.quotes_daily cachedQuote
        (Routes.mkCall (Routes.today c) (Routes.random c) refresh) =
      Routes.quotes_daily cachedQuote c).
Proof.
  intros Hday. split; [| split].
  - intros res Hin. cbn [Routes.serve] in Hin.
    destruct (quotes_daily_date cachedQuote first) as [q [Hq Hd]].
    destruct (Routes.quotes_daily cachedQuote first) as [cache' r] eqn:E.
    simpl in Hq. subst cache'. simpl.
    assert (Hr : r = Response.ok (Response.QuoteJson (Routes.cached_text q)
                                                     (Routes.cached_author q))).
    { unfold Routes.quotes_daily in E. injection E as E1 E2.
      rewrite <- E2, E1. reflexivity. }
    destruct Hin as [<- | Hin]; [reflexivity |].
    rewrite Hr. apply (serve_cached q rest); [| exact Hin].
    intros c Hc. rewrite Hd. apply Hday. exact Hc.
  - intros c1 c2 Hne Heq. apply Hne.
    destruct (quotes_daily_date cachedQuote c1) as [q [Hq Hd]].
    destruct (Routes.quotes_daily cachedQuote c1) as [cache' r] eqn:E.
    simpl in Hq. subst cache'. cbn [fst snd].
    rewrite (quotes_daily_cached q c2) by congruence. cbn [snd].
    unfold Routes.quotes_daily in E. injection E as E1 E2.
    rewrite <- E2, E1. reflexivity.
  - intros c refresh. reflexivity.
Qed.

Lemma quotes_daily_from_list cachedQuote c :
  cache_from_list cachedQuote ->
  is_random (Routes.random c) ->
  cache_from_list (fst (Routes.quotes_daily cachedQuote c)) /\
  exists q, In q Routes.quotes /\
            snd (Routes.quotes_daily cachedQuote c) =
              Response.ok (Response.QuoteJson (Some (Routes.text q))
                                              (Some (Routes.author q))).
Proof.
  intros Hinv [Hwf Hlt].
  destruct (randomQuote_in_list _ Hwf Hlt) as [q [Hq Hin]].
  assert (Hpick : cache_from_list (Some (Routes.pick c))).
  { exists q. unfold Routes.pick. rewrite Hq. simpl. auto. }
  unfold Routes.quotes_daily. cbn [fst snd].
  set (chosen := match cachedQuote with
                 | None => Routes.pick c
                 | Some old =>
                     if negb (String.eqb (Routes.date old) (Routes.today c))
                     then Routes.pick c else old
                 end).
  assert (Hchosen : cache_from_list (Some chosen)).
  { unfold chosen. destruct cachedQuote as [old|]; [| exact Hpick].
    destruct (negb _); [exact Hpick | exact Hinv]. }
  split; [exact Hchosen |].
  destruct Hchosen as [q' [Hin' [Ht Ha]]].
  exists q'. split; [exact Hin' |]. rewrite Ht, Ha. reflexivity.
Qed.

Lemma serve_from_list calls :
  forall cachedQuote,
    cache_from_list cachedQuote ->
    (forall c, In c calls -> is_random (Routes.random c)) ->
    forall res, In res (Routes.serve cachedQuote calls) ->
      exists q, In q Routes.quotes /\
                res = Response.ok (Response.QuoteJson (Some (Routes.text q))
                                                      (Some (Routes.author q))).
Proof.
  induction calls as [|c rest IH]; intros cachedQuote Hinv Hrand res Hin;
    [destruct Hin |].
  cbn [Routes.serve] in Hin.
  destruct (quotes_daily_from_list cachedQuote c Hinv (Hrand c (or_introl eq_refl)))
    as [Hinv' Hres].
  destruct (Routes.quotes_daily cachedQuote c) as [cache' r].
  cbn [fst snd] in *. destruct Hin as [<- | Hin]; [exact Hres |].
  apply (IH cache' Hinv'); [| exact Hin].
  intros c' Hc'. apply Hrand. right. exact Hc'.
Qed.

(** C10: whatever calls were served since the process started, each
    answer of the endpoint is 200 with the text and the author of one of
    the twenty entries of the list: the index computed from the random
    number is a position of the list. *)
Theorem C10_quote_always_from_list (calls : list Routes.call) :
  (forall c, In c calls -> is_random (Routes.random c)) ->
  length Routes.quotes = 20%nat /\
  (forall c, In c calls ->
     0 <= Double.floor (Double.times (Routes.random c)
                                     (Z.of_nat (length Routes.quotes))) < 20) /\
  (forall res,
      In res (Routes.serve None calls) ->
      Response.status res = 200 /\
      exists q, In q Routes.quotes /\
                Response.body res =
                  Response.QuoteJson (Some (Routes.text q)) (Some (Routes.author q))).
Proof.
  intros Hrand. split; [reflexivity |]. split.
  - intros c Hc. destruct (Hrand c Hc) as [Hwf Hlt].
    apply random_index_in_bounds; assumption.
  - intros res Hin.
    destruct (serve_from_list calls None I Hrand res Hin) as [q [Hq ->]].
    split; [reflexivity |]. exists q. split; [exact Hq | reflexivity].
Qed.

(** ** Registration *)

Section Register.

Context (secret : option string)
        (insertUserSchema : Json.t -> list string + InsertUser.t)
        (bcrypt_hash : string -> Z -> string -> string).

(** C8: registering a username that a user of the database already
    has is answered 400 (username already exists) and leaves the database
    as it was: the stored hash of that user is untouched and no row is
    added. *)
Theorem C8_register_taken_username_conflict
        (h : Host.t) (db : Db.t) (req : Request.t)
        (data : InsertUser.t) (existing : User.t) :
  insertUserSchema (Request.body req) = inr data ->
  In existing (Db.users db) ->
  User.username existing = InsertUser.username data ->
  Routes.register secret insertUserSchema bcrypt_hash h db req =
    (db, Response.send 400 (Response.Message "Username already exists")).
Proof.
  intros Hvalid Hin Hname. unfold Routes.register. rewrite Hvalid.
  destruct (find_In_some
              (fun u => String.eqb (User.username u) (InsertUser.username data))
              (Db.users db) existing Hin) as [u Hu].
  - apply String.eqb_eq. exact Hname.
  - unfold DatabaseStorage.getUserByUsername. rewrite Hu. reflexivity.
Qed.

(** A body the schema rejects is answered 422, before any lookup. *)
Lemma register_rejected_body
      (h : Host.t) (db : Db.t) (req : Request.t) (errors : list string) :
  insertUserSchema (Request.body req) = inl errors ->
  Routes.register secret insertUserSchema bcrypt_hash h db req =
    (db, Response.send 422
           (Response.ValidationFailed "Validation failed" errors)).
Proof. intros H. unfold Routes.register. rewrite H. reflexivity. Qed.

(** A fresh username is registered: one row is added, holding the hash
    and not the password, and the answer carries a token for the new
    identifier, valid seven days. *)
Lemma register_fresh_username
      (h : Host.t) (db : Db.t) (req : Request.t) (data : InsertUser.t) :
  insertUserSchema (Request.body req) = inr data ->
  (forall u, In u (Db.users db) -> User.username u <> InsertUser.username data) ->
  let user := User.mk (Host.gen_random_uuid h) (InsertUser.username data)
                      (bcrypt_hash (InsertUser.password data) 10 (Host.salt h)) in
  Routes.register secret insertUserSchema bcrypt_hash h db req =
    (Db.mk (Db.users db ++ [user]) (Db.tasks db),
     Response.mk 200 (Response.UserJson (User.id user) (User.username user))
                 (Some (Jwt.sign (User.id user) (Routes.JWT_SECRET secret)
                                 (7 * 24 * 60 * 60) (Routes.jwt_clock h)))).
Proof.
  intros Hvalid Hfresh. unfold Routes.register. rewrite Hvalid.
  assert (Hnone : DatabaseStorage.getUserByUsername db (InsertUser.username data)
                  = None).
  { unfold DatabaseStorage.getUserByUsername.
    destruct (List.find _ (Db.users db)) as [u|] eqn:E; [| reflexivity].
    apply find_some in E as [Hin E]. apply String.eqb_eq in E.
    exfalso. exact (Hfresh u Hin E). }
  rewrite Hnone. reflexivity.
Qed.

End Register.

(* ------------------------------------------------------------------ *)
(** ** The properties at work on the sample installation *)
(* ------------------------------------------------------------------ *)

Lemma sample_authenticated uid id body :
  authenticated Sample.secret Sample.host (Sample.request uid id body) uid.
Proof.
  exists (Sample.token uid). split; [reflexivity |].
  apply verify_spec; [reflexivity | vm_compute; reflexivity].
Qed.

(** Alice may neither change nor delete Bob's task, and a task that is
    not there is not found. *)
Lemma C1_witness_alice_and_bobs_task :
  let patch := Json.Obj [("completed"%string, Json.Bool true)] in
  Routes.delete_task Sample.secret Sample.host Sample.db
                     (Sample.request "u-1" "t-2" patch) =
    (Sample.db, Response.send 403 (Response.Message "Forbidden")) /\
  Routes.patch_task Sample.secret Sample.host Sample.db
                    (Sample.request "u-1" "t-2" patch) =
    (Sample.db, Response.send 403 (Response.Message "Forbidden")) /\
  Routes.delete_task Sample.secret Sample.host Sample.db
                     (Sample.request "u-1" "t-9" patch) =
    (Sample.db, Response.send 404 (Response.Message "Task not found")) /\
  Routes.patch_task Sample.secret Sample.host Sample.db
                    (Sample.request "u-1" "t-9" patch) =
    (Sample.db, Response.send 404 (Response.Message "Task not found")).
Proof.
  cbv zeta.
  set (patch := Json.Obj [("completed"%string, Json.Bool true)]).
  destruct (C1_update_delete_existence_then_ownership
              Sample.secret Sample.host Sample.db
              (Sample.request "u-1" "t-2" patch) "u-1"
              (sample_authenticated "u-1" "t-2" patch)) as [_ [D2 [P2 _]]].
  destruct (C1_update_delete_existence_then_ownership
              Sample.secret Sample.host Sample.db
              (Sample.request "u-1" "t-9" patch) "u-1"
              (sample_authenticated "u-1" "t-9" patch)) as [D9 [_ [P9 _]]].
  destruct (P2 (TaskUpdates.mk None None None (Some true) None None) eq_refl)
    as [_ F2].
  destruct (P9 (TaskUpdates.mk None None None (Some true) None None) eq_refl)
    as [N9 _].
  split; [apply (D2 Sample.rent); [reflexivity | discriminate] |].
  split; [apply (F2 Sample.rent); [reflexivity | discriminate] |].
  assert (Habsent : forall task, In task (Db.tasks Sample.db) ->
                                 Task.id task <> "t-9"%string).
  { intros task [<- | [<- | [<- | []]]]; discriminate. }
  split; [apply D9; exact Habsent | apply N9; exact Habsent].
Defined.

(** Alice completes her task: the title, the owner and the identifier
    stay. *)
Lemma C2_witness_complete_buy_milk :
  let req := Sample.request "u-1" "t-1"
                            (Json.Obj [("completed"%string, Json.Bool true)]) in
  exists db' task',
    Routes.patch_task Sample.secret Sample.host Sample.db req =
      (db', Response.ok (Response.TaskJson (Some task'))) /\
    Task.id task' = "t-1"%string /\
    Task.userId task' = "u-1"%string /\
    Task.title task' = "Buy milk"%string.
Proof.
  cbv zeta.
  destruct (C2_update_keeps_owner_id_and_omitted_fields
              Sample.secret Sample.host Sample.db
              (Sample.request "u-1" "t-1"
                              (Json.Obj [("completed"%string, Json.Bool true)]))
              "u-1" (TaskUpdates.mk None None None (Some true) None None)
              Sample.milk
              (sample_authenticated _ _ _) eq_refl eq_refl eq_refl eq_refl)
    as [db' [task' [Hres [_ [_ [Hid [Hown [_ [Htitle _]]]]]]]]].
  exists db', task'. split; [exact Hres |].
  split; [exact Hid |]. split; [exact Hown |]. exact (Htitle eq_refl).
Defined.

Example patch_completed_scenario :
  snd (Routes.patch_task Sample.secret Sample.host Sample.db
         (Sample.request "u-1" "t-1"
                         (Json.Obj [("completed"%string, Json.Bool true)]))) =
  Response.ok (Response.TaskJson (Some
    (Task.mk "t-1" "u-1" "Buy milk" None None true (Some "medium"%string) None
             1762000000000))).
Proof. vm_compute. reflexivity. Qed.

(** Creating "Walk the dog" for Alice, and an empty title refused. *)
Lemma C3_witness_create :
  (exists task,
      Routes.post_tasks Sample.secret Sample.host Sample.db
        (Sample.request "u-1" EmptyString
           (Json.Obj [("title"%string, Json.Str "Walk the dog")])) =
        (Db.mk (Db.users Sample.db) (Db.tasks Sample.db ++ [task]),
         Response.ok (Response.TaskJson (Some task))) /\
      Task.userId task = "u-1"%string) /\
  (exists errors,
      Routes.post_tasks Sample.secret Sample.host Sample.db
        (Sample.request "u-1" EmptyString
           (Json.Obj [("title"%string, Json.Str EmptyString)])) =
        (Sample.db, Response.send 422
                      (Response.ValidationFailed "Validation failed" errors))).
Proof.
  split.
  - destruct (C3_create_validates_then_persists
                Sample.secret Sample.host Sample.db
                (Sample.request "u-1" EmptyString
                   (Json.Obj [("title"%string, Json.Str "Walk the dog")]))
                "u-1" (sample_authenticated _ _ _)) as [_ [_ [Hok _]]].
    destruct (Hok (InsertTask.mk "Walk the dog" None None None None None) eq_refl)
      as [task [Hres [Hown _]]].
    exists task. split; [exact Hres | exact Hown].
  - destruct (C3_create_validates_then_persists
                Sample.secret Sample.host Sample.db
                (Sample.request "u-1" EmptyString
                   (Json.Obj [("title"%string, Json.Str EmptyString)]))
                "u-1" (sample_authenticated _ _ _)) as [Hbad _].
    destruct (Hbad [("title"%string, Json.Str EmptyString)] eq_refl
                   (or_intror eq_refl)) as [errors [_ Hres]].
    exists errors. exact Hres.
Defined.

Example create_buy_milk_scenario :
  Routes.post_tasks Sample.secret Sample.host Db.empty
    (Sample.request "u-1" EmptyString
       (Json.Obj [("title"%string, Json.Str "Buy milk")])) =
  let task := Task.mk "t-4" "u-1" "Buy milk" None None false
                      (Some "medium"%string) None 1762070400000 in
  (Db.mk [] [task], Response.ok (Response.TaskJson (Some task))).
Proof. vm_compute. reflexivity. Qed.

(** Alice lists her tasks. *)
Lemma C4_witness_alice_lists :
  exists tasks,
    Routes.get_tasks Sample.secret Sample.host Sample.db
                     (Sample.request "u-1" EmptyString Json.Null) =
      (Sample.db, Response.ok (Response.TasksJson tasks)) /\
    tasks ≡ₚ owned_by "u-1" Sample.db /\
    StronglySorted (fun a b => Task.createdAt b <= Task.createdAt a) tasks.
Proof.
  destruct (C4_list_owned_newest_first
              Sample.secret Sample.host Sample.db
              (Sample.request "u-1" EmptyString Json.Null) "u-1"
              (sample_authenticated _ _ _)) as [tasks [Hres [Hperm [_ Hsorted]]]].
  exists tasks. split; [exact Hres |]. split; [exact Hperm | exact Hsorted].
Defined.

Example alice_lists_newest_first :
  snd (Routes.get_tasks Sample.secret Sample.host Sample.db
                        (Sample.request "u-1" EmptyString Json.Null)) =
  Response.ok (Response.TasksJson [Sample.mum; Sample.milk]).
Proof. vm_compute. reflexivity. Qed.

(** Three calls on Monday, whatever the random numbers and the refresh
    segments: one quote. *)
Lemma C7_witness_monday :
  Forall (fun res =>
            res = Response.ok (Response.QuoteJson
                                 (Some "Dream it. Wish it. Do it."%string)
                                 (Some "Unknown"%string)))
         (Routes.serve None Sample.monday).
Proof.
  assert (Hday : forall c,
             In c (tl Sample.monday) ->
             Routes.today c = Routes.today (Routes.mkCall "Mon Nov 02 2026"
                                                          (Double.mk 1 (-1)) None)).
  { intros c [<- | [<- | []]]; reflexivity. }
  destruct (C7_same_quote_within_a_day None _ (tl Sample.monday) Hday) as [Hsame _].
  apply List.Forall_forall. exact Hsame.
Defined.

(** Alice is registered; registering "alice" again with another
    password is refused and the database is the same. *)
Lemma C8_witness_alice_twice :
  Routes.register Sample.secret Sample.userSchema Sample.hash Sample.host Sample.db
                  (Request.mk None EmptyString (Sample.credentials "alice" "pw2")) =
    (Sample.db, Response.send 400 (Response.Message "Username already exists")).
Proof.
  apply (C8_register_taken_username_conflict
           Sample.secret Sample.userSchema Sample.hash Sample.host Sample.db
           (Request.mk None EmptyString (Sample.credentials "alice" "pw2"))
           (InsertUser.mk "alice" "pw2") Sample.alice).
  - reflexivity.
  - left. reflexivity.
  - reflexivity.
Defined.

Example register_alice_twice_scenario :
  let first := Routes.register Sample.secret Sample.userSchema Sample.hash
                 Sample.host Db.empty
                 (Request.mk None EmptyString (Sample.credentials "alice" "pw1")) in
  let second := Routes.register Sample.secret Sample.userSchema Sample.hash
                  Sample.host (fst first)
                  (Request.mk None EmptyString (Sample.credentials "alice" "pw2")) in
  Response.status (snd first) = 200 /\
  Response.status (snd second) = 400 /\
  fst second = fst first /\
  option_map User.password (DatabaseStorage.getUserByUsername (fst second) "alice") =
    Some (Sample.hash "pw1" 10 (Host.salt Sample.host)).
Proof. vm_compute. repeat split. Qed.

Lemma sample_referential_integrity : referential_integrity Sample.db.
Proof.
  intros t [<- | [<- | [<- | []]]].
  - exists Sample.alice. split; [left; reflexivity | reflexivity].
  - exists Sample.bob. split; [right; left; reflexivity | reflexivity].
  - exists Sample.alice. split; [left; reflexivity | reflexivity].
Qed.

(** A token for a user that is not in the table any more. *)
Lemma C9_witness_ghost_user :
  DatabaseStorage.getUser Sample.db "u-404" = None /\
  Routes.get_tasks Sample.secret Sample.host Sample.db
                   (Sample.request "u-404" EmptyString Json.Null) =
    (Sample.db, Response.ok (Response.TasksJson [])).
Proof.
  apply (C9_token_of_missing_user_lists_nothing
           Sample.secret Sample.host Sample.db
           (Sample.request "u-404" EmptyString Json.Null) (Sample.token "u-404")).
  - reflexivity.
  - reflexivity.
  - vm_compute. reflexivity.
  - intros u [<- | [<- | []]]; discriminate.
  - exact sample_referential_integrity.
Defined.

Lemma sample_monday_random :
  forall c, In c Sample.monday -> is_random (Routes.random c).
Proof.
  intros c [<- | [<- | [<- | []]]]; unfold is_random, Double.wf, Double.below_one;
    simpl; (split; [lia |]).
  - right. lia.
  - right. lia.
  - left. reflexivity.
Qed.

(** The three calls of Monday are answered from the list. *)
Lemma C10_witness_monday :
  Forall (fun res =>
            Response.status res = 200 /\
            exists q, In q Routes.quotes /\
                      Response.body res =
                        Response.QuoteJson (Some (Routes.text q))
                                           (Some (Routes.author q)))
         (Routes.serve None Sample.monday).
Proof.
  destruct (C10_quote_always_from_list Sample.monday sample_monday_random)
    as [_ [_ Hres]].
  apply List.Forall_forall. exact Hres.
Defined.

(* ================================================================== *)
(** * Further properties of the code *)
(* ================================================================== *)

(** ** Sessions *)

Lemma verify_refuses token secret now :
  Jwt.key token <> secret \/ Jwt.exp token <= now ->
  Jwt.verify token secret now = None.
Proof.
  intros H. unfold Jwt.verify.
  destruct (String.eqb_spec (Jwt.key token) secret) as [Hk | Hk];
    destruct (Z.ltb_spec now (Jwt.exp token)) as [He | He];
    try reflexivity.
  destruct H; [contradiction | lia].
Qed.

Lemma authenticateToken_refuses {S : Type} secret h req (st : S) next :
  refused secret h req ->
  Routes.authenticateToken secret h req st next =
    (st, Response.send 401
           (Response.Message
              (match Request.cookie req with
               | None => "Authentication required"
               | Some _ => "Invalid or expired token"
               end)%string)).
Proof.
  unfold refused, Routes.authenticateToken.
  destruct (Request.cookie req) as [token|]; [| reflexivity].
  intros H. rewrite (verify_refuses _ _ _ H). reflexivity.
Qed.

(** X1: a request without the cookie, with a cookie signed with another
    key, or with an expired one is answered 401 by every route behind the
    middleware, with the message of its case, and the database is left as
    it was: the handler is not run. *)
Theorem refused_request_is_401_everywhere
        (secret : option string) (h : Host.t) (db : Db.t) (req : Request.t) :
  refused secret h req ->
  let answer :=
    (db, Response.send 401
           (Response.Message
              (match Request.cookie req with
               | None => "Authentication required"
               | Some _ => "Invalid or expired token"
               end)%string)) in
  Routes.get_me secret h db req = answer /\
  Routes.get_tasks secret h db req = answer /\
  Routes.post_tasks secret h db req = answer /\
  Routes.patch_task secret h db req = answer /\
  Routes.delete_task secret h db req = answer.
Proof.
  intros H. cbv zeta.
  unfold Routes.get_me, Routes.get_tasks, Routes.post_tasks, Routes.patch_task,
    Routes.delete_task.
  rewrite !(authenticateToken_refuses _ _ _ _ _ H). repeat split.
Qed.

(** X2: with [SESSION_SECRET] unset or empty the key is the constant
    written in the source, so a token signed with that constant, for any
    user identifier, is accepted until it expires. *)
Theorem default_key_signs_for_anyone
        (secret : option string) (h : Host.t) (db : Db.t) (req : Request.t)
        (uid : string) (issued lifetime : Z) :
  secret = None \/ secret = Some EmptyString ->
  Request.cookie req =
    Some (Jwt.sign uid "motivodo-secret-key" lifetime issued) ->
  Routes.jwt_clock h < issued + lifetime ->
  authenticated secret h req uid /\
  Routes.get_tasks secret h db req =
    (db, Response.ok (Response.TasksJson (DatabaseStorage.getTasksByUserId db uid))).
Proof.
  intros Hs Hc Hlt.
  assert (Hauth : authenticated secret h req uid).
  { exists (Jwt.sign uid "motivodo-secret-key" lifetime issued).
    split; [exact Hc |]. apply verify_spec; [| exact Hlt].
    destruct Hs as [-> | ->]; reflexivity. }
  split; [exact Hauth |].
  unfold Routes.get_tasks.
  rewrite (authenticateToken_passes _ _ _ _ _ _ Hauth). reflexivity.
Qed.

Lemma find_append {A} (p : A -> bool) (l l' : list A) :
  List.find p (l ++ l') =
  match List.find p l with Some x => Some x | None => List.find p l' end.
Proof.
  induction l as [|x l IH]; simpl; [reflexivity |].
  destruct (p x); [reflexivity | exact IH].
Qed.

Section Login.

Context (secret : option string)
        (insertUserSchema : Json.t -> list string + InsertUser.t)
        (bcrypt_hash : string -> Z -> string -> string)
        (bcrypt_compare : string -> string -> bool).

(** X3: a login with an unknown username and a login with a wrong
    password are answered alike, 401 with the same message and no cookie,
    and neither writes. *)
Theorem login_failures_are_alike
        (h : Host.t) (db : Db.t) (req : Request.t) (data : InsertUser.t) :
  Routes.loginSchema (Request.body req) = inr data ->
  DatabaseStorage.getUserByUsername db (InsertUser.username data) = None \/
  (exists user,
      DatabaseStorage.getUserByUsername db (InsertUser.username data) = Some user /\
      bcrypt_compare (InsertUser.password data) (User.password user) = false) ->
  Routes.login secret bcrypt_compare h db req =
    (db, Response.send 401 (Response.Message "Invalid credentials")).
Proof.
  intros Hvalid H. unfold Routes.login. rewrite Hvalid.
  destruct H as [-> | [user [-> Hc]]]; [reflexivity |].
  rewrite Hc. reflexivity.
Qed.


(** X5: after a registration that succeeds, a login with the same
    username and password succeeds and names the identifier the
    registration created, provided [bcrypt.compare] recognises the hash
    [bcrypt.hash] made of that password. *)
Theorem register_then_login
        (h1 h2 : Host.t) (db : Db.t) (req1 req2 : Request.t)
        (username password : string) :
  insertUserSchema (Request.body req1) = inr (InsertUser.mk username password) ->
  Routes.loginSchema (Request.body req2) = inr (InsertUser.mk username password) ->
  (forall u, In u (Db.users db) -> User.username u <> username) ->
  bcrypt_compare password (bcrypt_hash password 10 (Host.salt h1)) = true ->
  let db' := fst (Routes.register secret insertUserSchema bcrypt_hash h1 db req1) in
  Response.status
    (snd (Routes.register secret insertUserSchema bcrypt_hash h1 db req1)) = 200 /\
  Routes.login secret bcrypt_compare h2 db' req2 =
    (db', Response.mk 200
            (Response.UserJson (Host.gen_random_uuid h1) username)
            (Some (Jwt.sign (Host.gen_random_uuid h1) (Routes.JWT_SECRET secret)
                            Routes.seven_days (Routes.jwt_clock h2)))).
Proof.
  intros Hreg Hlog Hfresh Hbcrypt. cbv zeta.
  assert (Hnone : DatabaseStorage.getUserByUsername db username = None).
  { unfold DatabaseStorage.getUserByUsername.
    destruct (List.find _ (Db.users db)) as [u|] eqn:E; [| reflexivity].
    apply find_some in E as [Hin E]. apply String.eqb_eq in E.
    exfalso. exact (Hfresh u Hin E). }
  unfold Routes.register. rewrite Hreg. cbn [InsertUser.username InsertUser.password].
  rewrite Hnone. cbn [DatabaseStorage.createUser fst snd Response.status].
  split; [reflexivity |].
  unfold Routes.login. rewrite Hlog. cbn [InsertUser.username InsertUser.password].
  assert (Hfound :
            DatabaseStorage.getUserByUsername
              (Db.mk (Db.users db ++
                        [User.mk (Host.gen_random_uuid h1) username
                                 (bcrypt_hash password 10 (Host.salt h1))])
                     (Db.tasks db)) username
            = Some (User.mk (Host.gen_random_uuid h1) username
                            (bcrypt_hash password 10 (Host.salt h1)))).
  { unfold DatabaseStorage.getUserByUsername in *. cbn [Db.users].
    rewrite find_append, Hnone. cbn. rewrite String.eqb_refl. reflexivity. }
  cbn [InsertUser.username InsertUser.password] in *.
  rewrite Hfound. cbn [User.password User.id User.username].
  rewrite Hbcrypt. reflexivity.
Qed.

End Login.

(** X6: [GET /api/auth/me] answers with the identifier of the token and
    the username of the row that has it, and 404 when no row has it; the
    same token still lists tasks (200). *)
Theorem me_finds_the_caller_or_404
        (secret : option string) (h : Host.t) (db : Db.t) (req : Request.t)
        (caller : string) :
  authenticated secret h req caller ->
  ((forall u, In u (Db.users db) -> User.id u <> caller) ->
   Routes.get_me secret h db req =
     (db, Response.send 404 (Response.Message "User not found")) /\
   Response.status (snd (Routes.get_tasks secret h db req)) = 200) /\
  (forall user,
      DatabaseStorage.getUser db caller = Some user ->
      In user (Db.users db) /\
      Routes.get_me secret h db req =
        (db, Response.ok (Response.UserJson caller (User.username user)))).
Proof.
  intros Hauth. unfold Routes.get_me, Routes.get_tasks.
  rewrite !(authenticateToken_passes _ _ _ _ _ _ Hauth). split.
  - intros Hnone. split; [| reflexivity].
    destruct (DatabaseStorage.getUser db caller) as [u|] eqn:E; [| reflexivity].
    unfold DatabaseStorage.getUser in E. apply find_some in E as [Hin E].
    apply String.eqb_eq in E. exfalso. exact (Hnone u Hin E).
  - intros user Hu. rewrite Hu.
    unfold DatabaseStorage.getUser in Hu. apply find_some in Hu as [Hin E].
    apply String.eqb_eq in E. rewrite E. split; [exact Hin | reflexivity].
Qed.

(** ** Lists and tables *)

Lemma filter_map_fixed {A} (p : A -> bool) (f : A -> A) (l : list A) :
  (forall x, In x l -> p (f x) = p x /\ (p x = true -> f x = x)) ->
  List.filter p (List.map f l) = List.filter p l.
Proof.
  induction l as [|x l IH]; intros H; simpl; [reflexivity |].
  destruct (H x (or_introl eq_refl)) as [Hp Hfix]. rewrite Hp.
  rewrite IH by (intros y Hy; apply H; right; exact Hy).
  destruct (p x) eqn:E; [rewrite (Hfix eq_refl) |]; reflexivity.
Qed.

Lemma filter_filter_kept {A} (p q : A -> bool) (l : list A) :
  (forall x, In x l -> p x = true -> q x = true) ->
  List.filter p (List.filter q l) = List.filter p l.
Proof.
  induction l as [|x l IH]; intros H; simpl; [reflexivity |].
  assert (IH' := IH (fun y Hy => H y (or_intror Hy))).
  destruct (q x) eqn:Eq; simpl.
  - rewrite IH'. reflexivity.
  - rewrite IH'. destruct (p x) eqn:Ep; [| reflexivity].
    rewrite (H x (or_introl eq_refl) Ep) in Eq. discriminate.
Qed.

Lemma filter_append {A} (p : A -> bool) (l l' : list A) :
  List.filter p (l ++ l') = List.filter p l ++ List.filter p l'.
Proof.
  induction l as [|x l IH]; simpl; [reflexivity |].
  rewrite IH. destruct (p x); reflexivity.
Qed.

Lemma NoDup_map_filter {A B} (f : A -> B) (p : A -> bool) (l : list A) :
  List.NoDup (List.map f l) -> List.NoDup (List.map f (List.filter p l)).
Proof.
  induction l as [|x l IH]; simpl; [intros; constructor |].
  intros H. apply List.NoDup_cons_iff in H as [Hx Hl].
  destruct (p x); simpl; [| exact (IH Hl)].
  apply List.NoDup_cons_iff. split; [| exact (IH Hl)].
  intros Hin. apply Hx. apply in_map_iff in Hin as [y [Hy Hin]].
  apply filter_In in Hin as [Hin _]. apply in_map_iff. eauto.
Qed.

Lemma NoDup_map_same {A B} (f : A -> B) (x y : A) (l : list A) :
  List.NoDup (List.map f l) -> In x l -> In y l -> f x = f y -> x = y.
Proof.
  induction l as [|z l IH]; simpl; [intros _ [] |].
  intros H Hx Hy E. apply List.NoDup_cons_iff in H as [Hz Hl].
  destruct Hx as [-> | Hx], Hy as [-> | Hy].
  - reflexivity.
  - exfalso. apply Hz. rewrite E. apply in_map. exact Hy.
  - exfalso. apply Hz. rewrite <- E. apply in_map. exact Hx.
  - exact (IH Hl Hx Hy E).
Qed.

Lemma db_eta (db : Db.t) : Db.mk (Db.users db) (Db.tasks db) = db.
Proof. destruct db. reflexivity. Qed.

(** The middleware either answers 401 itself or runs the handler for a
    caller. *)
Lemma authenticateToken_cases {S : Type} secret h req (st : S) next :
  (exists res, Response.status res = 401 /\
               Routes.authenticateToken secret h req st next = (st, res)) \/
  (exists caller, authenticated secret h req caller /\
                  Routes.authenticateToken secret h req st next = next caller).
Proof.
  unfold Routes.authenticateToken, authenticated.
  destruct (Request.cookie req) as [token|];
    [| left; eexists; split; [| reflexivity]; reflexivity].
  destruct (Jwt.verify token _ _) as [caller|] eqn:E;
    [| left; eexists; split; [| reflexivity]; reflexivity].
  right. exists caller. split; [| reflexivity]. eauto.
Qed.

(** ** Storage *)

(** What [deleteTask] leaves: no row with the identifier, every other row,
    and the users. *)
Lemma deleteTask_leaves (db : Db.t) (id : string) :
  DatabaseStorage.getTask (fst (DatabaseStorage.deleteTask db id)) id = None /\
  (forall task,
      In task (Db.tasks (fst (DatabaseStorage.deleteTask db id))) <->
      In task (Db.tasks db) /\ Task.id task <> id) /\
  Db.users (fst (DatabaseStorage.deleteTask db id)) = Db.users db.
Proof.
  unfold DatabaseStorage.deleteTask, DatabaseStorage.getTask.
  cbn [fst snd Db.tasks Db.users].
  split; [| split].
  - destruct (List.find _ (List.filter _ (Db.tasks db))) as [t|] eqn:E; [| reflexivity].
    apply find_some in E as [Hin E]. apply filter_In in Hin as [_ Hne].
    rewrite E in Hne. discriminate.
  - intros task. rewrite filter_In, negb_true_iff, String.eqb_neq. reflexivity.
  - reflexivity.
Qed.

(** X7: [deleteTask] reports whether a row had the identifier; after it
    no row has it, and the rows with other identifiers are all there, in
    their order. *)
Theorem deleteTask_reports_and_removes (db : Db.t) (id : string) :
  (snd (DatabaseStorage.deleteTask db id) = true <->
   exists task, DatabaseStorage.getTask db id = Some task) /\
  DatabaseStorage.getTask (fst (DatabaseStorage.deleteTask db id)) id = None /\
  (forall task,
      In task (Db.tasks (fst (DatabaseStorage.deleteTask db id))) <->
      In task (Db.tasks db) /\ Task.id task <> id) /\
  sublist (Db.tasks (fst (DatabaseStorage.deleteTask db id))) (Db.tasks db) /\
  Db.users (fst (DatabaseStorage.deleteTask db id)) = Db.users db.
Proof.
  destruct (deleteTask_leaves db id) as [Hgone [Hrows Husers]].
  split; [| split; [exact Hgone | split; [exact Hrows | split; [| exact Husers]]]].
  - unfold DatabaseStorage.deleteTask, DatabaseStorage.getTask. cbn [snd].
    rewrite find_head_filter.
    destruct (List.filter _ (Db.tasks db)) as [|x l]; simpl; split;
      try discriminate; eauto.
    intros [task H]. discriminate.
  - unfold DatabaseStorage.deleteTask. cbn [fst Db.tasks]. apply filter_sublist.
Qed.

(** X8: [updateTask] on an identifier that no row has, with at least one
    column to set, returns [undefined] and leaves the tables as they
    were. *)
Theorem updateTask_of_missing_id_is_noop
        (db : Db.t) (id : string) (updates : TaskUpdates.t) :
  TaskUpdates.sets_nothing updates = false ->
  DatabaseStorage.getTask db id = None ->
  DatabaseStorage.updateTask db id updates = Some (db, None).
Proof.
  intros Hkey Hnone. unfold DatabaseStorage.updateTask. rewrite Hkey.
  assert (Hmiss : forall t, In t (Db.tasks db) -> String.eqb (Task.id t) id = false).
  { intros t Hin. apply String.eqb_neq.
    exact (proj1 (getTask_None_iff db id) Hnone t Hin). }
  f_equal. f_equal.
  - rewrite <- (db_eta db) at 3. f_equal.
    rewrite <- (map_id (Db.tasks db)) at 2. apply map_ext_in.
    intros t Hin. rewrite (Hmiss t Hin). reflexivity.
  - rewrite (filter_nil_of_all_false _ _ Hmiss). reflexivity.
Qed.

(** X9: after [createTask] the new identifier finds the new row when it
    was not in use, and the row that already had it otherwise; every other
    identifier finds what it found before. *)
Theorem createTask_then_getTask
        (h : Host.t) (db : Db.t) (taskData : InsertTask.t) (userId : string) :
  let db' := fst (DatabaseStorage.createTask h db taskData userId) in
  let row := snd (DatabaseStorage.createTask h db taskData userId) in
  Task.id row = Host.gen_random_uuid h /\
  Task.userId row = userId /\
  (fresh_uuid h db -> DatabaseStorage.getTask db' (Task.id row) = Some row) /\
  (forall old,
      DatabaseStorage.getTask db (Task.id row) = Some old ->
      DatabaseStorage.getTask db' (Task.id row) = Some old) /\
  (forall id,
      id <> Task.id row ->
      DatabaseStorage.getTask db' id = DatabaseStorage.getTask db id).
Proof.
  cbv zeta. unfold DatabaseStorage.createTask, DatabaseStorage.getTask.
  cbn [fst snd Db.tasks]. split; [reflexivity |]. split; [reflexivity |].
  rewrite !find_append.
  split; [| split].
  - intros Hfresh.
    assert (Hnone : DatabaseStorage.getTask db (Host.gen_random_uuid h) = None)
      by (apply getTask_None_iff; exact Hfresh).
    unfold DatabaseStorage.getTask in Hnone. cbn [Task.id DatabaseStorage.new_task_row].
    rewrite Hnone. cbn. rewrite String.eqb_refl. reflexivity.
  - intros old ->. reflexivity.
  - intros id Hne. rewrite find_append.
    destruct (List.find _ (Db.tasks db)); [reflexivity |].
    cbn. destruct (String.eqb_spec (Host.gen_random_uuid h) id) as [E | E];
      [| reflexivity].
    exfalso. apply Hne. symmetry. exact E.
Qed.

(** ** The task routes together *)

Lemma getTask_unique db id task other :
  ids_unique db ->
  DatabaseStorage.getTask db id = Some task ->
  In other (Db.tasks db) -> Task.id other = id -> other = task.
Proof.
  intros Huniq Hget Hin Hid. apply getTask_Some in Hget as [Hin' Hid'].
  apply (NoDup_map_same Task.id other task (Db.tasks db) Huniq Hin Hin').
  congruence.
Qed.

(** X10: the owner of a task deletes it: the answer is 200, the row is
    gone and the other rows and the users are as they were; deleting it
    again is answered 404. *)
Theorem delete_own_task_then_404
        (secret : option string) (h h' : Host.t) (db : Db.t) (req : Request.t)
        (caller : string) (task : Task.t) :
  authenticated secret h req caller ->
  authenticated secret h' req caller ->
  DatabaseStorage.getTask db (Request.id req) = Some task ->
  Task.userId task = caller ->
  let db' := fst (Routes.delete_task secret h db req) in
  Routes.delete_task secret h db req =
    (db', Response.ok (Response.Message "Task deleted successfully")) /\
  Db.users db' = Db.users db /\
  (forall t, In t (Db.tasks db') <->
             In t (Db.tasks db) /\ Task.id t <> Request.id req) /\
  Routes.delete_task secret h' db' req =
    (db', Response.send 404 (Response.Message "Task not found")).
Proof.
  intros Hauth Hauth' Hget Hown. cbv zeta.
  destruct (deleteTask_leaves db (Request.id req)) as [Hgone [Hrows Husers]].
  assert (Hrun : Routes.delete_task secret h db req =
                 (fst (DatabaseStorage.deleteTask db (Request.id req)),
                  Response.ok (Response.Message "Task deleted successfully"))).
  { unfold Routes.delete_task.
    rewrite (authenticateToken_passes _ _ _ _ _ _ Hauth), Hget.
    rewrite (proj2 (String.eqb_eq _ _) Hown). cbn [negb].
    destruct (DatabaseStorage.deleteTask db (Request.id req)). reflexivity. }
  rewrite Hrun. cbn [fst].
  split; [reflexivity |]. split; [exact Husers |]. split; [exact Hrows |].
  unfold Routes.delete_task.
  rewrite (authenticateToken_passes _ _ _ _ _ _ Hauth'), Hgone. reflexivity.
Qed.

(** X11: whatever a caller asks of the three writing task routes, the
    tasks of every other user stay what they were, the identifiers of the
    table being pairwise different. *)
Theorem task_routes_leave_other_users_tasks
        (secret : option string) (h : Host.t) (db : Db.t) (req : Request.t)
        (caller other : string) :
  authenticated secret h req caller ->
  other <> caller ->
  ids_unique db ->
  owned_by other (fst (Routes.post_tasks secret h db req)) = owned_by other db /\
  owned_by other (fst (Routes.patch_task secret h db req)) = owned_by other db /\
  owned_by other (fst (Routes.delete_task secret h db req)) = owned_by other db.
Proof.
  intros Hauth Hne Huniq.
  unfold Routes.post_tasks, Routes.patch_task, Routes.delete_task.
  rewrite !(authenticateToken_passes _ _ _ _ _ _ Hauth).
  assert (Hcaller : String.eqb caller other = false)
    by (apply String.eqb_neq; congruence).
  split; [| split].
  - destruct (Zod.insertTaskSchema (Request.body req)) as [errors | data];
      [reflexivity |].
    unfold owned_by. cbn [DatabaseStorage.createTask fst Db.tasks].
    rewrite filter_append. cbn. rewrite Hcaller. apply app_nil_r.
  - destruct (Zod.insertTaskSchema_partial (Request.body req)) as [errors | data];
      [reflexivity |].
    destruct (DatabaseStorage.getTask db (Request.id req)) as [task|] eqn:Hget;
      [| reflexivity].
    destruct (String.eqb_spec (Task.userId task) caller) as [Hown | Hown];
      cbn [negb]; [| reflexivity].
    unfold DatabaseStorage.updateTask.
    destruct (TaskUpdates.sets_nothing data); [reflexivity |].
    unfold owned_by. cbn [fst Db.tasks]. apply filter_map_fixed.
    intros t Hin. destruct (String.eqb_spec (Task.id t) (Request.id req)) as [E | E].
    + rewrite (getTask_unique db _ task t Huniq Hget Hin E).
      split; [reflexivity |]. cbn. rewrite Hown, Hcaller. discriminate.
    + split; reflexivity.
  - destruct (DatabaseStorage.getTask db (Request.id req)) as [task|] eqn:Hget;
      [| reflexivity].
    destruct (String.eqb_spec (Task.userId task) caller) as [Hown | Hown];
      cbn [negb]; [| reflexivity].
    unfold owned_by. cbn [DatabaseStorage.deleteTask fst Db.tasks].
    apply filter_filter_kept. intros t Hin Ht. apply negb_true_iff.
    destruct (String.eqb_spec (Task.id t) (Request.id req)) as [E | E];
      [| reflexivity].
    rewrite (getTask_unique db _ task t Huniq Hget Hin E) in Ht.
    rewrite Hown, Hcaller in Ht. discriminate.
Qed.

Lemma map_id_if_set (hit : Task.t -> bool) (updates : TaskUpdates.t)
      (l : list Task.t) :
  List.map Task.id
           (List.map (fun t => if hit t then DatabaseStorage.set updates t else t) l)
  = List.map Task.id l.
Proof.
  rewrite List.map_map. apply map_ext. intros t. destruct (hit t); reflexivity.
Qed.

(** What holds of the state before, and of the state every handler run
    leaves, holds of the state the route leaves. *)
Lemma authenticateToken_keeps {S : Type} (P : S -> Prop) secret h req (st : S) next :
  P st ->
  (forall caller, authenticated secret h req caller -> P (fst (next caller))) ->
  P (fst (Routes.authenticateToken secret h req st next)).
Proof.
  intros Hst Hnext.
  destruct (authenticateToken_cases secret h req st next)
    as [[res [_ ->]] | [caller [Hauth ->]]]; [exact Hst | exact (Hnext caller Hauth)].
Qed.

(** X12: the three writing task routes keep the identifiers of the
    table pairwise different, whoever calls and whatever the body, as long
    as the identifier the database generates is not in use. *)
Theorem task_routes_keep_ids_unique
        (secret : option string) (h : Host.t) (db : Db.t) (req : Request.t) :
  ids_unique db ->
  fresh_uuid h db ->
  ids_unique (fst (Routes.post_tasks secret h db req)) /\
  ids_unique (fst (Routes.patch_task secret h db req)) /\
  ids_unique (fst (Routes.delete_task secret h db req)).
Proof.
  intros Huniq Hfresh.
  unfold Routes.post_tasks, Routes.patch_task, Routes.delete_task.
  split; [| split]; apply authenticateToken_keeps; try exact Huniq;
    intros caller _; cbv zeta.
  - destruct (Zod.insertTaskSchema (Request.body req)); [exact Huniq |].
    unfold ids_unique. cbn [DatabaseStorage.createTask fst Db.tasks].
    rewrite List.map_app. cbn.
    apply List.NoDup_app.
    + exact Huniq.
    + constructor; [intros [] | constructor].
    + intros x Hx [<- | []].
      apply in_map_iff in Hx as [t' [Ht Hin]]. exact (Hfresh t' Hin Ht).
  - destruct (Zod.insertTaskSchema_partial (Request.body req)) as [errors | data];
      [exact Huniq |].
    destruct (DatabaseStorage.getTask db (Request.id req)); [| exact Huniq].
    destruct (negb _); [exact Huniq |].
    unfold DatabaseStorage.updateTask.
    destruct (TaskUpdates.sets_nothing data); [exact Huniq |].
    unfold ids_unique. cbn [fst Db.tasks]. rewrite map_id_if_set. exact Huniq.
  - destruct (DatabaseStorage.getTask db (Request.id req)); [| exact Huniq].
    destruct (negb _); [exact Huniq |].
    unfold ids_unique. cbn [DatabaseStorage.deleteTask fst Db.tasks].
    apply NoDup_map_filter. exact Huniq.
Qed.

Section Integrity.

Context (secret : option string)
        (insertUserSchema : Json.t -> list string + InsertUser.t)
        (bcrypt_hash : string -> Z -> string -> string).

(** X13: registration and the three writing task routes keep every
    task owned by a row of [users], the caller of a task route being such
    a row. *)
Theorem routes_keep_referential_integrity
        (h : Host.t) (db : Db.t) (req : Request.t) :
  referential_integrity db ->
  (forall caller,
      authenticated secret h req caller ->
      exists u, In u (Db.users db) /\ User.id u = caller) ->
  referential_integrity (fst (Routes.register secret insertUserSchema bcrypt_hash h db req)) /\
  referential_integrity (fst (Routes.post_tasks secret h db req)) /\
  referential_integrity (fst (Routes.patch_task secret h db req)) /\
  referential_integrity (fst (Routes.delete_task secret h db req)).
Proof.
  intros Hri Hcaller. split; [| split; [| split]].
  - unfold Routes.register.
    destruct (insertUserSchema (Request.body req)) as [errors | data];
      [exact Hri |].
    destruct (DatabaseStorage.getUserByUsername db _) as [found|]; [exact Hri |].
    cbn [DatabaseStorage.createUser fst]. intros row Hin. cbn [Db.tasks] in Hin.
    destruct (Hri row Hin) as [u [Hu Hid]]. exists u. split; [| exact Hid].
    cbn [Db.users]. apply in_or_app. left. exact Hu.
  - unfold Routes.post_tasks. apply authenticateToken_keeps; [exact Hri |].
    intros caller Hauth.
    destruct (Zod.insertTaskSchema (Request.body req)) as [errors | data];
      [exact Hri |].
    cbn [DatabaseStorage.createTask fst]. intros row Hin.
    cbn [Db.tasks Db.users] in *.
    apply in_app_or in Hin as [Hin | [<- | []]]; [exact (Hri row Hin) |].
    exact (Hcaller caller Hauth).
  - unfold Routes.patch_task. apply authenticateToken_keeps; [exact Hri |].
    intros caller _. cbv zeta.
    destruct (Zod.insertTaskSchema_partial (Request.body req)) as [errors | data];
      [exact Hri |].
    destruct (DatabaseStorage.getTask db (Request.id req)) as [task|];
      [| exact Hri].
    destruct (negb _); [exact Hri |].
    unfold DatabaseStorage.updateTask.
    destruct (TaskUpdates.sets_nothing data); [exact Hri |].
    cbn [fst]. intros row Hin. cbn [Db.tasks Db.users] in *.
    apply in_map_iff in Hin as [old [<- Hin]].
    destruct (Hri old Hin) as [u [Hu Hid]]. exists u. split; [exact Hu |].
    rewrite Hid. destruct (String.eqb (Task.id old) (Request.id req)); reflexivity.
  - unfold Routes.delete_task. apply authenticateToken_keeps; [exact Hri |].
    intros caller _. cbv zeta.
    destruct (DatabaseStorage.getTask db (Request.id req)) as [task|];
      [| exact Hri].
    destruct (negb _); [exact Hri |].
    cbn [DatabaseStorage.deleteTask fst]. intros row Hin.
    cbn [Db.tasks Db.users] in *.
    apply filter_In in Hin as [Hin _]. exact (Hri row Hin).
Qed.

(** X14: whatever is posted to the registration route, the usernames of
    the table stay pairwise different. *)
Theorem register_keeps_usernames_unique
        (h : Host.t) (db : Db.t) (req : Request.t) :
  usernames_unique db ->
  usernames_unique
    (fst (Routes.register secret insertUserSchema bcrypt_hash h db req)).
Proof.
  intros Huniq. unfold Routes.register.
  destruct (insertUserSchema (Request.body req)) as [errors | data]; [exact Huniq |].
  destruct (DatabaseStorage.getUserByUsername db (InsertUser.username data))
    as [u|] eqn:E; [exact Huniq |].
  unfold usernames_unique. cbn [DatabaseStorage.createUser fst Db.users].
  rewrite List.map_app. cbn. apply List.NoDup_app.
  - exact Huniq.
  - constructor; [intros [] | constructor].
  - intros x Hx [<- | []]. apply in_map_iff in Hx as [u [Hname Hin]].
    unfold DatabaseStorage.getUserByUsername in E.
    pose proof (find_none _ _ E u Hin) as Hf. cbn in Hf.
    apply String.eqb_neq in Hf. contradiction.
Qed.

End Integrity.

Lemma head_of_sorted_newest (x : Task.t) (l : list Task.t) :
  StronglySorted createdAt_desc l ->
  In x l ->
  (forall y, In y l -> y = x \/ Task.createdAt y < Task.createdAt x) ->
  head l = Some x.
Proof.
  intros Hsorted Hin Hnew. destruct l as [|y l]; [destruct Hin |]. cbn.
  destruct (Hnew y (or_introl eq_refl)) as [-> | Hlt]; [reflexivity |].
  destruct Hin as [-> | Hin]; [reflexivity |].
  apply StronglySorted_inv in Hsorted as [_ Hall].
  rewrite List.Forall_forall in Hall. specialize (Hall x Hin).
  unfold createdAt_desc in Hall. lia.
Qed.

(** X15: a task that was just created is in the list its owner then
    gets, which is one longer than before, and it is the first of the list
    when its creation time is later than that of the owner's other
    tasks. *)
Theorem created_task_is_listed
        (secret : option string) (h1 h2 : Host.t) (db : Db.t)
        (req1 req2 : Request.t) (caller : string) (data : InsertTask.t) :
  authenticated secret h1 req1 caller ->
  authenticated secret h2 req2 caller ->
  Zod.insertTaskSchema (Request.body req1) = inr data ->
  let db' := fst (Routes.post_tasks secret h1 db req1) in
  exists task tasks,
    snd (Routes.post_tasks secret h1 db req1) =
      Response.ok (Response.TaskJson (Some task)) /\
    Routes.get_tasks secret h2 db' req2 =
      (db', Response.ok (Response.TasksJson tasks)) /\
    In task tasks /\
    length tasks = S (length (owned_by caller db)) /\
    ((forall t, In t (owned_by caller db) ->
                Task.createdAt t < Task.createdAt task) ->
     head tasks = Some task).
Proof.
  intros Hauth1 Hauth2 Hvalid. cbv zeta.
  unfold Routes.post_tasks.
  rewrite (authenticateToken_passes _ _ _ _ _ _ Hauth1), Hvalid.
  cbn [DatabaseStorage.createTask fst snd].
  set (row := DatabaseStorage.new_task_row h1 caller data).
  set (db' := Db.mk (Db.users db) (Db.tasks db ++ [row])).
  assert (Howned : owned_by caller db' = owned_by caller db ++ [row]).
  { unfold owned_by, db'. cbn [Db.tasks]. rewrite filter_append. cbn.
    rewrite String.eqb_refl. reflexivity. }
  pose proof (getTasksByUserId_perm db' caller) as Hperm. rewrite Howned in Hperm.
  exists row, (DatabaseStorage.getTasksByUserId db' caller).
  split; [reflexivity |]. split.
  { unfold Routes.get_tasks.
    rewrite (authenticateToken_passes _ _ _ _ _ _ Hauth2). reflexivity. }
  assert (Hin : forall t, In t (DatabaseStorage.getTasksByUserId db' caller) <->
                          In t (owned_by caller db ++ [row])).
  { intros t. rewrite <- !list_elem_of_In. rewrite Hperm. reflexivity. }
  split; [apply Hin, in_or_app; right; left; reflexivity |].
  split.
  { rewrite (Permutation_length Hperm), length_app. cbn. lia. }
  intros Hnewest. apply head_of_sorted_newest.
  - apply getTasksByUserId_sorted.
  - apply Hin, in_or_app. right. left. reflexivity.
  - intros y Hy. apply Hin in Hy. apply in_app_or in Hy as [Hy | [<- | []]].
    + right. exact (Hnewest y Hy).
    + left. reflexivity.
Qed.

(** ** The filter bar *)

Lemma toggle_In (arr : list string) (x y : string) :
  In y (TaskFilters.toggle arr x) <->
  (y = x /\ ~ In x arr) \/ (y <> x /\ In y arr).
Proof.
  unfold TaskFilters.toggle.
  destruct (Js.Array_includes arr x) eqn:E.
  - apply Array_includes_spec in E.
    rewrite filter_In, negb_true_iff, String.eqb_neq. split.
    + intros [Hin Hne]. right. auto.
    + intros [[-> Hn] | [Hne Hin]]; [contradiction | auto].
  - assert (Hn : ~ In x arr).
    { intros Hin. apply Array_includes_spec in Hin. congruence. }
    rewrite in_app_iff. cbn. split.
    + intros [Hin | [<- | []]]; [| left; auto].
      right. split; [intros ->; contradiction | exact Hin].
    + intros [[-> _] | [_ Hin]]; [right; left; reflexivity | left; exact Hin].
Qed.

Lemma toggle_NoDup (arr : list string) (x : string) :
  List.NoDup arr -> List.NoDup (TaskFilters.toggle arr x).
Proof.
  intros H. unfold TaskFilters.toggle.
  destruct (Js.Array_includes arr x) eqn:E.
  - apply List.NoDup_filter. exact H.
  - apply List.NoDup_app; [exact H | constructor; [intros [] | constructor] |].
    intros a Ha [<- | []]. apply Array_includes_spec in Ha. congruence.
Qed.

(** X16: checking a priority (resp. a category) selects it when it was
    not selected and deselects it when it was; the other selected values,
    the other filters and the absence of repetitions are kept. *)
Theorem toggle_flips_one_selection (filters : TaskFiltersState.t) (x : string) :
  let byPriority := TaskFilters.togglePriority filters x in
  let byCategory := TaskFilters.toggleCategory filters x in
  (In x (TaskFiltersState.priority byPriority) <->
   ~ In x (TaskFiltersState.priority filters)) /\
  (forall y, y <> x ->
             (In y (TaskFiltersState.priority byPriority) <->
              In y (TaskFiltersState.priority filters))) /\
  (List.NoDup (TaskFiltersState.priority filters) ->
   List.NoDup (TaskFiltersState.priority byPriority)) /\
  byPriority = TaskFiltersState.mk (TaskFiltersState.search filters)
                                   (TaskFiltersState.priority byPriority)
                                   (TaskFiltersState.category filters)
                                   (TaskFiltersState.completed filters) /\
  (In x (TaskFiltersState.category byCategory) <->
   ~ In x (TaskFiltersState.category filters)) /\
  (forall y, y <> x ->
             (In y (TaskFiltersState.category byCategory) <->
              In y (TaskFiltersState.category filters))) /\
  (List.NoDup (TaskFiltersState.category filters) ->
   List.NoDup (TaskFiltersState.category byCategory)) /\
  byCategory = TaskFiltersState.mk (TaskFiltersState.search filters)
                                   (TaskFiltersState.priority filters)
                                   (TaskFiltersState.category byCategory)
                                   (TaskFiltersState.completed filters).
Proof.
  assert (Hself : forall arr, In x (TaskFilters.toggle arr x) <-> ~ In x arr).
  { intros arr. rewrite toggle_In. intuition congruence. }
  assert (Hother : forall arr y, y <> x ->
                     (In y (TaskFilters.toggle arr x) <-> In y arr)).
  { intros arr y Hne. rewrite toggle_In. intuition congruence. }
  cbv zeta. unfold TaskFilters.togglePriority, TaskFilters.toggleCategory.
  cbn [TaskFiltersState.priority TaskFiltersState.category].
  split; [apply Hself |]. split; [apply Hother |].
  split; [apply toggle_NoDup |]. split; [reflexivity |].
  split; [apply Hself |]. split; [apply Hother |].
  split; [apply toggle_NoDup | reflexivity].
Qed.

(** X17: the Clear button and the badges show exactly when the counter
    of active filters is positive; when they do not show, the filters are
    the cleared ones and the list is not filtered. *)
Theorem no_active_filter_means_unfiltered
        (toLowerCase : string -> string) (filters : TaskFiltersState.t) :
  (TaskFilters.hasActiveFilters filters = true <->
   (0 < TaskFilters.activeFilterCount filters)%nat) /\
  (TaskFilters.hasActiveFilters filters = false ->
   filters = TaskFilters.clearFilters /\
   forall tasks, TaskList.applyFilters toLowerCase filters tasks = tasks) /\
  TaskFilters.hasActiveFilters TaskFilters.clearFilters = false.
Proof.
  destruct filters as [search priority category completed].
  unfold TaskFilters.hasActiveFilters, TaskFilters.activeFilterCount.
  cbn [TaskFiltersState.search TaskFiltersState.priority
       TaskFiltersState.category TaskFiltersState.completed].
  split; [| split; [| reflexivity]].
  - destruct (Js.truthy search), priority, category,
      (negb (String.eqb completed "all")); cbn; split; intros; try lia;
      try reflexivity; try discriminate.
  - intros H. repeat (apply orb_false_iff in H as [H ?]).
    assert (search = EmptyString) by (apply truthy_false; assumption).
    assert (priority = []) by (destruct priority; [reflexivity | discriminate]).
    assert (category = []) by (destruct category; [reflexivity | discriminate]).
    assert (completed = "all"%string).
    { apply String.eqb_eq. apply negb_false_iff. assumption. }
    subst. split; [reflexivity |].
    intros tasks. apply filter_all. intros task. reflexivity.
Qed.

(** ** The categories the filter bar offers *)

Lemma Set_add_In (set : list string) (x c : string) :
  In c (Dashboard.Set_add set x) <-> In c set \/ c = x.
Proof.
  unfold Dashboard.Set_add. destruct (Js.Array_includes set x) eqn:E.
  - apply Array_includes_spec in E. split; [auto | intros [H | ->]; assumption].
  - rewrite in_app_iff. cbn. intuition congruence.
Qed.

Lemma Set_add_NoDup (set : list string) (x : string) :
  List.NoDup set -> List.NoDup (Dashboard.Set_add set x).
Proof.
  intros H. unfold Dashboard.Set_add. destruct (Js.Array_includes set x) eqn:E;
    [exact H |].
  apply List.NoDup_app; [exact H | constructor; [intros [] | constructor] |].
  intros a Ha [<- | []]. apply Array_includes_spec in Ha. congruence.
Qed.

(** The set the loop of [availableCategories] builds. *)
Lemma collected_categories (tasks : list Task.t) :
  forall set : list string,
    List.NoDup set ->
    let step := fun categories task =>
                  if Js.truthy_opt (Task.category task)
                  then match Task.category task with
                       | Some c => Dashboard.Set_add categories c
                       | None => categories
                       end
                  else categories in
    List.NoDup (fold_left step tasks set) /\
    forall c, In c (fold_left step tasks set) <->
              In c set \/
              (c <> EmptyString /\
               exists task, In task tasks /\ Task.category task = Some c).
Proof.
  cbv zeta. induction tasks as [|task tasks IH]; intros set Hset; cbn [fold_left].
  - split; [exact Hset |]. intros c. split; [auto |].
    intros [H | [_ [task [[] _]]]]. exact H.
  - destruct (Task.category task) as [cat|] eqn:Ecat; cbn [Js.truthy_opt].
    + destruct (Js.truthy cat) eqn:Etruthy.
      * destruct (IH _ (Set_add_NoDup set cat Hset)) as [Hnodup Hin].
        split; [exact Hnodup |]. intros c. rewrite Hin, Set_add_In. split.
        -- intros [[H | ->] | [Hne [t [Ht Hc]]]].
           ++ left. exact H.
           ++ right. split; [apply truthy_spec; exact Etruthy |].
              exists task. split; [left; reflexivity | exact Ecat].
           ++ right. split; [exact Hne |]. exists t. split; [right |]; assumption.
        -- intros [H | [Hne [t [[<- | Ht] Hc]]]].
           ++ left. left. exact H.
           ++ left. right. congruence.
           ++ right. split; [exact Hne |]. exists t. split; assumption.
      * destruct (IH _ Hset) as [Hnodup Hin].
        split; [exact Hnodup |]. intros c. rewrite Hin. split.
        -- intros [H | [Hne [t [Ht Hc]]]]; [left; exact H |].
           right. split; [exact Hne |]. exists t. split; [right |]; assumption.
        -- intros [H | [Hne [t [[<- | Ht] Hc]]]]; [left; exact H | |].
           ++ exfalso. apply truthy_false in Etruthy. congruence.
           ++ right. split; [exact Hne |]. exists t. split; assumption.
    + destruct (IH _ Hset) as [Hnodup Hin].
      split; [exact Hnodup |]. intros c. rewrite Hin. split.
      * intros [H | [Hne [t [Ht Hc]]]]; [left; exact H |].
        right. split; [exact Hne |]. exists t. split; [right |]; assumption.
      * intros [H | [Hne [t [[<- | Ht] Hc]]]]; [left; exact H | congruence |].
        right. split; [exact Hne |]. exists t. split; assumption.
Qed.

Lemma units_leb_transitive (x y z : list N) :
  Js.units_leb x y = true -> Js.units_leb y z = true -> Js.units_leb x z = true.
Proof.
  revert y z.
  induction x as [|a x IH]; intros [|b y] [|c z]; cbn [Js.units_leb];
    try reflexivity; try discriminate.
  destruct (N.ltb_spec a b) as [Lab | Gab];
    destruct (N.ltb_spec b a) as [Lba | Gba];
    destruct (N.ltb_spec b c) as [Lbc | Gbc];
    destruct (N.ltb_spec c b) as [Lcb | Gcb];
    destruct (N.ltb_spec a c) as [Lac | Gac];
    destruct (N.ltb_spec c a) as [Lca | Gca];
    try discriminate; try reflexivity; try lia.
  apply IH.
Qed.

Lemma units_leb_total (x y : list N) :
  Js.units_leb x y = true \/ Js.units_leb y x = true.
Proof.
  revert y. induction x as [|a x IH]; intros [|b y]; cbn [Js.units_leb]; auto.
  destruct (N.ltb_spec a b) as [Lab | Gab];
    destruct (N.ltb_spec b a) as [Lba | Gba]; auto.
Qed.

#[local] Instance string_le_Transitive : Transitive Dashboard.string_le.
Proof. intros a b c. apply units_leb_transitive. Qed.

#[local] Instance string_le_Total : Total Dashboard.string_le.
Proof. intros a b. apply units_leb_total. Qed.

(** What is offered is a category of a task, and not the empty string. *)
Lemma availableCategories_In (tasks : list Task.t) (c : string) :
  In c (Dashboard.availableCategories (Some tasks)) <->
  c <> EmptyString /\
  exists task, In task tasks /\ Task.category task = Some c.
Proof.
  unfold Dashboard.availableCategories.
  destruct (collected_categories tasks [] (List.NoDup_nil _)) as [_ Hin].
  cbv zeta in Hin.
  set (categories := fold_left _ tasks []) in *.
  pose proof (merge_sort_Permutation Dashboard.string_le categories) as Hperm.
  rewrite <- list_elem_of_In, Hperm, list_elem_of_In, Hin.
  cbn. tauto.
Qed.

(** X18: the categories offered are exactly the categories of the tasks
    that are not the empty string, each once and in the order of their
    UTF-16 code units, a prefix first; before the tasks have arrived, none
    is offered. *)
Theorem availableCategories_exact (tasks : list Task.t) :
  (forall c,
      In c (Dashboard.availableCategories (Some tasks)) <->
      c <> EmptyString /\
      exists task, In task tasks /\ Task.category task = Some c) /\
  List.NoDup (Dashboard.availableCategories (Some tasks)) /\
  StronglySorted
    (fun a b => Js.units_leb (Js.code_units a) (Js.code_units b) = true)
    (Dashboard.availableCategories (Some tasks)) /\
  Dashboard.availableCategories None = [].
Proof.
  unfold Dashboard.availableCategories.
  destruct (collected_categories tasks [] (List.NoDup_nil _)) as [Hnodup Hin].
  cbv zeta in Hnodup, Hin.
  set (categories := fold_left _ tasks []) in *.
  pose proof (merge_sort_Permutation Dashboard.string_le categories) as Hperm.
  split; [| split; [| split]].
  - intros c. fold (Dashboard.availableCategories (Some tasks)).
    apply availableCategories_In.
  - apply (Permutation_NoDup (l := categories)); [symmetry; exact Hperm | exact Hnodup].
  - apply (StronglySorted_merge_sort Dashboard.string_le).
  - reflexivity.
Qed.

Example availableCategories_sample :
  Dashboard.availableCategories
    (Some [ Task.mk "1" "u" "a" None None false None (Some "work"%string) 1;
            Task.mk "2" "u" "b" None None false None (Some EmptyString) 2;
            Task.mk "3" "u" "c" None None false None (Some "home"%string) 3;
            Task.mk "4" "u" "d" None None false None None 4;
            Task.mk "5" "u" "e" None None false None (Some "work"%string) 5 ])
  = ["home"; "work"]%string.
Proof. vm_compute. reflexivity. Qed.

(** In code units a surrogate pair comes before U+FF21, which comes
    first in code points; a text comes after its prefix. *)
Example availableCategories_code_units :
  Dashboard.availableCategories
    (Some [ Task.mk "1" "u" "a" None None false None (Some "Ａ"%string) 1;
            Task.mk "2" "u" "b" None None false None (Some "work"%string) 2;
            Task.mk "3" "u" "c" None None false None (Some "😀"%string) 3;
            Task.mk "4" "u" "d" None None false None (Some "Work"%string) 4;
            Task.mk "5" "u" "e" None None false None (Some "workshop"%string) 5;
            Task.mk "6" "u" "f" None None false None (Some "école"%string) 6 ])
  = ["Work"; "work"; "workshop"; "école"; "😀"; "Ａ"]%string /\
  Js.code_units "😀" = [55357; 56832]%N /\
  Js.code_units "Ａ" = [65313]%N.
Proof. vm_compute. repeat split. Qed.

(** ** Filters the bar can produce *)

(** No set holds the empty string or a value twice. *)
Lemma act_keeps_clean (filters : TaskFiltersState.t)
      (tasks : option (list Task.t)) (a : TaskFilters.action) :
  TaskFilters.offered filters tasks a ->
  (~ In EmptyString (TaskFiltersState.priority filters) /\
   ~ In EmptyString (TaskFiltersState.category filters) /\
   List.NoDup (TaskFiltersState.priority filters) /\
   List.NoDup (TaskFiltersState.category filters)) ->
  let filters' := TaskFilters.act filters a in
  ~ In EmptyString (TaskFiltersState.priority filters') /\
  ~ In EmptyString (TaskFiltersState.category filters') /\
  List.NoDup (TaskFiltersState.priority filters') /\
  List.NoDup (TaskFiltersState.category filters').
Proof.
  intros Hoff [Hp [Hc [Hnp Hnc]]]. cbv zeta.
  destruct a as [value | priority | category | value |];
    cbn [TaskFilters.act TaskFilters.handleSearchChange TaskFilters.togglePriority
         TaskFilters.toggleCategory TaskFilters.setCompleted TaskFilters.clearFilters
         TaskFiltersState.priority TaskFiltersState.category];
    try (repeat split; assumption).
  - assert (Hne : priority <> EmptyString).
    { destruct Hoff as [[<- | [<- | [<- | []]]] | Hin];
        try discriminate. intros ->. contradiction. }
    repeat split; try assumption; [| apply toggle_NoDup; assumption].
    intros Hin. apply toggle_In in Hin as [[E _] | [_ Hin]];
      [congruence | contradiction].
  - assert (Hne : category <> EmptyString).
    { destruct Hoff as [Hin | Hin]; [| intros ->; contradiction].
      destruct tasks as [tasks|]; [| destruct Hin].
      apply availableCategories_In in Hin. tauto. }
    repeat split; try assumption; [| apply toggle_NoDup; assumption].
    intros Hin. apply toggle_In in Hin as [[E _] | [_ Hin]];
      [congruence | contradiction].
  - repeat split; try (intros []); constructor.
Qed.

Lemma session_keeps_clean
      (steps : list (option (list Task.t) * TaskFilters.action)) :
  forall filters,
    TaskFilters.all_offered filters steps ->
    (~ In EmptyString (TaskFiltersState.priority filters) /\
     ~ In EmptyString (TaskFiltersState.category filters) /\
     List.NoDup (TaskFiltersState.priority filters) /\
     List.NoDup (TaskFiltersState.category filters)) ->
    let filters' := TaskFilters.session filters steps in
    ~ In EmptyString (TaskFiltersState.priority filters') /\
    ~ In EmptyString (TaskFiltersState.category filters') /\
    List.NoDup (TaskFiltersState.priority filters') /\
    List.NoDup (TaskFiltersState.category filters').
Proof.
  cbv zeta. induction steps as [|[tasks a] rest IH]; intros filters Hoff Hclean;
    cbn [TaskFilters.session]; [exact Hclean |].
  destruct Hoff as [Ha Hrest]. apply IH; [exact Hrest |].
  exact (act_keeps_clean filters tasks a Ha Hclean).
Qed.

(** X19: after any sequence of actions the filter bar offers, starting
    from the initial filters of the dashboard, no set of the filters holds
    the empty string or a value twice, and [applyFilters] returns exactly
    the tasks for which the lower-case form of the search text occurs in
    the lower-case form of the title or of the description, the priority
    and the category are elements of their non-empty sets and the
    completion mode agrees; this for any [toLowerCase] that lower-cases
    the empty text, and no other, to the empty text. *)
Theorem filters_of_the_bar_filter_by_membership
        (toLowerCase : string -> string)
        (steps : list (option (list Task.t) * TaskFilters.action)) :
  Js.lowers_empty toLowerCase ->
  TaskFilters.all_offered Dashboard.initialFilters steps ->
  let filters := TaskFilters.session Dashboard.initialFilters steps in
  ~ In EmptyString (TaskFiltersState.priority filters) /\
  ~ In EmptyString (TaskFiltersState.category filters) /\
  List.NoDup (TaskFiltersState.priority filters) /\
  List.NoDup (TaskFiltersState.category filters) /\
  forall tasks task,
    In task (TaskList.applyFilters toLowerCase filters tasks) <->
    In task tasks /\ FilterSpec.satisfies toLowerCase filters task.
Proof.
  intros Hlowers Hoff. cbv zeta.
  destruct (session_keeps_clean steps Dashboard.initialFilters Hoff)
    as [Hp [Hc [Hnp Hnc]]].
  { cbn. repeat split; try (intros []); constructor. }
  split; [exact Hp |]. split; [exact Hc |]. split; [exact Hnp |].
  split; [exact Hnc |].
  intros tasks task. unfold TaskList.applyFilters.
  rewrite filter_In, (keep_spec toLowerCase Hlowers),
    (satisfies_present_iff toLowerCase _ _ Hp Hc).
  reflexivity.
Qed.

(** ** The two cards of the list *)

Lemma filter_partition_perm {A} (p : A -> bool) (l : list A) :
  List.filter (fun x => negb (p x)) l ++ List.filter p l ≡ₚ l.
Proof.
  induction l as [|x l IH]; cbn; [reflexivity |].
  destruct (p x); cbn.
  - rewrite <- Permutation_middle. constructor. exact IH.
  - constructor. exact IH.
Qed.

(** A task that is kept agrees with the completion mode. *)
Lemma keep_completed_ok (toLowerCase : string -> string)
      (filters : TaskFiltersState.t) (task : Task.t) :
  TaskList.keep toLowerCase filters task = true ->
  FilterSpec.completed_ok filters task.
Proof. intros H. apply keep_blocks in H. tauto. Qed.

(** X20: the active card and the completed card share out the filtered
    tasks, each task going to one of them; with mode active the completed
    card is empty, with mode completed the active card is, and before the
    tasks have arrived both are. *)
Theorem cards_share_the_filtered_tasks
        (toLowerCase : string -> string)
        (filters : TaskFiltersState.t) (tasks : option (list Task.t)) :
  TaskList.activeTasks toLowerCase filters tasks ++
  TaskList.completedTasks toLowerCase filters tasks
    ≡ₚ TaskList.filteredTasks toLowerCase filters tasks /\
  (length (TaskList.activeTasks toLowerCase filters tasks) +
   length (TaskList.completedTasks toLowerCase filters tasks) =
   length (TaskList.filteredTasks toLowerCase filters tasks))%nat /\
  (TaskFiltersState.completed filters = "active"%string ->
   TaskList.completedTasks toLowerCase filters tasks = []) /\
  (TaskFiltersState.completed filters = "completed"%string ->
   TaskList.activeTasks toLowerCase filters tasks = []) /\
  (tasks = None ->
   TaskList.activeTasks toLowerCase filters tasks = [] /\
   TaskList.completedTasks toLowerCase filters tasks = []).
Proof.
  unfold TaskList.activeTasks, TaskList.completedTasks.
  pose proof (filter_partition_perm Task.completed
                (TaskList.filteredTasks toLowerCase filters tasks)) as Hperm.
  split; [exact Hperm |]. split.
  { rewrite <- (Permutation_length Hperm), length_app. reflexivity. }
  assert (Hmode : forall task,
             In task (TaskList.filteredTasks toLowerCase filters tasks) ->
             FilterSpec.completed_ok filters task).
  { intros task Hin. destruct tasks as [ts|]; [| destruct Hin].
    cbn in Hin. unfold TaskList.applyFilters in Hin.
    apply filter_In in Hin as [_ Hkeep].
    exact (keep_completed_ok toLowerCase filters task Hkeep). }
  split; [| split].
  - intros Hactive. apply filter_nil_of_all_false. intros task Hin.
    exact (proj1 (Hmode task Hin) Hactive).
  - intros Hcompleted. apply filter_nil_of_all_false. intros task Hin.
    rewrite (proj2 (Hmode task Hin) Hcompleted). reflexivity.
  - intros ->. split; reflexivity.
Qed.

(** ** Typing in the search box *)

Lemma append_assoc (a b c : string) :
  String.append (String.append a b) c = String.append a (String.append b c).
Proof. induction a as [|x a IH]; cbn; [reflexivity | rewrite IH; reflexivity]. Qed.

Lemma lowered_substring_prefix (toLowerCase : string -> string)
      (needle longer hay : string) :
  (exists rest, toLowerCase longer = String.append (toLowerCase needle) rest) ->
  FilterSpec.lowered_substring toLowerCase longer hay ->
  FilterSpec.lowered_substring toLowerCase needle hay.
Proof.
  intros [rest Hrest] [pre [post H]]. exists pre, (String.append rest post).
  rewrite H, Hrest, append_assoc. reflexivity.
Qed.

Lemma filter_sublist_of_weaker {A} (p q : A -> bool) (l : list A) :
  (forall x, p x = true -> q x = true) ->
  sublist (List.filter p l) (List.filter q l).
Proof.
  intros H. induction l as [|x l IH]; cbn; [constructor |].
  destruct (p x) eqn:Ep.
  - rewrite (H x Ep). apply sublist_skip. exact IH.
  - destruct (q x); [apply sublist_cons |]; exact IH.
Qed.

(** X21: typing more characters at the end of the search text never
    brings a task back, as long as the lower-case form of the longer text
    begins with the lower-case form of the shorter one: the tasks shown are
    among those shown before, in the same order. *)
Theorem longer_search_shows_fewer
        (toLowerCase : string -> string)
        (filters : TaskFiltersState.t) (more : string) (tasks : list Task.t) :
  Js.lowers_empty toLowerCase ->
  (exists rest,
      toLowerCase (String.append (TaskFiltersState.search filters) more) =
      String.append (toLowerCase (TaskFiltersState.search filters)) rest) ->
  sublist
    (TaskList.applyFilters toLowerCase
       (TaskFilters.handleSearchChange
          filters (String.append (TaskFiltersState.search filters) more))
       tasks)
    (TaskList.applyFilters toLowerCase filters tasks).
Proof.
  intros Hlowers Hbegins.
  unfold TaskList.applyFilters. apply filter_sublist_of_weaker.
  intros task Hkeep. apply (keep_spec toLowerCase Hlowers) in Hkeep.
  apply (keep_spec toLowerCase Hlowers).
  destruct Hkeep as [Hsearch Hrest]. split; [| exact Hrest].
  unfold FilterSpec.search_ok in *.
  cbn [TaskFilters.handleSearchChange TaskFiltersState.search] in Hsearch.
  destruct Hsearch as [Hempty | [Htitle | [d [Hd Hdesc]]]].
  - left. apply append_empty_inv in Hempty. tauto.
  - right. left. exact (lowered_substring_prefix _ _ _ _ Hbegins Htitle).
  - right. right. exists d. split; [exact Hd |].
    exact (lowered_substring_prefix _ _ _ _ Hbegins Hdesc).
Qed.

(** It need not begin so: the capital sigma that ends [ΜΟΥΣ] becomes a
    final sigma, and a small sigma once a letter follows it; the fifth
    letter brings the task back. *)
Example longer_search_can_show_more :
  let museum := Task.mk "t1" "u1" "Μουσείο" None None false None None 0 in
  TaskList.applyFilters Sample.toLowerCase
    (TaskFilters.handleSearchChange Dashboard.initialFilters "ΜΟΥΣ") [museum] = [] /\
  TaskList.applyFilters Sample.toLowerCase
    (TaskFilters.handleSearchChange Dashboard.initialFilters "ΜΟΥΣΕ") [museum]
    = [museum].
Proof. vm_compute. split; reflexivity. Qed.

(** ** The progress bar *)

Lemma div_at_most_one (a b : Z) :
  0 <= a <= b -> 0 < b ->
  0 <= Double.m (Double.div a b) /\
  Double.e (Double.div a b) <= 0 /\
  Double.m (Double.div a b) <= 2 ^ (- Double.e (Double.div a b)).
Proof.
  intros [Ha Hab] Hb. unfold Double.div.
  destruct (Z.eqb_spec a 0) as [-> | Hne]; [cbn; lia |].
  assert (Hlog : Z.log2 a <= Z.log2 b) by (apply Z.log2_le_mono; exact Hab).
  set (s0 := 52 + Z.log2 b - Z.log2 a).
  set (s := if _ <? 2 ^ 52 then s0 + 1 else s0).
  assert (Hs : 52 <= s) by (unfold s, s0; destruct (_ <? _); lia).
  cbv zeta.
  replace (Z.max s 0) with s by lia. replace (Z.max (- s) 0) with 0 by lia.
  change (2 ^ 0) with 1. rewrite Z.mul_1_r.
  set (P := 2 ^ s). assert (HP : 0 < P) by (apply Z.pow_pos_nonneg; lia).
  pose proof (Z.div_mod (a * P) b ltac:(lia)) as Hdm.
  pose proof (Z.mod_pos_bound (a * P) b Hb) as Hr.
  assert (Hq0 : 0 <= a * P / b) by (apply Z.div_pos; nia).
  assert (Hq : a * P / b <= P).
  { apply Z.div_le_upper_bound; [exact Hb | nia]. }
  destruct ((b <? 2 * ((a * P) mod b)) ||
            ((2 * ((a * P) mod b) =? b) && Z.odd (a * P / b))) eqn:Hup;
    cbn [Double.m Double.e]; rewrite Z.opp_involutive; fold P.
  - assert (Hpos : 0 < (a * P) mod b).
    { apply orb_true_iff in Hup as [H | H].
      - apply Z.ltb_lt in H. lia.
      - apply andb_true_iff in H as [H _]. apply Z.eqb_eq in H. lia. }
    split; [lia |]. split; [lia |].
    assert (a * P / b <> P) by nia. lia.
  - split; [lia |]. split; [lia | exact Hq].
Qed.

Lemma times_100_at_most (x : Double.t) :
  0 <= Double.m x -> Double.e x <= 0 -> Double.m x <= 2 ^ (- Double.e x) ->
  let y := Double.times x 100 in
  0 <= Double.m y /\
  (0 <= Double.e y -> Double.m y * 2 ^ Double.e y <= 100) /\
  (Double.e y < 0 -> Double.m y <= 100 * 2 ^ (- Double.e y)).
Proof.
  intros Hm He Hle. cbv zeta. unfold Double.times, Double.round53.
  set (S := - Double.e x) in *. set (n := Double.m x * 100).
  assert (HS : 0 < 2 ^ S) by (apply Z.pow_pos_nonneg; lia).
  assert (Hn : 0 <= n <= 100 * 2 ^ S) by (unfold n; lia).
  destruct (Z.ltb_spec n (2 ^ 53)) as [Hsmall | Hbig]; cbn [Double.m Double.e].
  - rewrite Z.add_0_r. split; [lia |]. split.
    + intros H0. assert (Double.e x = 0) by lia.
      replace S with 0 in Hn by lia. rewrite H. change (2 ^ 0) with 1 in *. lia.
    + intros _. fold S. lia.
  - set (sh := Z.log2 n - 52).
    assert (Hlo : 53 <= Z.log2 n).
    { change 53 with (Z.log2 (2 ^ 53)). apply Z.log2_le_mono. exact Hbig. }
    assert (Hhi : Z.log2 n < S + 7).
    { apply Z.log2_lt_pow2; [lia |].
      rewrite Z.pow_add_r by lia. change (2 ^ 7) with 128. lia. }
    assert (Hsh : 1 <= sh <= S - 46) by (unfold sh; lia).
    set (P := 2 ^ sh). set (half := 2 ^ (sh - 1)).
    assert (HPh : P = 2 * half).
    { unfold P, half. replace sh with (Z.succ (sh - 1)) at 1 by lia.
      apply Z.pow_succ_r. lia. }
    assert (Hhalf : 0 < half) by (apply Z.pow_pos_nonneg; lia).
    set (K := 100 * 2 ^ (S - sh)).
    assert (HK : K * P = 100 * 2 ^ S).
    { unfold K, P. rewrite <- Z.mul_assoc, <- Z.pow_add_r by lia.
      f_equal. f_equal. lia. }
    pose proof (Z.div_mod n P ltac:(lia)) as Hdm.
    pose proof (Z.mod_pos_bound n P ltac:(lia)) as Hr.
    assert (Hq0 : 0 <= n / P) by (apply Z.div_pos; lia).
    assert (Hq : n / P <= K).
    { apply Z.div_le_upper_bound; [lia | lia]. }
    assert (Hexp : - (Double.e x + sh) = S - sh) by (unfold S; lia).
    destruct ((half <? n mod P) || ((n mod P =? half) && Z.odd (n / P))) eqn:Hup;
      cbn [Double.m Double.e].
    + assert (Hpos : 0 < n mod P).
      { apply orb_true_iff in Hup as [H | H].
        - apply Z.ltb_lt in H. lia.
        - apply andb_true_iff in H as [H _]. apply Z.eqb_eq in H. lia. }
      assert (n / P <> K) by nia.
      split; [lia |]. split; [intros; unfold S in *; lia |].
      intros _. rewrite Hexp. fold K. lia.
    + split; [lia |]. split; [intros; unfold S in *; lia |].
      intros _. rewrite Hexp. fold K. lia.
Qed.

Lemma round_at_most_100 (y : Double.t) :
  0 <= Double.m y ->
  (0 <= Double.e y -> Double.m y * 2 ^ Double.e y <= 100) ->
  (Double.e y < 0 -> Double.m y <= 100 * 2 ^ (- Double.e y)) ->
  0 <= Double.round y <= 100.
Proof.
  intros Hm Hpos Hneg. unfold Double.round.
  destruct (Z.leb_spec 0 (Double.e y)) as [He | He].
  - specialize (Hpos He).
    assert (0 < 2 ^ Double.e y) by (apply Z.pow_pos_nonneg; lia). nia.
  - specialize (Hneg He). set (E := - Double.e y) in *.
    assert (HE : 0 < 2 ^ E) by (apply Z.pow_pos_nonneg; lia).
    assert (HE1 : 2 ^ (E + 1) = 2 * 2 ^ E).
    { rewrite Z.pow_add_r by lia. change (2 ^ 1) with 2. lia. }
    split.
    + apply Z.div_pos; lia.
    + assert ((2 * Double.m y + 2 ^ E) / 2 ^ (E + 1) < 101); [| lia].
      apply Z.div_lt_upper_bound; lia.
Qed.

Lemma completedTasks_at_most (toLowerCase : string -> string)
      (filters : TaskFiltersState.t) (all : list Task.t) :
  (length (TaskList.completedTasks toLowerCase filters (Some all)) <= length all)%nat.
Proof.
  unfold TaskList.completedTasks, TaskList.filteredTasks, TaskList.applyFilters.
  etransitivity; apply List.filter_length_le.
Qed.

Lemma no_completed_task_in_active_mode (toLowerCase : string -> string)
      (filters : TaskFiltersState.t) (tasks : option (list Task.t)) :
  TaskFiltersState.completed filters = "active"%string ->
  TaskList.completedTasks toLowerCase filters tasks = [].
Proof.
  intros Hactive. unfold TaskList.completedTasks.
  apply filter_nil_of_all_false. intros task Hin.
  destruct tasks as [all|]; [| destruct Hin].
  cbn in Hin. unfold TaskList.applyFilters in Hin.
  apply filter_In in Hin as [_ Hkeep].
  exact (proj1 (keep_completed_ok toLowerCase filters task Hkeep) Hactive).
Qed.

Lemma div_self (a : Z) : 0 < a -> Double.div a a = Double.mk (2 ^ 52) (-52).
Proof.
  intros Ha. unfold Double.div.
  destruct (Z.eqb_spec a 0) as [-> | _]; [lia |].
  replace (52 + Z.log2 a - Z.log2 a) with 52 by lia. cbv zeta.
  change (Z.max 52 0) with 52. change (Z.max (- 52) 0) with 0.
  change (2 ^ 0) with 1. rewrite Z.mul_1_r.
  assert (Hq : a * 2 ^ 52 / a = 2 ^ 52).
  { rewrite Z.mul_comm. apply Z.div_mul. lia. }
  rewrite Hq. rewrite Z.ltb_irrefl.
  change (Z.max 52 0) with 52. change (Z.max (- 52) 0) with 0.
  change (2 ^ 0) with 1. rewrite Z.mul_1_r, Hq.
  assert (Hr : (a * 2 ^ 52) mod a = 0).
  { rewrite Z.mul_comm. apply Z.mod_mul. lia. }
  rewrite Hr. change (2 * 0) with 0.
  destruct (Z.ltb_spec a 0) as [Hneg | _]; [lia |].
  destruct (Z.eqb_spec 0 a) as [E | _]; [lia |]. reflexivity.
Qed.

(** X22: the percentage of the progress bar lies between 0 and 100; it
    is 0 while there is no task, 100 when every task is counted, and 0
    whenever the completion mode is active, whatever the tasks: only the
    completed tasks that pass the filters are counted. *)
Theorem completionPercentage_bounds
        (toLowerCase : string -> string)
        (filters : TaskFiltersState.t) (all : list Task.t) :
  0 <= Progress.completionPercentage toLowerCase filters (Some all) <= 100 /\
  Progress.completionPercentage toLowerCase filters None = 0 /\
  Progress.completionPercentage toLowerCase filters (Some []) = 0 /\
  (all <> [] ->
   TaskList.completedTasks toLowerCase filters (Some all) = all ->
   Progress.completionPercentage toLowerCase filters (Some all) = 100) /\
  (TaskFiltersState.completed filters = "active"%string ->
   Progress.completionPercentage toLowerCase filters (Some all) = 0).
Proof.
  split; [| split; [reflexivity | split; [reflexivity | split]]].
  - unfold Progress.completionPercentage.
    destruct (Nat.ltb_spec 0 (length all)) as [Hpos | _]; [| lia].
    pose proof (completedTasks_at_most toLowerCase filters all) as Hc.
    destruct (div_at_most_one
                (Z.of_nat (length (TaskList.completedTasks
                                     toLowerCase filters (Some all))))
                (Z.of_nat (length all)) ltac:(lia) ltac:(lia)) as [Hm [He Hle]].
    destruct (times_100_at_most _ Hm He Hle) as [Hm' [Hp Hn]].
    exact (round_at_most_100 _ Hm' Hp Hn).
  - intros Hne Hall. unfold Progress.completionPercentage. rewrite Hall.
    destruct all as [|task rest]; [contradiction |].
    change (0 <? length (task :: rest))%nat with true. cbv iota.
    rewrite div_self by (cbn [length]; lia). reflexivity.
  - intros Hactive. unfold Progress.completionPercentage.
    rewrite (no_completed_task_in_active_mode toLowerCase filters (Some all) Hactive).
    destruct (0 <? length all)%nat; reflexivity.
Qed.

Example completionPercentage_rounding :
  Double.round (Double.times (Double.div 29 200) 100) = 14 /\
  Double.round (Double.times (Double.div 1 200) 100) = 1 /\
  Double.round (Double.times (Double.div 2 3) 100) = 67.
Proof. vm_compute. repeat split. Qed.

(** ** The checkbox of a task *)

Lemma toggleBody_is_valid (task : Task.t) :
  Zod.insertTaskSchema_partial (TaskCard.toggleBody task) =
  inr (TaskUpdates.mk None None None (Some (negb (Task.completed task)))
                      None None).
Proof. reflexivity. Qed.

(** X23: the checkbox of a task sends the opposite of its [completed];
    for the owner the stored task comes back with that field flipped and
    every other field as it was, and checking again, on the task that came
    back, restores the task exactly. *)
Theorem checkbox_flips_completed_only
        (secret : option string) (h1 h2 : Host.t) (db : Db.t)
        (req1 req2 : Request.t) (caller : string) (task : Task.t) :
  authenticated secret h1 req1 caller ->
  authenticated secret h2 req2 caller ->
  DatabaseStorage.getTask db (Request.id req1) = Some task ->
  Task.userId task = caller ->
  Request.body req1 = TaskCard.toggleBody task ->
  let flipped :=
    Task.mk (Task.id task) (Task.userId task) (Task.title task)
            (Task.description task) (Task.dueDate task)
            (negb (Task.completed task))
            (Task.priority task) (Task.category task) (Task.createdAt task) in
  Request.id req2 = Request.id req1 ->
  Request.body req2 = TaskCard.toggleBody flipped ->
  let db1 := fst (Routes.patch_task secret h1 db req1) in
  let db2 := fst (Routes.patch_task secret h2 db1 req2) in
  snd (Routes.patch_task secret h1 db req1) =
    Response.ok (Response.TaskJson (Some flipped)) /\
  snd (Routes.patch_task secret h2 db1 req2) =
    Response.ok (Response.TaskJson (Some task)) /\
  DatabaseStorage.getTask db2 (Request.id req1) = Some task.
Proof.
  intros Hauth1 Hauth2 Hget Hown Hbody1. cbv zeta. intros Hid Hbody2.
  set (up1 := TaskUpdates.mk None None None (Some (negb (Task.completed task)))
                             None None).
  destruct (updateTask_found db (Request.id req1) up1 task eq_refl Hget)
    as [db1 [Hupd1 [_ Hget1]]].
  assert (Hflip : DatabaseStorage.set up1 task =
                  Task.mk (Task.id task) (Task.userId task) (Task.title task)
                          (Task.description task) (Task.dueDate task)
                          (negb (Task.completed task))
                          (Task.priority task) (Task.category task)
                          (Task.createdAt task)) by reflexivity.
  rewrite Hflip in Hupd1, Hget1.
  assert (Hrun1 : Routes.patch_task secret h1 db req1 =
                  (db1, Response.ok (Response.TaskJson (Some
                     (Task.mk (Task.id task) (Task.userId task) (Task.title task)
                              (Task.description task) (Task.dueDate task)
                              (negb (Task.completed task))
                              (Task.priority task) (Task.category task)
                              (Task.createdAt task)))))).
  { unfold Routes.patch_task.
    rewrite (authenticateToken_passes _ _ _ _ _ _ Hauth1), Hbody1,
      toggleBody_is_valid, Hget.
    rewrite (proj2 (String.eqb_eq _ _) Hown). cbn [negb].
    fold up1. rewrite Hupd1. reflexivity. }
  rewrite Hrun1. cbn [fst snd]. split; [reflexivity |].
  set (flipped := Task.mk (Task.id task) (Task.userId task) (Task.title task)
                          (Task.description task) (Task.dueDate task)
                          (negb (Task.completed task))
                          (Task.priority task) (Task.category task)
                          (Task.createdAt task)) in *.
  set (up2 := TaskUpdates.mk None None None (Some (negb (Task.completed flipped)))
                             None None).
  destruct (updateTask_found db1 (Request.id req1) up2 flipped eq_refl Hget1)
    as [db2 [Hupd2 [_ Hget2]]].
  assert (Hback : DatabaseStorage.set up2 flipped = task).
  { destruct task as [i u t d dd c p cat ca]. destruct c; reflexivity. }
  rewrite Hback in Hupd2, Hget2.
  assert (Hrun2 : Routes.patch_task secret h2 db1 req2 =
                  (db2, Response.ok (Response.TaskJson (Some task)))).
  { unfold Routes.patch_task.
    rewrite (authenticateToken_passes _ _ _ _ _ _ Hauth2), Hbody2,
      toggleBody_is_valid, Hid, Hget1.
    change (Task.userId flipped) with (Task.userId task).
    rewrite (proj2 (String.eqb_eq _ _) Hown). cbn [negb].
    fold up2. rewrite Hupd2. reflexivity. }
  rewrite Hrun2. cbn [fst snd]. split; [reflexivity | exact Hget2].
Qed.

(** ** What an update does not touch *)

Lemma find_map_if_other {A} (p hit : A -> bool) (f : A -> A) (l : list A) :
  (forall x, p (f x) = p x) ->
  (forall x, p x = true -> hit x = false) ->
  List.find p (List.map (fun x => if hit x then f x else x) l) = List.find p l.
Proof.
  intros Hp Hmiss. induction l as [|x l IH]; cbn; [reflexivity |].
  destruct (hit x) eqn:Ehit.
  - rewrite Hp. destruct (p x) eqn:Ep; [| exact IH].
    rewrite (Hmiss x Ep) in Ehit. discriminate.
  - destruct (p x); [reflexivity | exact IH].
Qed.

(** X24: whatever is sent to [PATCH /api/tasks/:id] and whoever sends
    it, the tasks with another identifier are found as before, and the
    table has as many rows and the same users. *)
Theorem patch_leaves_other_tasks
        (secret : option string) (h : Host.t) (db : Db.t) (req : Request.t) :
  let db' := fst (Routes.patch_task secret h db req) in
  (forall id, id <> Request.id req ->
              DatabaseStorage.getTask db' id = DatabaseStorage.getTask db id) /\
  length (Db.tasks db') = length (Db.tasks db) /\
  Db.users db' = Db.users db.
Proof.
  cbv zeta. unfold Routes.patch_task.
  apply (authenticateToken_keeps
           (fun st =>
              (forall id, id <> Request.id req ->
                          DatabaseStorage.getTask st id = DatabaseStorage.getTask db id) /\
              length (Db.tasks st) = length (Db.tasks db) /\
              Db.users st = Db.users db)); [repeat split |].
  intros caller _. cbv zeta.
  destruct (Zod.insertTaskSchema_partial (Request.body req)) as [errors | data];
    [repeat split |].
  destruct (DatabaseStorage.getTask db (Request.id req)) as [task|];
    [| repeat split].
  destruct (negb _); [repeat split |].
  unfold DatabaseStorage.updateTask.
  destruct (TaskUpdates.sets_nothing data); [repeat split |].
  cbn [fst Db.tasks Db.users]. split; [| split; [apply length_map | reflexivity]].
  intros id Hne. unfold DatabaseStorage.getTask. cbn [Db.tasks].
  apply find_map_if_other.
  - intros x. reflexivity.
  - intros x Hx. apply String.eqb_eq in Hx. apply String.eqb_neq. congruence.
Qed.

(** ** Widening and narrowing a selection *)

Lemma keep_weaker (toLowerCase : string -> string)
      (f g : TaskFiltersState.t) (tasks : list Task.t) :
  TaskFiltersState.search g = TaskFiltersState.search f ->
  TaskFiltersState.completed g = TaskFiltersState.completed f ->
  (forall value,
      FilterSpec.present_member_ok (TaskFiltersState.priority f) value ->
      FilterSpec.present_member_ok (TaskFiltersState.priority g) value) ->
  (forall value,
      FilterSpec.present_member_ok (TaskFiltersState.category f) value ->
      FilterSpec.present_member_ok (TaskFiltersState.category g) value) ->
  sublist (TaskList.applyFilters toLowerCase f tasks)
          (TaskList.applyFilters toLowerCase g tasks).
Proof.
  intros Hsearch Hcompleted Hpriority Hcategory.
  unfold TaskList.applyFilters. apply filter_sublist_of_weaker.
  intros task Hkeep. apply keep_blocks in Hkeep. apply keep_blocks.
  destruct Hkeep as [Hs [Hp [Hc Hd]]].
  unfold TaskList.matchesSearch, FilterSpec.completed_ok in *.
  rewrite Hsearch, Hcompleted. auto.
Qed.

Lemma present_member_wider (allowed : list string) (x : string)
      (value : option string) :
  allowed <> [] -> ~ In x allowed ->
  FilterSpec.present_member_ok allowed value ->
  FilterSpec.present_member_ok (TaskFilters.toggle allowed x) value.
Proof.
  intros Hne Hx [H | [v [Hv [Hv' Hin]]]]; [contradiction |].
  right. exists v. split; [exact Hv |]. split; [exact Hv' |].
  apply toggle_In. right. split; [intros ->; contradiction | exact Hin].
Qed.

(** X25: checking one more priority (resp. category), when some are
    checked already, only adds tasks to those shown; checking the first
    one only removes tasks.  The order of the tasks is kept. *)
Theorem one_more_selection_widens
        (toLowerCase : string -> string)
        (filters : TaskFiltersState.t) (x : string) (tasks : list Task.t) :
  (TaskFiltersState.priority filters <> [] ->
   ~ In x (TaskFiltersState.priority filters) ->
   sublist (TaskList.applyFilters toLowerCase filters tasks)
           (TaskList.applyFilters toLowerCase
                                  (TaskFilters.togglePriority filters x) tasks)) /\
  (TaskFiltersState.priority filters = [] ->
   sublist (TaskList.applyFilters toLowerCase
                                  (TaskFilters.togglePriority filters x) tasks)
           (TaskList.applyFilters toLowerCase filters tasks)) /\
  (TaskFiltersState.category filters <> [] ->
   ~ In x (TaskFiltersState.category filters) ->
   sublist (TaskList.applyFilters toLowerCase filters tasks)
           (TaskList.applyFilters toLowerCase
                                  (TaskFilters.toggleCategory filters x) tasks)) /\
  (TaskFiltersState.category filters = [] ->
   sublist (TaskList.applyFilters toLowerCase
                                  (TaskFilters.toggleCategory filters x) tasks)
           (TaskList.applyFilters toLowerCase filters tasks)).
Proof.
  split; [| split; [| split]].
  - intros Hne Hx. apply keep_weaker; try reflexivity; [| auto].
    intros value. exact (present_member_wider _ x value Hne Hx).
  - intros Hempty. apply keep_weaker; try reflexivity; [| auto].
    intros value _. left. exact Hempty.
  - intros Hne Hx. apply keep_weaker; try reflexivity; [auto |].
    intros value. exact (present_member_wider _ x value Hne Hx).
  - intros Hempty. apply keep_weaker; try reflexivity; [auto |].
    intros value _. left. exact Hempty.
Qed.

Lemma includes_empty (s : string) : Js.includes s EmptyString = true.
Proof. destruct s; reflexivity. Qed.

(** X26: the case of the search text does not matter: two texts with
    the same lower-case form select the same tasks, the lower-case form of
    the empty text being the empty text. *)
Theorem search_ignores_case_of_text
        (toLowerCase : string -> string)
        (filters : TaskFiltersState.t) (s s' : string) (tasks : list Task.t) :
  toLowerCase EmptyString = EmptyString ->
  toLowerCase s = toLowerCase s' ->
  TaskList.applyFilters toLowerCase (TaskFilters.handleSearchChange filters s) tasks =
  TaskList.applyFilters toLowerCase (TaskFilters.handleSearchChange filters s') tasks.
Proof.
  intros Hempty Hlower. unfold TaskList.applyFilters. apply filter_ext. intros task.
  assert (Hblock : forall a b,
             toLowerCase a = toLowerCase b ->
             Js.truthy a = false -> Js.truthy b = true ->
             forall hay, Js.includes hay (toLowerCase b) = true).
  { intros a b Hab Ha _ hay. apply truthy_false in Ha. subst a.
    rewrite <- Hab, Hempty. apply includes_empty. }
  unfold TaskList.keep, TaskList.matchesSearch.
  cbn [TaskFilters.handleSearchChange TaskFiltersState.search
       TaskFiltersState.priority TaskFiltersState.category
       TaskFiltersState.completed].
  destruct (Js.truthy s) eqn:Es; destruct (Js.truthy s') eqn:Es'.
  - rewrite Hlower. reflexivity.
  - rewrite (Hblock s' s (eq_sym Hlower) Es' Es). reflexivity.
  - rewrite (Hblock s s' Hlower Es Es'). reflexivity.
  - reflexivity.
Qed.

Example search_ignores_case_sample :
  TaskList.applyFilters Sample.toLowerCase
    (TaskFilters.handleSearchChange Dashboard.initialFilters "MiLk")
    (Db.tasks Sample.db) = [Sample.milk] /\
  TaskList.applyFilters Sample.toLowerCase
    (TaskFilters.handleSearchChange Dashboard.initialFilters "milk")
    (Db.tasks Sample.db) = [Sample.milk].
Proof. vm_compute. split; reflexivity. Qed.

(* ------------------------------------------------------------------ *)
(** ** These properties on the sample installation *)
(* ------------------------------------------------------------------ *)

Lemma sample_ids_unique : ids_unique Sample.db.
Proof.
  unfold ids_unique. cbn.
  repeat (constructor; [cbn; intuition discriminate |]). constructor.
Qed.

Lemma sample_usernames_unique : usernames_unique Sample.db.
Proof.
  unfold usernames_unique. cbn.
  repeat (constructor; [cbn; intuition discriminate |]). constructor.
Qed.

Lemma sample_fresh_uuid : fresh_uuid Sample.host Sample.db.
Proof. intros task [<- | [<- | [<- | []]]]; discriminate. Qed.

Lemma sample_caller_is_user uid id body caller :
  In uid ["u-1"; "u-2"]%string ->
  authenticated Sample.secret Sample.host (Sample.request uid id body) caller ->
  exists u, In u (Db.users Sample.db) /\ User.id u = caller.
Proof.
  intros Huid [token [Hc Hv]]. cbn in Hc. injection Hc as <-.
  rewrite verify_spec in Hv; [| reflexivity | vm_compute; reflexivity].
  injection Hv as <-. cbn.
  destruct Huid as [<- | [<- | []]].
  - exists Sample.alice. split; [left; reflexivity | reflexivity].
  - exists Sample.bob. split; [right; left; reflexivity | reflexivity].
Qed.

(** No cookie: 401 on every route behind the middleware. *)
Lemma X1_witness_no_cookie :
  let req := Request.mk None "t-1" (Json.Obj []) in
  let answer :=
    (Sample.db, Response.send 401 (Response.Message "Authentication required")) in
  Routes.get_me Sample.secret Sample.host Sample.db req = answer /\
  Routes.get_tasks Sample.secret Sample.host Sample.db req = answer /\
  Routes.post_tasks Sample.secret Sample.host Sample.db req = answer /\
  Routes.patch_task Sample.secret Sample.host Sample.db req = answer /\
  Routes.delete_task Sample.secret Sample.host Sample.db req = answer.
Proof.
  exact (refused_request_is_401_everywhere
           Sample.secret Sample.host Sample.db
           (Request.mk None "t-1" (Json.Obj [])) I).
Defined.

(** Anyone can sign for Bob with the key of the source. *)
Lemma X2_witness_forged_for_bob :
  let req := Request.mk
               (Some (Jwt.sign "u-2" "motivodo-secret-key" 3600 1762070000))
               EmptyString Json.Null in
  authenticated None Sample.host req "u-2" /\
  Routes.get_tasks None Sample.host Sample.db req =
    (Sample.db,
     Response.ok (Response.TasksJson
                    (DatabaseStorage.getTasksByUserId Sample.db "u-2"))).
Proof.
  apply (default_key_signs_for_anyone
           None Sample.host Sample.db
           (Request.mk (Some (Jwt.sign "u-2" "motivodo-secret-key" 3600 1762070000))
                       EmptyString Json.Null)
           "u-2" 1762070000 3600).
  - left. reflexivity.
  - reflexivity.
  - vm_compute. reflexivity.
Defined.

(** An unknown user and a wrong password of Alice: the same answer. *)
Lemma X3_witness_unknown_and_wrong :
  Routes.login Sample.secret Sample.compare Sample.host Sample.db
               (Request.mk None EmptyString (Sample.credentials "carol" "pw1")) =
    (Sample.db, Response.send 401 (Response.Message "Invalid credentials")) /\
  Routes.login Sample.secret Sample.compare Sample.host Sample.db
               (Request.mk None EmptyString (Sample.credentials "alice" "guess")) =
    (Sample.db, Response.send 401 (Response.Message "Invalid credentials")).
Proof.
  split.
  - apply (login_failures_are_alike
             Sample.secret Sample.compare Sample.host Sample.db
             (Request.mk None EmptyString (Sample.credentials "carol" "pw1"))
             (InsertUser.mk "carol" "pw1") eq_refl).
    left. reflexivity.
  - apply (login_failures_are_alike
             Sample.secret Sample.compare Sample.host Sample.db
             (Request.mk None EmptyString (Sample.credentials "alice" "guess"))
             (InsertUser.mk "alice" "guess") eq_refl).
    right. exists Sample.alice. split; reflexivity.
Defined.


(** Carol registers, then logs in. *)
Lemma X5_witness_carol :
  let req := Request.mk None EmptyString (Sample.credentials "carol" "pw3") in
  let db' := fst (Routes.register Sample.secret Sample.userSchema Sample.hash
                                  Sample.host Sample.db req) in
  Response.status
    (snd (Routes.register Sample.secret Sample.userSchema Sample.hash
                          Sample.host Sample.db req)) = 200 /\
  Routes.login Sample.secret Sample.compare Sample.host db' req =
    (db', Response.mk 200
            (Response.UserJson (Host.gen_random_uuid Sample.host) "carol")
            (Some (Jwt.sign (Host.gen_random_uuid Sample.host)
                            (Routes.JWT_SECRET Sample.secret)
                            Routes.seven_days (Routes.jwt_clock Sample.host)))).
Proof.
  apply (register_then_login
           Sample.secret Sample.userSchema Sample.hash Sample.compare
           Sample.host Sample.host Sample.db
           (Request.mk None EmptyString (Sample.credentials "carol" "pw3"))
           (Request.mk None EmptyString (Sample.credentials "carol" "pw3"))
           "carol" "pw3").
  - reflexivity.
  - reflexivity.
  - intros u [<- | [<- | []]]; discriminate.
  - reflexivity.
Defined.

(** Alice asks who she is; so does a token whose user is gone. *)
Lemma X6_witness_me :
  Routes.get_me Sample.secret Sample.host Sample.db
                (Sample.request "u-1" EmptyString Json.Null) =
    (Sample.db, Response.ok (Response.UserJson "u-1" "alice")) /\
  Routes.get_me Sample.secret Sample.host Sample.db
                (Sample.request "u-404" EmptyString Json.Null) =
    (Sample.db, Response.send 404 (Response.Message "User not found")).
Proof.
  split.
  - destruct (me_finds_the_caller_or_404
                Sample.secret Sample.host Sample.db
                (Sample.request "u-1" EmptyString Json.Null) "u-1"
                (sample_authenticated _ _ _)) as [_ Hfound].
    exact (proj2 (Hfound Sample.alice eq_refl)).
  - destruct (me_finds_the_caller_or_404
                Sample.secret Sample.host Sample.db
                (Sample.request "u-404" EmptyString Json.Null) "u-404"
                (sample_authenticated _ _ _)) as [Hgone _].
    apply Hgone. intros u [<- | [<- | []]]; discriminate.
Defined.

(** Updating a task that is not there. *)
Lemma X8_witness_update_missing :
  DatabaseStorage.updateTask Sample.db "t-9"
    (TaskUpdates.mk None None None (Some true) None None) = Some (Sample.db, None).
Proof.
  apply (updateTask_of_missing_id_is_noop
           Sample.db "t-9" (TaskUpdates.mk None None None (Some true) None None)).
  - reflexivity.
  - reflexivity.
Defined.

(** Alice deletes "Buy milk", twice. *)
Lemma X10_witness_delete_twice :
  let req := Sample.request "u-1" "t-1" (Json.Obj []) in
  let db' := fst (Routes.delete_task Sample.secret Sample.host Sample.db req) in
  Routes.delete_task Sample.secret Sample.host Sample.db req =
    (db', Response.ok (Response.Message "Task deleted successfully")) /\
  Db.tasks db' = [Sample.rent; Sample.mum] /\
  Routes.delete_task Sample.secret Sample.host db' req =
    (db', Response.send 404 (Response.Message "Task not found")).
Proof.
  cbv zeta.
  destruct (delete_own_task_then_404
              Sample.secret Sample.host Sample.host Sample.db
              (Sample.request "u-1" "t-1" (Json.Obj [])) "u-1" Sample.milk
              (sample_authenticated _ _ _) (sample_authenticated _ _ _)
              eq_refl eq_refl) as [Hfirst [_ [_ Hsecond]]].
  split; [exact Hfirst |]. split; [reflexivity | exact Hsecond].
Defined.

(** Whatever Alice does with "Pay rent" or her own tasks, Bob's list is
    the same. *)
Lemma X11_witness_bob_untouched :
  let req := Sample.request "u-1" "t-1"
                            (Json.Obj [("title"%string, Json.Str "Buy oat milk")]) in
  owned_by "u-2" (fst (Routes.post_tasks Sample.secret Sample.host Sample.db req))
    = [Sample.rent] /\
  owned_by "u-2" (fst (Routes.patch_task Sample.secret Sample.host Sample.db req))
    = [Sample.rent] /\
  owned_by "u-2" (fst (Routes.delete_task Sample.secret Sample.host Sample.db req))
    = [Sample.rent].
Proof.
  exact (task_routes_leave_other_users_tasks
           Sample.secret Sample.host Sample.db
           (Sample.request "u-1" "t-1"
                           (Json.Obj [("title"%string, Json.Str "Buy oat milk")]))
           "u-1" "u-2" (sample_authenticated _ _ _)
           ltac:(discriminate) sample_ids_unique).
Defined.

(** The identifiers stay different after Alice's requests. *)
Lemma X12_witness_ids :
  let req := Sample.request "u-1" "t-1"
                            (Json.Obj [("title"%string, Json.Str "Buy oat milk")]) in
  ids_unique (fst (Routes.post_tasks Sample.secret Sample.host Sample.db req)) /\
  ids_unique (fst (Routes.patch_task Sample.secret Sample.host Sample.db req)) /\
  ids_unique (fst (Routes.delete_task Sample.secret Sample.host Sample.db req)).
Proof.
  exact (task_routes_keep_ids_unique
           Sample.secret Sample.host Sample.db
           (Sample.request "u-1" "t-1"
                           (Json.Obj [("title"%string, Json.Str "Buy oat milk")]))
           sample_ids_unique sample_fresh_uuid).
Defined.

(** Carol registers and Alice writes: every task still has its owner. *)
Lemma X13_witness_owners_remain :
  let signup := Request.mk None EmptyString (Sample.credentials "carol" "pw3") in
  let req := Sample.request "u-1" "t-1"
                            (Json.Obj [("title"%string, Json.Str "Buy oat milk")]) in
  referential_integrity
    (fst (Routes.register Sample.secret Sample.userSchema Sample.hash
                          Sample.host Sample.db signup)) /\
  referential_integrity (fst (Routes.post_tasks Sample.secret Sample.host Sample.db req)) /\
  referential_integrity (fst (Routes.patch_task Sample.secret Sample.host Sample.db req)) /\
  referential_integrity (fst (Routes.delete_task Sample.secret Sample.host Sample.db req)).
Proof.
  cbv zeta. split.
  - apply (routes_keep_referential_integrity
             Sample.secret Sample.userSchema Sample.hash Sample.host Sample.db
             (Request.mk None EmptyString (Sample.credentials "carol" "pw3"))
             sample_referential_integrity).
    intros caller [token [Hc _]]. discriminate.
  - apply (routes_keep_referential_integrity
             Sample.secret Sample.userSchema Sample.hash Sample.host Sample.db
             (Sample.request "u-1" "t-1"
                             (Json.Obj [("title"%string, Json.Str "Buy oat milk")]))
             sample_referential_integrity).
    intros caller. apply sample_caller_is_user. left. reflexivity.
Defined.

(** Carol registers: three different usernames. *)
Lemma X14_witness_three_usernames :
  usernames_unique
    (fst (Routes.register Sample.secret Sample.userSchema Sample.hash
                          Sample.host Sample.db
                          (Request.mk None EmptyString
                                      (Sample.credentials "carol" "pw3")))).
Proof.
  exact (register_keeps_usernames_unique
           Sample.secret Sample.userSchema Sample.hash Sample.host Sample.db
           (Request.mk None EmptyString (Sample.credentials "carol" "pw3"))
           sample_usernames_unique).
Defined.

(** Alice adds "Walk the dog" and lists her tasks. *)
Lemma X15_witness_walk_the_dog :
  let req := Sample.request "u-1" EmptyString
                            (Json.Obj [("title"%string, Json.Str "Walk the dog")]) in
  let db' := fst (Routes.post_tasks Sample.secret Sample.host Sample.db req) in
  exists task tasks,
    snd (Routes.post_tasks Sample.secret Sample.host Sample.db req) =
      Response.ok (Response.TaskJson (Some task)) /\
    Routes.get_tasks Sample.secret Sample.host db' req =
      (db', Response.ok (Response.TasksJson tasks)) /\
    length tasks = 3%nat /\
    head tasks = Some task.
Proof.
  cbv zeta.
  destruct (created_task_is_listed
              Sample.secret Sample.host Sample.host Sample.db
              (Sample.request "u-1" EmptyString
                              (Json.Obj [("title"%string, Json.Str "Walk the dog")]))
              (Sample.request "u-1" EmptyString
                              (Json.Obj [("title"%string, Json.Str "Walk the dog")]))
              "u-1"
              (InsertTask.mk "Walk the dog" None None None None None)
              (sample_authenticated _ _ _) (sample_authenticated _ _ _) eq_refl)
    as [task [tasks [Hpost [Hget [_ [Hlen Hhead]]]]]].
  exists task, tasks.
  split; [exact Hpost |]. split; [exact Hget |]. split; [exact Hlen |].
  apply Hhead. clear Hhead Hlen Hget.
  vm_compute in Hpost. injection Hpost as <-.
  intros t [<- | [<- | []]]; reflexivity.
Defined.

(** Bob's three clicks. *)
Lemma X19_witness_bobs_clicks :
  let filters := TaskFilters.session Dashboard.initialFilters Sample.clicks in
  ~ In EmptyString (TaskFiltersState.priority filters) /\
  ~ In EmptyString (TaskFiltersState.category filters) /\
  List.NoDup (TaskFiltersState.priority filters) /\
  List.NoDup (TaskFiltersState.category filters) /\
  forall tasks task,
    In task (TaskList.applyFilters Sample.toLowerCase filters tasks) <->
    In task tasks /\ FilterSpec.satisfies Sample.toLowerCase filters task.
Proof.
  apply (filters_of_the_bar_filter_by_membership
           Sample.toLowerCase Sample.clicks sample_lowers_empty).
  cbn [TaskFilters.all_offered Sample.clicks TaskFilters.offered].
  split; [| split; [| split; [exact I | exact I]]].
  - left. vm_compute. tauto.
  - left. vm_compute. left. reflexivity.
Defined.

(** Alice checks "Buy milk" and unchecks it. *)
Lemma X23_witness_check_uncheck :
  let check := Sample.request "u-1" "t-1" (TaskCard.toggleBody Sample.milk) in
  let done :=
    Task.mk "t-1" "u-1" "Buy milk" None None true (Some "medium"%string) None
            1762000000000 in
  let uncheck := Sample.request "u-1" "t-1" (TaskCard.toggleBody done) in
  let db1 := fst (Routes.patch_task Sample.secret Sample.host Sample.db check) in
  let db2 := fst (Routes.patch_task Sample.secret Sample.host db1 uncheck) in
  snd (Routes.patch_task Sample.secret Sample.host Sample.db check) =
    Response.ok (Response.TaskJson (Some done)) /\
  snd (Routes.patch_task Sample.secret Sample.host db1 uncheck) =
    Response.ok (Response.TaskJson (Some Sample.milk)) /\
  DatabaseStorage.getTask db2 "t-1" = Some Sample.milk.
Proof.
  exact (checkbox_flips_completed_only
           Sample.secret Sample.host Sample.host Sample.db
           (Sample.request "u-1" "t-1" (TaskCard.toggleBody Sample.milk))
           (Sample.request "u-1" "t-1"
              (TaskCard.toggleBody
                 (Task.mk "t-1" "u-1" "Buy milk" None None true
                          (Some "medium"%string) None 1762000000000)))
           "u-1" Sample.milk
           (sample_authenticated _ _ _) (sample_authenticated _ _ _)
           eq_refl eq_refl eq_refl eq_refl eq_refl).
Defined.

(** "Mi", then "Milk", in the search box. *)
Lemma X21_witness_mi_milk :
  sublist
    (TaskList.applyFilters Sample.toLowerCase
       (TaskFilters.handleSearchChange Dashboard.initialFilters "Milk")
       (Db.tasks Sample.db))
    (TaskList.applyFilters Sample.toLowerCase
       (TaskFilters.handleSearchChange Dashboard.initialFilters "Mi")
       (Db.tasks Sample.db)).
Proof.
  apply (longer_search_shows_fewer
           Sample.toLowerCase
           (TaskFilters.handleSearchChange Dashboard.initialFilters "Mi")
           "lk" (Db.tasks Sample.db) sample_lowers_empty).
  exists "lk"%string. vm_compute. reflexivity.
Defined.

(** "MILK" and "milk" in the search box. *)
Lemma X26_witness_milk :
  TaskList.applyFilters Sample.toLowerCase
    (TaskFilters.handleSearchChange Dashboard.initialFilters "MILK")
    (Db.tasks Sample.db) =
  TaskList.applyFilters Sample.toLowerCase
    (TaskFilters.handleSearchChange Dashboard.initialFilters "milk")
    (Db.tasks Sample.db).
Proof.
  apply (search_ignores_case_of_text
           Sample.toLowerCase Dashboard.initialFilters "MILK" "milk"
           (Db.tasks Sample.db)).
  - reflexivity.
  - vm_compute. reflexivity.
Defined.
